(** * Cycle and symptom prediction engine: a shallow embedding

    The development follows [utils/cycle_calculator.py]
    ([MenstrualCycleCalculator]) and [utils/symptom_predictor.py]
    ([SymptomPredictor]).

    Modelling conventions.
    - A [datetime.date] is its proleptic Gregorian ordinal, an integer [Z];
      [(a - b).days] is integer subtraction and [d + timedelta(days=n)] is
      integer addition.
    - [date.today()] is an explicit argument [today].
    - The floats of the engine are averages of small integers, rates [k / n]
      with [n <= 7], and the literals 0.5 .. 0.8.  They are modelled as exact
      rationals [Q]; [int(x)] is truncation toward zero.
    - [sorted(xs, key=...)] is Python's stable ascending sort; the lemmas
      [sorted_perm], [sorted_ordered] and [sorted_stable] fix the function
      that models it. *)

From Stdlib Require Import String Ascii.
From Stdlib Require Import List ZArith QArith Qabs Qround Bool Lia.
From Stdlib Require Import Sorted Permutation.
Import ListNotations.

Local Open Scope Z_scope.

(** ** Python built-ins used by the engine *)

Module Py.

Section Sorted.
Context {A : Type}.
Variable key : A -> Z.

(** [x] is placed in front of the first element whose key is not smaller:
    an element that came earlier in the input stays in front of its
    equals, which is stability. *)
Fixpoint insert_by (x : A) (l : list A) : list A :=
  match l with
  | [] => [x]
  | y :: l' => if key x <=? key y then x :: l else y :: insert_by x l'
  end.

(** [sorted(l, key=key)]. *)
Definition sorted (l : list A) : list A := fold_right insert_by [] l.

(** The order [sorted] establishes. *)
Definition key_le (a b : A) : Prop := key a <= key b.
End Sorted.

(** [l[-n:]] for [n > 0]. *)
Definition last_n {A : Type} (n : nat) (l : list A) : list A :=
  skipn (length l - n) l.

(** [l[-1]] on a non-empty list, [None] on the empty one. *)
Definition last_opt {A : Type} (l : list A) : option A :=
  match rev l with
  | [] => None
  | x :: _ => Some x
  end.

(** [int(x)] on a float: truncation toward zero. *)
Definition int_of_float (x : Q) : Z := Z.quot (Qnum x) (Zpos (Qden x)).

(** [statistics.mean] of a non-empty list of integers. *)
Definition mean_int (l : list Z) : Q :=
  Qred (Qmake (fold_right Z.add 0 l) (Pos.of_nat (length l))).

(** [a > b] on floats. *)
Definition Qgtb (a b : Q) : bool := negb (Qle_bool a b).

(** [range(n)] as a list of integers; empty when [n <= 0]. *)
Definition range (n : Z) : list Z := map Z.of_nat (seq 0 (Z.to_nat n)).

End Py.

(** ** Calendar: [datetime.date(y, m, d).toordinal()] *)

Module Calendar.

Definition is_leap (year : Z) : bool :=
  (year mod 4 =? 0) && (negb (year mod 100 =? 0) || (year mod 400 =? 0)).

Definition days_before_year (year : Z) : Z :=
  let y := year - 1 in y * 365 + y / 4 - y / 100 + y / 400.

Definition days_in_month_table : list Z :=
  [31; 28; 31; 30; 31; 30; 31; 31; 30; 31; 30; 31].

Definition days_before_month (year month : Z) : Z :=
  fold_right Z.add 0 (firstn (Z.to_nat (month - 1)) days_in_month_table)
  + (if (2 <? month) && is_leap year then 1 else 0).

Definition ymd2ord (year month day : Z) : Z :=
  days_before_year year + days_before_month year month + day.

End Calendar.

(** ** [utils/cycle_calculator.py] *)

Module CycleCalculator.

Inductive Phase : Set := menstrual | follicular | ovulation | luteal.

Inductive Level : Set := low | medium | high.

(** The keys of an entry dictionary that the calculator reads. *)
Record CycleEntry : Set := mkEntry {
  date : Z;
  is_period_day : bool;
  moods : list string
}.

(** [schemas.cycle.CycleStats]; every optional field defaults to [None]. *)
Record CycleStats : Set := mkStats {
  average_cycle_length : option Q;
  average_period_length : option Q;
  last_period_start : option Z;
  next_predicted_period : option Z;
  next_predicted_ovulation : option Z;
  current_cycle_day : option Z;
  current_phase : option Phase;
  total_cycles_tracked : nat
}.

Record HormoneLevel : Set := mkHormone {
  estrogen_level : Level;
  progesterone_level : Level;
  testosterone_level : Level
}.

Record CyclePrediction : Set := mkPrediction {
  p_date : Z;
  cycle_day : Z;
  phase : Phase;
  predicted_mood : list string;
  predicted_symptoms : list string;
  hormone_levels : HormoneLevel;
  fertility_status : Level
}.

Definition default_cycle_length : Q := 28.
Definition default_period_length : Q := 5.
Definition luteal_phase_length : Q := 14.

(** [_get_current_phase] *)
Definition _get_current_phase (cycle_day : Z) (cycle_length : Q) : Phase :=
  if cycle_day <=? 5 then menstrual
  else if Qle_bool (inject_Z cycle_day) (cycle_length - luteal_phase_length)
  then follicular
  else if Qle_bool
            (Qabs (inject_Z cycle_day - (cycle_length - luteal_phase_length)))
            2
  then ovulation
  else luteal.

(** [_predict_hormone_levels] *)
Definition _predict_hormone_levels (cycle_day : Z) (cycle_length : Q)
  : HormoneLevel :=
  match _get_current_phase cycle_day cycle_length with
  | menstrual => mkHormone low low medium
  | follicular =>
      mkHormone (if cycle_day <? 10 then medium else high) low medium
  | ovulation => mkHormone high low high
  | luteal => mkHormone medium high low
  end.

(** [_predict_fertility] *)
Definition _predict_fertility (cycle_day : Z) (cycle_length : Q) : Level :=
  let ovulation_day := (cycle_length - luteal_phase_length)%Q in
  if Qle_bool (Qabs (inject_Z cycle_day - ovulation_day)) 1 then high
  else if Qle_bool (Qabs (inject_Z cycle_day - ovulation_day)) 3 then medium
  else low.

(** [_predict_symptoms]: the phase table only. *)
Definition _predict_symptoms (phase : Phase) (entries : list CycleEntry)
  : list string :=
  match phase with
  | menstrual => ["cramps"; "bloating"; "back_pain"]
  | follicular => []
  | ovulation => ["breast_tenderness"]
  | luteal => ["bloating"; "headache"; "food_cravings"; "acne"]
  end%string.

(** The loop of [_get_period_starts]: the state is the list built so far
    and the flag [in_period]. *)
Definition period_step (st : list Z * bool) (entry : CycleEntry)
  : list Z * bool :=
  let '(period_starts, in_period) := st in
  if is_period_day entry && negb in_period
  then (period_starts ++ [date entry], true)
  else if negb (is_period_day entry) then (period_starts, false)
  else (period_starts, in_period).

(** [_get_period_starts] *)
Definition _get_period_starts (entries : list CycleEntry) : list Z :=
  let entries_sorted := Py.sorted date entries in
  fst (fold_left period_step entries_sorted ([], false)).

(** The loop of [_calculate_period_length]; a [break] returns the count
    reached so far. *)
Fixpoint period_length_loop (start_date : Z) (es : list CycleEntry)
  (period_days : nat) (current_date : Z) : nat :=
  match es with
  | [] => period_days
  | entry :: es' =>
      if (start_date <=? date entry) && is_period_day entry then
        if date entry =? current_date
        then period_length_loop start_date es' (S period_days)
               (current_date + 1)
        else period_days
      else if start_date <? date entry then period_days
      else period_length_loop start_date es' period_days current_date
  end.

(** [_calculate_period_length] *)
Definition _calculate_period_length (entries : list CycleEntry)
  (start_date : Z) : option nat :=
  let period_days :=
    period_length_loop start_date (Py.sorted date entries) 0%nat start_date in
  if (0 <? period_days)%nat then Some period_days else None.

Definition valid_cycle (cycle_length : Z) : bool :=
  (21 <=? cycle_length) && (cycle_length <=? 35).

(** The first loop of [calculate_cycle_stats], over
    [range(1, len(period_starts))]. *)
Definition cycle_lengths (period_starts : list Z) : list Z :=
  flat_map (fun i =>
              let cycle_length :=
                nth i period_starts 0 - nth (i - 1) period_starts 0 in
              if valid_cycle cycle_length then [cycle_length] else [])
    (seq 1 (length period_starts - 1)).

(** A period length that is [None] (or zero) is dropped. *)
Definition period_lengths (entries : list CycleEntry) (period_starts : list Z)
  : list Z :=
  flat_map (fun start_date =>
              match _calculate_period_length entries start_date with
              | Some n => [Z.of_nat n]
              | None => []
              end) period_starts.

(** [calculate_cycle_stats] *)
Definition calculate_cycle_stats (today : Z) (entries : list CycleEntry)
  : CycleStats :=
  let period_starts := _get_period_starts entries in
  if (length period_starts <? 2)%nat then
    mkStats None None (hd_error period_starts) None None None None
      (length period_starts)
  else
    let cl := cycle_lengths period_starts in
    let pl := period_lengths entries period_starts in
    let avg_cycle_length :=
      match cl with [] => default_cycle_length | _ => Py.mean_int cl end in
    let avg_period_length :=
      match pl with [] => default_period_length | _ => Py.mean_int pl end in
    let last_period := Py.last_opt period_starts in
    match last_period with
    | Some lp =>
        let next_period := lp + Py.int_of_float avg_cycle_length in
        let next_ovulation :=
          lp + Py.int_of_float (avg_cycle_length - luteal_phase_length) in
        let ccd := today - lp + 1 in
        mkStats (Some avg_cycle_length) (Some avg_period_length) (Some lp)
          (Some next_period) (Some next_ovulation) (Some ccd)
          (Some (_get_current_phase ccd avg_cycle_length))
          (length period_starts)
    | None =>
        mkStats (Some avg_cycle_length) (Some avg_period_length) None
          None None None None (length period_starts)
    end.

Section Predictions.
(** [list(set(xs))]: the iteration order of a Python set of strings is
    fixed by the interpreter's hashing, not by the program. *)
Variable set_to_list : list string -> list string.

(** [historical_moods.count(mood) > len(entries) * 0.1] *)
Definition common_mood (historical_moods : list string) (n_entries : nat)
  (mood : string) : bool :=
  (Z.of_nat n_entries
     <? 10 * Z.of_nat (count_occ string_dec historical_moods mood)).

(** [_predict_mood] *)
Definition _predict_mood (phase : Phase) (entries : list CycleEntry)
  : list string :=
  let phase_moods :=
    match phase with
    | menstrual => ["tired"; "emotional"; "irritable"]
    | follicular => ["energetic"; "happy"; "calm"]
    | ovulation => ["happy"; "energetic"; "confident"]
    | luteal => ["anxious"; "irritable"; "sad"]
    end%string in
  let historical_moods := flat_map moods entries in
  let predicted :=
    match historical_moods with
    | [] => phase_moods
    | _ => phase_moods
           ++ filter (common_mood historical_moods (length entries))
                (set_to_list historical_moods)
    end in
  firstn 3 (set_to_list predicted).

(** The body of the loop of [generate_predictions] at one date.  The
    remainder is Python's, with the sign of the divisor; the divisor
    [int(cycle_length)] is at least 21 on every path that reaches it
    ([working_cycle_length_in_range] below), so it never is zero. *)
Definition predict_day (entries : list CycleEntry) (last_start : Z)
  (cycle_length : Q) (prediction_date : Z) : CyclePrediction :=
  let days_since_last_period := prediction_date - last_start in
  let cycle_day :=
    days_since_last_period mod Py.int_of_float cycle_length + 1 in
  let phase := _get_current_phase cycle_day cycle_length in
  mkPrediction prediction_date cycle_day phase
    (_predict_mood phase entries)
    (_predict_symptoms phase entries)
    (_predict_hormone_levels cycle_day cycle_length)
    (_predict_fertility cycle_day cycle_length).

(** [x or default] on an optional float: [None] and [0.0] are falsy. *)
Definition or_default (x : option Q) (d : Q) : Q :=
  match x with
  | Some q => if Qeq_bool q 0 then d else q
  | None => d
  end.

(** [generate_predictions] *)
Definition generate_predictions (today : Z) (entries : list CycleEntry)
  (days_ahead : Z) : list CyclePrediction :=
  let stats := calculate_cycle_stats today entries in
  match last_period_start stats with
  | None => []
  | Some last_start =>
      let cycle_length :=
        or_default (average_cycle_length stats) default_cycle_length in
      map (fun i => predict_day entries last_start cycle_length (today + i))
        (Py.range days_ahead)
  end.
End Predictions.

Section Analysis.
(** [list(set(xs))], in the interpreter's order. *)
Variable set_to_list : list string -> list string.

(** [analyze_mood_patterns]: the moods of every entry are filed under
    "menstrual", the phase of the entry not being computed; the result is
    the dictionary with its four keys in source order. *)
Definition analyze_mood_patterns (entries : list CycleEntry)
  : list (Phase * list string) :=
  [(menstrual, set_to_list (flat_map moods entries));
   (follicular, set_to_list []);
   (ovulation, set_to_list []);
   (luteal, set_to_list [])].
End Analysis.

End CycleCalculator.

(** ** [utils/symptom_predictor.py] *)

Module SymptomPredictor.

Local Open Scope string_scope.

(** The fields of [schemas.symptoms.SymptomResponse] that the predictor
    reads.  The optional fields are strings, as in the schema. *)
Record SymptomResponse : Set := mkSymptom {
  date : Z;
  mood : option string;
  cramps : option string;
  headache : bool;
  nausea : bool;
  fatigue : bool;
  flow_level : option string;
  sleep_quality : option string
}.

Record PredictedSymptom : Set := mkPredicted {
  symptom : string;
  probability : Q;
  confidence : string
}.

Record Suggestion : Set := mkSuggestion {
  category : string;
  title : string;
  description : string;
  priority : string
}.

Record SuggestionResponse : Set := mkSuggestionResponse {
  suggestions : list Suggestion;
  based_on_symptoms : list string;
  response_date : Z
}.

(** [x == s] for an optional string [x]. *)
Definition opt_eqb (x : option string) (s : string) : bool :=
  match x with
  | Some v => String.eqb v s
  | None => false
  end.

(** [x in choices] for an optional string [x]. *)
Definition opt_in (x : option string) (choices : list string) : bool :=
  existsb (opt_eqb x) choices.

(** Truth value of an optional string: [None] and the empty string are
    falsy. *)
Definition truthy (x : option string) : bool :=
  match x with
  | Some v => negb (String.eqb v "")
  | None => false
  end.

(** *** Frequency heuristic *)

(** [patterns[k] += 1] on a [defaultdict(int)]; a dictionary keeps its keys
    in the order of first insertion. *)
Fixpoint incr (k : string) (patterns : list (string * nat))
  : list (string * nat) :=
  match patterns with
  | [] => [(k, 1%nat)]
  | (k', v) :: rest =>
      if String.eqb k k' then (k', S v) :: rest else (k', v) :: incr k rest
  end.

Definition incr_if (b : bool) (k : string) (patterns : list (string * nat))
  : list (string * nat) :=
  if b then incr k patterns else patterns.

(** One round of the loop of [_analyze_symptom_sequences]. *)
Definition count_step (patterns : list (string * nat)) (s : SymptomResponse)
  : list (string * nat) :=
  incr_if (truthy (cramps s) && negb (opt_eqb (cramps s) "none")) "cramps"
    (incr_if (fatigue s) "fatigue"
       (incr_if (nausea s) "nausea"
          (incr_if (headache s) "headache" patterns))).

Definition count_patterns (symptoms : list SymptomResponse)
  : list (string * nat) :=
  fold_left count_step symptoms [].

(** [v / total_days] *)
Definition rate (v total_days : nat) : Q :=
  Qmake (Z.of_nat v) (Pos.of_nat total_days).

(** [_analyze_symptom_sequences] *)
Definition _analyze_symptom_sequences (symptoms : list SymptomResponse)
  : list (string * Q) :=
  let total_days := length symptoms in
  map (fun kv => (fst kv, rate (snd kv) total_days)) (count_patterns symptoms).

(** The body of the loop of [_predict_by_patterns]. *)
Definition pattern_prediction (kv : string * Q) : list PredictedSymptom :=
  let '(symptom, pattern_strength) := kv in
  if Py.Qgtb pattern_strength (6 # 10) then
    [mkPredicted symptom pattern_strength
       (if Py.Qgtb pattern_strength (8 # 10) then "high" else "medium")]
  else [].

(** [_predict_by_patterns] *)
Definition _predict_by_patterns (recent_symptoms : list SymptomResponse)
  (target_date : Z) : list PredictedSymptom :=
  if (length recent_symptoms <? 3)%nat then []
  else flat_map pattern_prediction (_analyze_symptom_sequences recent_symptoms).

(** *** Cycle-phase heuristic *)

Definition early_cycle : list Z := [1; 2; 3; 4; 5]%Z.
Definition mid_cycle : list Z := [6; 7; 8; 9; 10; 11; 12; 13; 14]%Z.
Definition late_cycle : list Z :=
  [15; 16; 17; 18; 19; 20; 21; 22; 23; 24; 25; 26; 27; 28]%Z.

(** [_find_last_flow_date] *)
Definition _find_last_flow_date (symptoms : list SymptomResponse) : option Z :=
  match
    find (fun s => truthy (flow_level s)
                   && opt_in (flow_level s) ["light"; "medium"; "heavy"])
      (rev symptoms)
  with
  | Some s => Some (date s)
  | None => None
  end.

(** [_get_cycle_phase_predictions] *)
Definition _get_cycle_phase_predictions (cycle_day : Z)
  : list PredictedSymptom :=
  if existsb (Z.eqb cycle_day) early_cycle then
    [mkPredicted "cramps" (7 # 10) "medium";
     mkPredicted "fatigue" (6 # 10) "medium"]
  else if existsb (Z.eqb cycle_day) late_cycle then
    [mkPredicted "mood_changes" (6 # 10) "medium";
     mkPredicted "headache" (5 # 10) "low"]
  else [].

(** [_predict_by_cycle_phase] *)
Definition _predict_by_cycle_phase (recent_symptoms : list SymptomResponse)
  (target_date : Z) : list PredictedSymptom :=
  match recent_symptoms with
  | [] => []
  | _ =>
      match _find_last_flow_date recent_symptoms with
      | Some last_flow_date =>
          _get_cycle_phase_predictions (target_date - last_flow_date + 1)
      | None => []
      end
  end.

(** *** Sequence heuristic *)

(** [_get_sequence_predictions] *)
Definition _get_sequence_predictions (yesterday : SymptomResponse)
  : list PredictedSymptom :=
  (if opt_eqb (cramps yesterday) "strong"
   then [mkPredicted "cramps" (6 # 10) "medium"] else [])
  ++ (if opt_eqb (sleep_quality yesterday) "poor"
      then [mkPredicted "fatigue" (8 # 10) "high"] else []).

(** [_predict_by_sequence] *)
Definition _predict_by_sequence (recent_symptoms : list SymptomResponse)
  (target_date : Z) : list PredictedSymptom :=
  if (length recent_symptoms <? 2)%nat then []
  else
    match Py.last_opt recent_symptoms with
    | Some yesterday => _get_sequence_predictions yesterday
    | None => []
    end.

(** The window [recent_symptoms] of [predict_tomorrow_symptoms]. *)
Definition recent_window (user_symptoms : list SymptomResponse)
  : list SymptomResponse :=
  Py.last_n 7 (Py.sorted date user_symptoms).

(** The list [predictions] of [predict_tomorrow_symptoms], as it stands when
    the three heuristics have run and before [_merge_predictions] groups it.
    On an empty log the function returns before the list is created. *)
Definition candidate_predictions (user_symptoms : list SymptomResponse)
  (target_date : Z) : list PredictedSymptom :=
  match user_symptoms with
  | [] => []
  | _ =>
      let recent_symptoms := recent_window user_symptoms in
      _predict_by_patterns recent_symptoms target_date
      ++ _predict_by_cycle_phase recent_symptoms target_date
      ++ _predict_by_sequence recent_symptoms target_date
  end.

(** *** Suggestions *)

(** [_load_suggestion_database]; the dictionary is written with its keys in
    source order. *)
Definition suggestion_database : list (string * list Suggestion) :=
  [("headache",
    [mkSuggestion "remedy" "Stay Hydrated"
       "Drink plenty of water throughout the day. Dehydration is a common headache trigger."
       "high";
     mkSuggestion "lifestyle" "Rest in Dark Room"
       "Find a quiet, dark room to rest. Reduce screen time and bright lights."
       "high";
     mkSuggestion "remedy" "Cold/Warm Compress"
       "Apply a cold compress to your forehead or a warm compress to your neck and shoulders."
       "medium";
     mkSuggestion "medical" "Over-the-Counter Pain Relief"
       "Consider ibuprofen or acetaminophen as directed. Consult healthcare provider if frequent."
       "medium"]);
   ("cramps",
    [mkSuggestion "remedy" "Heat Therapy"
       "Use a heating pad or hot water bottle on your lower abdomen or back."
       "high";
     mkSuggestion "lifestyle" "Gentle Exercise"
       "Try light walking, yoga, or stretching to help relieve cramps."
       "high";
     mkSuggestion "remedy" "Warm Bath"
       "Take a warm bath with Epsom salts to relax muscles and reduce pain."
       "medium";
     mkSuggestion "medical" "Anti-inflammatory Medication"
       "Consider ibuprofen or naproxen to reduce inflammation and pain."
       "medium"]);
   ("nausea",
    [mkSuggestion "remedy" "Ginger Tea"
       "Drink ginger tea or chew on fresh ginger to help settle your stomach."
       "high";
     mkSuggestion "lifestyle" "Small, Frequent Meals"
       "Eat small, bland meals throughout the day. Avoid greasy or spicy foods."
       "high";
     mkSuggestion "remedy" "Peppermint"
       "Try peppermint tea or aromatherapy to help reduce nausea."
       "medium"]);
   ("fatigue",
    [mkSuggestion "lifestyle" "Prioritize Sleep"
       "Aim for 7-9 hours of quality sleep. Maintain a consistent sleep schedule."
       "high";
     mkSuggestion "lifestyle" "Iron-Rich Foods"
       "Include iron-rich foods like spinach, lean meats, and legumes in your diet."
       "high";
     mkSuggestion "lifestyle" "Light Exercise"
       "Gentle exercise can boost energy levels. Try a short walk or light stretching."
       "medium"]);
   ("mood",
    [mkSuggestion "lifestyle" "Mindfulness Practice"
       "Try meditation, deep breathing, or mindfulness exercises for 10-15 minutes."
       "high";
     mkSuggestion "lifestyle" "Social Connection"
       "Reach out to friends or family. Social support can improve mood."
       "medium";
     mkSuggestion "lifestyle" "Sunlight Exposure"
       "Spend time outdoors or near a bright window to boost mood naturally."
       "medium"]);
   ("sleep",
    [mkSuggestion "lifestyle" "Sleep Hygiene"
       "Create a relaxing bedtime routine. Avoid screens 1 hour before bed."
       "high";
     mkSuggestion "remedy" "Herbal Tea"
       "Try chamomile or valerian root tea 30 minutes before bedtime."
       "medium";
     mkSuggestion "lifestyle" "Cool, Dark Environment"
       "Keep your bedroom cool (65-68°F) and as dark as possible."
       "medium"])].

(** [self.suggestion_database.get(key)]; [None] when the key is absent. *)
Fixpoint db_lookup (key : string) (db : list (string * list Suggestion))
  : option (list Suggestion) :=
  match db with
  | [] => None
  | (k, v) :: rest => if String.eqb key k then Some v else db_lookup key rest
  end.

(** [self.suggestion_database[key]] for a key of the catalogue. *)
Definition db_get (key : string) : list Suggestion :=
  match db_lookup key suggestion_database with
  | Some v => v
  | None => []
  end.

(** One guarded block of [_get_current_symptom_suggestions]. *)
Definition when_ (b : bool) (key factor : string)
  : list Suggestion * list string :=
  if b then (db_get key, [factor]) else ([], []).

Definition pair_app (a b : list Suggestion * list string)
  : list Suggestion * list string :=
  ((fst a ++ fst b)%list, (snd a ++ snd b)%list).

(** [_get_current_symptom_suggestions] *)
Definition _get_current_symptom_suggestions (symptoms : SymptomResponse)
  : list Suggestion * list string :=
  pair_app (when_ (headache symptoms) "headache" "headache")
    (pair_app
       (when_ (truthy (cramps symptoms)
               && opt_in (cramps symptoms) ["moderate"; "strong"])
          "cramps" "cramps")
       (pair_app (when_ (nausea symptoms) "nausea" "nausea")
          (pair_app (when_ (fatigue symptoms) "fatigue" "fatigue")
             (pair_app
                (when_ (opt_in (mood symptoms)
                          ["sad"; "irritated"; "anxious"; "depressed"])
                   "mood" "mood")
                (when_ (opt_in (sleep_quality symptoms) ["poor"; "fair"])
                   "sleep" "sleep_quality"))))).

(** [_convert_to_preventive] *)
Definition _convert_to_preventive (l : list Suggestion) : list Suggestion :=
  flat_map (fun suggestion =>
              if String.eqb (category suggestion) "lifestyle" then
                [mkSuggestion "preventive"
                   ("Prevent: " ++ title suggestion)
                   ("To prevent symptoms: " ++ description suggestion)
                   "low"]
              else []) l.

(** One round of the loop of [_get_preventive_suggestions]. *)
Definition preventive_step (pred : PredictedSymptom)
  : list Suggestion * list string :=
  if Py.Qgtb (probability pred) (7 # 10) then
    match db_lookup (symptom pred) suggestion_database with
    | Some entries =>
        (_convert_to_preventive entries, ["predicted_" ++ symptom pred])
    | None => ([], [])
    end
  else ([], []).

(** [_get_preventive_suggestions] *)
Definition _get_preventive_suggestions
  (predicted_symptoms : list PredictedSymptom)
  : list Suggestion * list string :=
  fold_right (fun pred acc => pair_app (preventive_step pred) acc) ([], [])
    predicted_symptoms.

(** [_get_general_wellness_suggestions] *)
Definition _get_general_wellness_suggestions : list Suggestion :=
  [mkSuggestion "lifestyle" "Stay Hydrated"
     "Drink at least 8 glasses of water throughout the day." "low";
   mkSuggestion "lifestyle" "Balanced Nutrition"
     "Include fruits, vegetables, and whole grains in your meals." "low"].

(** [priority_order.get(x.priority, 3)] *)
Definition priority_rank (p : string) : Z :=
  if String.eqb p "high" then 0
  else if String.eqb p "medium" then 1
  else if String.eqb p "low" then 2
  else 3.

Definition suggestion_key (s : Suggestion) : string * string :=
  (title s, category s).

Definition key_eqb (a b : string * string) : bool :=
  String.eqb (fst a) (fst b) && String.eqb (snd a) (snd b).

(** The loop of [_deduplicate_suggestions]: the state is the set [seen],
    kept as the list of its members, and the list [unique]. *)
Definition dedup_step (st : list (string * string) * list Suggestion)
  (suggestion : Suggestion) : list (string * string) * list Suggestion :=
  let '(seen, unique) := st in
  let key := suggestion_key suggestion in
  if existsb (key_eqb key) seen then (seen, unique)
  else (key :: seen, (unique ++ [suggestion])%list).

(** [_deduplicate_suggestions] *)
Definition _deduplicate_suggestions (l : list Suggestion) : list Suggestion :=
  let sorted_suggestions :=
    Py.sorted (fun x => priority_rank (priority x)) l in
  let unique := snd (fold_left dedup_step sorted_suggestions ([], [])) in
  firstn 10 unique.

(** The list [suggestions] of [generate_suggestions] as it is handed to
    [_deduplicate_suggestions], with the contributing factors. *)
Definition collect_suggestions (current_symptoms : option SymptomResponse)
  (predicted_symptoms : list PredictedSymptom)
  : list Suggestion * list string :=
  pair_app
    (match current_symptoms with
     | Some cs => _get_current_symptom_suggestions cs
     | None => ([], [])
     end)
    (pair_app
       (match predicted_symptoms with
        | [] => ([], [])
        | _ => _get_preventive_suggestions predicted_symptoms
        end)
       (_get_general_wellness_suggestions, [])).

Section Suggestions.
(** [list(set(xs))], in the interpreter's order. *)
Variable set_to_list : list string -> list string.

(** [generate_suggestions] *)
Definition generate_suggestions (today : Z)
  (current_symptoms : option SymptomResponse)
  (predicted_symptoms : list PredictedSymptom) : SuggestionResponse :=
  let '(suggestions, based_on_symptoms) :=
    collect_suggestions current_symptoms predicted_symptoms in
  mkSuggestionResponse
    (_deduplicate_suggestions suggestions)
    (set_to_list based_on_symptoms)
    (match current_symptoms with
     | Some cs => date cs
     | None => today
     end).
End Suggestions.

(** *** Merging *)

(** [symptom_groups[pred.symptom].append(pred)] on a [defaultdict(list)],
    whose keys stay in the order of first insertion. *)
Fixpoint group_add (pred : PredictedSymptom)
  (groups : list (string * list PredictedSymptom))
  : list (string * list PredictedSymptom) :=
  match groups with
  | [] => [(symptom pred, [pred])]
  | (k, preds) :: rest =>
      if String.eqb (symptom pred) k then (k, (preds ++ [pred])%list) :: rest
      else (k, preds) :: group_add pred rest
  end.

(** The dictionary [symptom_groups] of [_merge_predictions] when its first
    loop has run; each of its values is then handed to [statistics.mean]. *)
Definition symptom_groups (predictions : list PredictedSymptom)
  : list (string * list PredictedSymptom) :=
  fold_left (fun groups pred => group_add pred groups) predictions [].

(** The field [based_on_days] of the response of
    [predict_tomorrow_symptoms]: 0 on an empty log, the size of the window
    otherwise. *)
Definition based_on_days (user_symptoms : list SymptomResponse) : nat :=
  match user_symptoms with
  | [] => 0
  | _ => length (recent_window user_symptoms)
  end.

End SymptomPredictor.

(** ** The specification's vocabulary

    Notions the specification uses to describe the engine, written from its
    wording: runs of period days, gaps and their mean, and the rules it
    states about the results of the functions above. *)

Module Spec.

Import CycleCalculator.

(** A maximal run of period days: its first entry and the entries that
    follow it in the run. *)
Definition run : Set := (CycleEntry * list CycleEntry)%type.

Definition run_entries (r : run) : list CycleEntry := fst r :: snd r.

Definition first_date (r : run) : Z := date (fst r).

Definition period_day (e : CycleEntry) : Prop := is_period_day e = true.
Definition other_day (e : CycleEntry) : Prop := is_period_day e = false.

(** [starts_off l]: [l] does not begin with a period day. *)
Definition starts_off (l : list CycleEntry) : Prop :=
  match l with
  | [] => True
  | e :: _ => other_day e
  end.

(** [maximal_runs l rs]: [rs] lists, in order, the maximal blocks of
    consecutive period days of [l].  Each block is preceded by a stretch of
    other days and followed by the end of the list or by another day. *)
Inductive maximal_runs : list CycleEntry -> list run -> Prop :=
| runs_none : forall gap,
    Forall other_day gap -> maximal_runs gap []
| runs_cons : forall gap r rest rs,
    Forall other_day gap ->
    Forall period_day (run_entries r) ->
    starts_off rest ->
    maximal_runs rest rs ->
    maximal_runs (gap ++ run_entries r ++ rest) (r :: rs).

(** The runs of a list, computed. *)
Fixpoint runs_of (l : list CycleEntry) : list run :=
  match l with
  | [] => []
  | e :: l' =>
      if is_period_day e then
        match l' with
        | e' :: _ =>
            if is_period_day e' then
              match runs_of l' with
              | (_, tl) :: rs => (e, e' :: tl) :: rs
              | [] => [(e, [])]
              end
            else (e, []) :: runs_of l'
        | [] => [(e, [])]
        end
      else runs_of l'
  end.

(** Gaps, in days, between consecutive period starts. *)
Fixpoint gaps (period_starts : list Z) : list Z :=
  match period_starts with
  | a :: (b :: _) as rest => (b - a) :: gaps rest
  | _ => []
  end.

Definition plausible (gap : Z) : Prop := 21 <= gap <= 35.

Definition plausibleb (gap : Z) : bool := (21 <=? gap) && (gap <=? 35).

(** A cycle length, possibly fractional, within the plausible range. *)
Definition in_range (q : Q) : Prop := (21 <= q /\ q <= 35)%Q.

Definition sum (l : list Z) : Z := fold_right Z.add 0 l.

(** Arithmetic mean of a list of integers. *)
Definition average (l : list Z) : Q :=
  (inject_Z (sum l) / inject_Z (Z.of_nat (length l)))%Q.

(** [x % m] on Python floats, for [m > 0]. *)
Definition float_mod (x m : Q) : Q :=
  (x - m * inject_Z (Qfloor (x / m)))%Q.

(** The forecast read with the average cycle length taken as it is:
    dates that lie exactly [average_cycle_length] and
    [average_cycle_length - 14] days after the last period start. *)
Definition forecast_exact (today : Z) (entries : list CycleEntry) : Prop :=
  let st := calculate_cycle_stats today entries in
  exists last avg next ov,
    last_period_start st = Some last /\
    average_cycle_length st = Some avg /\
    next_predicted_period st = Some next /\
    next_predicted_ovulation st = Some ov /\
    (inject_Z next == inject_Z last + avg)%Q /\
    (inject_Z ov == inject_Z last + (avg - 14))%Q /\
    current_cycle_day st = Some (today - last + 1).

(** The cycle length [generate_predictions] works with. *)
Definition working_cycle_length (st : CycleStats) : Q :=
  or_default (average_cycle_length st) default_cycle_length.

(** The predictions read with the cycle day wrapped by the cycle length
    taken as it is. *)
Definition wrapped_exact (predictions : list CyclePrediction)
  (today last : Z) (cycle_length : Q) (days_ahead : Z) : Prop :=
  length predictions = Z.to_nat days_ahead /\
  forall i p, nth_error predictions i = Some p ->
    p_date p = today + Z.of_nat i /\
    (inject_Z (cycle_day p)
       == float_mod (inject_Z (p_date p - last)) cycle_length + 1)%Q /\
    1 <= cycle_day p /\
    (inject_Z (cycle_day p) <= cycle_length)%Q.

(** The same with the cycle length cut to whole days. *)
Definition wrapped_whole (predictions : list CyclePrediction)
  (today last : Z) (cycle_length : Q) (days_ahead : Z) : Prop :=
  length predictions = Z.to_nat days_ahead /\
  forall i p, nth_error predictions i = Some p ->
    p_date p = today + Z.of_nat i /\
    cycle_day p = (p_date p - last) mod Py.int_of_float cycle_length + 1 /\
    1 <= cycle_day p <= Py.int_of_float cycle_length /\
    (inject_Z (cycle_day p) <= cycle_length)%Q.

Import SymptomPredictor.

(** Cramps are present when a value is recorded and it is not "none"; an
    entry without a cramps value has none present. *)
Definition cramps_present (s : SymptomResponse) : bool :=
  truthy (cramps s) && negb (opt_eqb (cramps s) "none").

(** The four conditions of the frequency heuristic. *)
Definition tracked_conditions : list (string * (SymptomResponse -> bool)) :=
  [("headache"%string, headache); ("nausea"%string, nausea);
   ("fatigue"%string, fatigue); ("cramps"%string, cramps_present)].

Definition occurrences (cond : SymptomResponse -> bool)
  (l : list SymptomResponse) : nat :=
  length (filter cond l).

(** The frequency rule on one log: every tracked condition whose rate over
    the recent window exceeds 0.6 is among the candidates, with that rate
    and the matching confidence. *)
Definition frequency_rule (user_symptoms : list SymptomResponse)
  (target_date : Z) : Prop :=
  forall name cond, In (name, cond) tracked_conditions ->
    let recent := recent_window user_symptoms in
    let r := rate (occurrences cond recent) (length recent) in
    (6 # 10 < r)%Q ->
    In (mkPredicted name r
          (if Qlt_le_dec (8 # 10) r then "high" else "medium")%string)
       (candidate_predictions user_symptoms target_date).

(** The first-occurrence property of deduplication: [x] sits in [l] with no
    earlier entry of the same (title, category). *)
Definition first_occurrence (x : Suggestion) (l : list Suggestion) : Prop :=
  exists before after,
    l = before ++ x :: after /\
    ~ In (suggestion_key x) (map suggestion_key before).

Definition rank_of (s : Suggestion) : Z := priority_rank (priority s).

(** [x], found at position [i] of [l], is the first entry of [l] with its
    (title, category): no entry before position [i] carries that pair. *)
Definition first_at (l : list Suggestion) (i : nat) (x : Suggestion) : bool :=
  negb (existsb
          (fun y => key_eqb (suggestion_key y) (suggestion_key x))
          (firstn i l)).

(** The entry at position [i] when it is a first occurrence, nothing
    otherwise. *)
Definition occurrence_if_first (l : list Suggestion) (i : nat)
  : list Suggestion :=
  match nth_error l i with
  | Some x => if first_at l i x then [x] else []
  | None => []
  end.

(** Deduplication by (title, category), keeping first occurrences: the
    entries of [l] that are the first with their pair, in the order of
    [l]. *)
Definition first_occurrences (l : list Suggestion) : list Suggestion :=
  flat_map (occurrence_if_first l) (seq 0 (length l)).

(** A list ranked as a stable sort by priority rank ranks [l]: in
    ascending order of rank, and with the entries of each rank as they
    follow one another in [l]. *)
Definition stably_ranked (ranked l : list Suggestion) : Prop :=
  StronglySorted (Py.key_le rank_of) ranked /\
  forall r, filter (fun x => Z.eqb (rank_of x) r) ranked
            = filter (fun x => Z.eqb (rank_of x) r) l.

Definition same_pair_dec (a b : string * string) : {a = b} + {a <> b}.
Proof. decide equality; apply string_dec. Defined.

(** The number of different (title, category) pairs of a list. *)
Definition distinct_keys (l : list Suggestion) : nat :=
  length (nodup same_pair_dec (map suggestion_key l)).

End Spec.

(** ** Sample histories *)

Module Examples.

Import CycleCalculator.

Definition day (d : Z) (period : bool) : CycleEntry := mkEntry d period [].

(** Period days 0-1 and 28-29, given out of order. *)
Definition unsorted_history : list CycleEntry :=
  [day 29 true; day 1 true; day 0 true; day 2 false; day 28 true].

(** Starts on days 0 and 28. *)
Definition two_starts : list CycleEntry :=
  [day 0 true; day 1 false; day 28 true].

(** The same with a third start 40 days after the second. *)
Definition late_third_start : list CycleEntry :=
  two_starts ++ [day 29 false; day 68 true].

(** Starts on days 0, 28 and 57: gaps of 28 and 29 days, average 28.5. *)
Definition uneven_history : list CycleEntry :=
  [day 0 true; day 1 false; day 28 true; day 29 false; day 57 true].

(** Starts on 2024-01-01 and 2024-01-29. *)
Definition january_2024 : list CycleEntry :=
  [day (Calendar.ymd2ord 2024 1 1) true;
   day (Calendar.ymd2ord 2024 1 2) false;
   day (Calendar.ymd2ord 2024 1 29) true].

(** One period, of two days, starting on day 3. *)
Definition one_start : list CycleEntry :=
  [mkEntry 3 true ["happy"%string]; mkEntry 4 true []].

(** A set order: the order of the list itself. *)
Definition list_order (l : list string) : list string := l.

Import SymptomPredictor.

Definition headache_day (d : Z) : SymptomResponse :=
  mkSymptom d None None true false false None None.

Definition rough_day : SymptomResponse :=
  mkSymptom 1 None (Some "strong"%string) true true true None None.

(** A day with a flow level and nothing else. *)
Definition flow_day (d : Z) (level : string) : SymptomResponse :=
  mkSymptom d None None false false false (Some level) None.

(** A day on which nothing is reported. *)
Definition quiet_day (d : Z) : SymptomResponse :=
  mkSymptom d None None false false false None None.

End Examples.

(** ** Auxiliary definitions for the proofs *)

Module Aux.

Import SymptomPredictor.

(** [patterns.get(k, 0)] *)
Fixpoint get (k : string) (patterns : list (string * nat)) : nat :=
  match patterns with
  | [] => 0
  | (k', v) :: rest => if String.eqb k k' then v else get k rest
  end.

(** The loop of [_deduplicate_suggestions] as a recursive function: the
    entries whose key is neither in [seen] nor carried by an earlier entry. *)
Fixpoint keep_first (seen : list (string * string)) (l : list Suggestion)
  : list Suggestion :=
  match l with
  | [] => []
  | x :: l' =>
      if existsb (key_eqb (suggestion_key x)) seen then keep_first seen l'
      else x :: keep_first (suggestion_key x :: seen) l'
  end.

Definition key_dec (a b : string * string) : {a = b} + {a <> b}.
Proof. decide equality; apply string_dec. Defined.

(** The test of [_find_last_flow_date]: a flow level is recorded and it is
    light, medium or heavy. *)
Definition has_flow (s : SymptomResponse) : bool :=
  truthy (flow_level s)
  && opt_in (flow_level s) ["light"; "medium"; "heavy"]%string.

(** The names a prediction can carry. *)
Definition predictable : list string :=
  ["headache"; "nausea"; "fatigue"; "cramps"; "mood_changes"]%string.

(** The values of the field [confidence]. *)
Definition confidence_levels : list string :=
  ["low"; "medium"; "high"]%string.

(** The keys the counting loop can create. *)
Definition counted : list string :=
  ["headache"; "nausea"; "fatigue"; "cramps"]%string.

(** The current symptoms set off no suggestion: none of the six conditions
    of [_get_current_symptom_suggestions] holds. *)
Definition untroubled (s : SymptomResponse) : Prop :=
  headache s = false /\
  (truthy (cramps s) && opt_in (cramps s) ["moderate"; "strong"]%string)
  = false /\
  nausea s = false /\
  fatigue s = false /\
  opt_in (mood s) ["sad"; "irritated"; "anxious"; "depressed"]%string = false /\
  opt_in (sleep_quality s) ["poor"; "fair"]%string = false.

(** The keys of the catalogue. *)
Definition catalogue_keys : list string := map fst suggestion_database.

(** What the grouping loop of [_merge_predictions] keeps true of a group:
    it is not empty and holds predictions of its own name only. *)
Definition group_ok (g : string * list PredictedSymptom) : Prop :=
  snd g <> [] /\ Forall (fun p => symptom p = fst g) (snd g).

(** The place of a phase in the cycle. *)
Definition phase_index (p : CycleCalculator.Phase) : Z :=
  match p with
  | CycleCalculator.menstrual => 0
  | CycleCalculator.follicular => 1
  | CycleCalculator.ovulation => 2
  | CycleCalculator.luteal => 3
  end.

(** Suggestions of high priority. *)
Definition is_high (x : Suggestion) : bool :=
  Z.eqb (priority_rank (priority x)) 0.

(** What the counting loop keeps true of its dictionary: one entry per key,
    every key a counted one, every count positive. *)
Definition counts_ok (d : list (string * nat)) : Prop :=
  NoDup (map fst d) /\
  Forall (fun kv => In (fst kv) counted /\ (0 < snd kv)%nat) d.

End Aux.

(** * Properties *)

(** ** The built-ins *)

Module PyFacts.

Import Py.

Section SortedFacts.
Context {A : Type}.
Variable key : A -> Z.

Lemma insert_by_perm (x : A) (l : list A) :
  Permutation (insert_by key x l) (x :: l).
Proof.
  induction l as [|y l IH]; simpl; [reflexivity|].
  destruct (key x <=? key y); [reflexivity|].
  rewrite IH. apply perm_swap.
Qed.

Lemma sorted_perm (l : list A) : Permutation (sorted key l) l.
Proof.
  induction l as [|x l IH]; simpl; [constructor|].
  rewrite insert_by_perm. now constructor.
Qed.

Lemma sorted_length (l : list A) : length (sorted key l) = length l.
Proof. apply Permutation_length, sorted_perm. Qed.

Lemma sorted_in (x : A) (l : list A) : In x (sorted key l) <-> In x l.
Proof.
  split; apply Permutation_in; [|symmetry]; apply sorted_perm.
Qed.

Lemma insert_by_ordered (x : A) (l : list A) :
  StronglySorted (key_le key) l -> StronglySorted (key_le key) (insert_by key x l).
Proof.
  induction 1 as [|y l Hs IH Hy]; simpl.
  - repeat constructor.
  - destruct (Z.leb_spec (key x) (key y)) as [Hxy|Hxy].
    + constructor; [now constructor|].
      constructor; [exact Hxy|].
      eapply Forall_impl; [|exact Hy].
      unfold key_le; intros; lia.
    + constructor; [exact IH|].
      eapply Permutation_Forall; [symmetry; apply insert_by_perm|].
      constructor; [unfold key_le; lia | exact Hy].
Qed.

(** The result is in ascending order of the key. *)
Lemma sorted_ordered (l : list A) : StronglySorted (key_le key) (sorted key l).
Proof.
  induction l as [|x l IH]; simpl; [constructor|].
  now apply insert_by_ordered.
Qed.

Lemma insert_by_filter (k : Z) (x : A) (l : list A) :
  StronglySorted (key_le key) l ->
  filter (fun a => key a =? k) (insert_by key x l)
  = filter (fun a => key a =? k) (x :: l).
Proof.
  induction 1 as [|y l Hs IH Hy]; [reflexivity|].
  cbn [insert_by].
  destruct (Z.leb_spec (key x) (key y)) as [Hxy|Hxy]; [reflexivity|].
  cbn [filter] in *. rewrite IH.
  destruct (Z.eqb_spec (key x) k), (Z.eqb_spec (key y) k);
    try reflexivity; lia.
Qed.

(** Stability: entries with equal keys keep the order of the input. *)
Lemma sorted_stable (k : Z) (l : list A) :
  filter (fun a => key a =? k) (sorted key l)
  = filter (fun a => key a =? k) l.
Proof.
  induction l as [|x l IH]; [reflexivity|].
  cbn [sorted fold_right].
  rewrite insert_by_filter by apply sorted_ordered.
  cbn [filter]. fold (sorted key l). now rewrite IH.
Qed.
End SortedFacts.

Lemma last_n_length {A : Type} (n : nat) (l : list A) :
  length (last_n n l) = Nat.min n (length l).
Proof. unfold last_n. rewrite length_skipn. lia. Qed.

Lemma range_length (n : Z) : length (range n) = Z.to_nat n.
Proof. unfold range. now rewrite length_map, length_seq. Qed.

Lemma range_nth (n : Z) (i : nat) :
  (i < Z.to_nat n)%nat -> nth_error (range n) i = Some (Z.of_nat i).
Proof.
  intros Hi. unfold range.
  rewrite nth_error_map, nth_error_seq.
  destruct (Nat.ltb_spec i (Z.to_nat n)); [reflexivity | lia].
Qed.

(** [int] of a float that is at least a non-negative whole number. *)
Lemma int_of_float_ge (k : Z) (q : Q) :
  0 <= k -> (inject_Z k <= q)%Q -> k <= int_of_float q.
Proof.
  intros Hk Hq. destruct q as [a b]. unfold int_of_float, Qle in *.
  simpl in *. rewrite Z.mul_1_r in Hq.
  rewrite Z.quot_div_nonneg by lia.
  apply Z.div_le_lower_bound; lia.
Qed.

(** [int] never exceeds a non-negative float. *)
Lemma int_of_float_le (q : Q) :
  (0 <= q)%Q -> (inject_Z (int_of_float q) <= q)%Q.
Proof.
  destruct q as [a b]. unfold int_of_float, Qle. simpl.
  rewrite !Z.mul_1_r. intros Ha.
  rewrite Z.quot_div_nonneg by lia.
  rewrite Z.mul_comm. apply Z.mul_div_le. lia.
Qed.

End PyFacts.

(** ** The cycle calculator *)

Module CycleFacts.

Import Py PyFacts CycleCalculator Spec.

(** *** Phase classification *)

Lemma Qle_bool_false (x y : Q) : Qle_bool x y = false <-> ~ (x <= y)%Q.
Proof.
  rewrite <- Qle_bool_iff. destruct (Qle_bool x y); split; congruence.
Qed.

(** C1. The phase classifier is total and applies its four rules in order,
    the first that matches deciding: menstrual when [cycle_day <= 5]; else
    follicular when [cycle_day <= cycle_length - 14]; else ovulation when
    [|cycle_day - (cycle_length - 14)| <= 2]; luteal otherwise. *)
Theorem phase_rules_in_order (cycle_day : Z) (cycle_length : Q) :
  1 <= cycle_day ->
  let ovulation_day := (cycle_length - 14)%Q in
  let result := _get_current_phase cycle_day cycle_length in
  (cycle_day <= 5 -> result = menstrual) /\
  (~ cycle_day <= 5 ->
   (inject_Z cycle_day <= ovulation_day)%Q -> result = follicular) /\
  (~ cycle_day <= 5 ->
   ~ (inject_Z cycle_day <= ovulation_day)%Q ->
   (Qabs (inject_Z cycle_day - ovulation_day) <= 2)%Q ->
   result = ovulation) /\
  (~ cycle_day <= 5 ->
   ~ (inject_Z cycle_day <= ovulation_day)%Q ->
   ~ (Qabs (inject_Z cycle_day - ovulation_day) <= 2)%Q ->
   result = luteal) /\
  (exists p, result = p /\
             (p = menstrual \/ p = follicular \/ p = ovulation \/ p = luteal)).
Proof.
  intros _ ov result. subst ov result. unfold _get_current_phase.
  change luteal_phase_length with 14%Q.
  destruct (Z.leb_spec cycle_day 5) as [H5|H5].
  { repeat split; try (intros; (reflexivity || lia)).
    exists menstrual; auto. }
  destruct (Qle_bool (inject_Z cycle_day) (cycle_length - 14)) eqn:Hf.
  { apply Qle_bool_iff in Hf.
    repeat split; try (intros; (reflexivity || lia || contradiction)).
    exists follicular; auto. }
  apply Qle_bool_false in Hf.
  destruct (Qle_bool (Qabs (inject_Z cycle_day - (cycle_length - 14))) 2)
    eqn:Ho.
  { apply Qle_bool_iff in Ho.
    repeat split; try (intros; (reflexivity || lia || contradiction)).
    exists ovulation; auto. }
  apply Qle_bool_false in Ho.
  repeat split; try (intros; (reflexivity || lia || contradiction)).
  exists luteal; auto.
Qed.

Lemma phase_rules_in_order_witness :
  _get_current_phase 15 28 = ovulation.
Proof.
  assert (H : 1 <= 15) by lia.
  destruct (phase_rules_in_order 15 28 H) as (_ & _ & Hov & _).
  apply Hov.
  - lia.
  - intros Hle. unfold Qle in Hle; simpl in Hle; lia.
  - unfold Qle; simpl; lia.
Defined.

(** C2, amended.  On a 28-day cycle day 1 is menstrual, day 10
    and day 14 are follicular (rule 2 matches day 14 before the ovulation
    window is looked at), and day 20 is luteal. *)
Theorem phase_examples_28 :
  _get_current_phase 1 28 = menstrual /\
  _get_current_phase 14 28 = follicular /\
  _get_current_phase 20 28 = luteal /\
  _get_current_phase 10 28 = follicular.
Proof. repeat split. Qed.

(** C2 as it is worded fails: day 14 of a 28-day cycle is not classified
    as ovulation. *)
Lemma phase_day_14_not_ovulation :
  ~ (_get_current_phase 1 28 = menstrual /\
     _get_current_phase 14 28 = ovulation /\
     _get_current_phase 20 28 = luteal /\
     _get_current_phase 10 28 = follicular).
Proof. intros (_ & H & _). discriminate H. Qed.

(** On a 28-day cycle the ovulation phase is days 15 and 16. *)
Lemma phase_ovulation_window_28 (d : Z) :
  _get_current_phase d 28 = ovulation <-> d = 15 \/ d = 16.
Proof.
  unfold _get_current_phase.
  destruct (Z.leb_spec d 5); [split; [discriminate | lia]|].
  destruct (Qle_bool (inject_Z d) (28 - luteal_phase_length)) eqn:Hf.
  { apply Qle_bool_iff in Hf. unfold Qle in Hf; simpl in Hf.
    split; [discriminate | lia]. }
  apply Qle_bool_false in Hf. unfold Qle in Hf; simpl in Hf.
  destruct (Qle_bool (Qabs (inject_Z d - (28 - luteal_phase_length))) 2)
    eqn:Ho.
  - apply Qle_bool_iff in Ho. rewrite Qabs_Qle_condition in Ho.
    unfold Qle in Ho; simpl in Ho. split; [lia | reflexivity].
  - apply Qle_bool_false in Ho. rewrite Qabs_Qle_condition in Ho.
    unfold Qle in Ho; simpl in Ho. split; [discriminate | lia].
Qed.

(** *** Period starts *)

Lemma fold_other_days (gap : list CycleEntry) (acc : list Z) (b : bool) :
  Forall other_day gap ->
  fold_left period_step gap (acc, b)
  = (acc, match gap with [] => b | _ => false end).
Proof.
  intros H. revert b. induction H as [|e gap He _ IH]; intros b.
  - reflexivity.
  - cbn [fold_left]. unfold period_step at 2. unfold other_day in He.
    rewrite He. cbn. rewrite IH. now destruct gap.
Qed.

Lemma fold_period_days (r : list CycleEntry) (acc : list Z) :
  Forall period_day r ->
  fold_left period_step r (acc, true) = (acc, true).
Proof.
  induction 1 as [|e r He _ IH]; [reflexivity|].
  cbn [fold_left]. unfold period_step at 2. unfold period_day in He.
  rewrite He. cbn. exact IH.
Qed.

(** The loop, started anywhere a run cannot be cut in two, appends the
    first date of every maximal run. *)
Lemma fold_maximal_runs (l : list CycleEntry) (rs : list run) :
  maximal_runs l rs ->
  forall acc b, (b = true -> starts_off l) ->
    fst (fold_left period_step l (acc, b)) = acc ++ map first_date rs.
Proof.
  induction 1 as [gap Hgap | gap [e tl] rest rs Hgap Hrun Hrest _ IH];
    intros acc b Hb.
  - rewrite fold_other_days by assumption. cbn. now rewrite app_nil_r.
  - unfold run_entries in *. cbn [fst snd] in *.
    rewrite fold_left_app, fold_other_days by assumption.
    inversion Hrun as [|? ? He Htl]; subst.
    assert (Hstate : match gap with [] => b | _ => false end = false).
    { destruct gap; [|reflexivity].
      destruct b; [|reflexivity].
      specialize (Hb eq_refl). cbn in Hb.
      unfold other_day, period_day in *. congruence. }
    rewrite Hstate. cbn [app fold_left].
    unfold period_step at 2. unfold period_day in He. rewrite He. cbn.
    rewrite fold_left_app, fold_period_days by assumption.
    rewrite IH by (intros _; exact Hrest).
    cbn. now rewrite <- app_assoc.
Qed.

Lemma maximal_runs_skip (e : CycleEntry) (l : list CycleEntry)
  (rs : list run) :
  other_day e -> maximal_runs l rs -> maximal_runs (e :: l) rs.
Proof.
  intros He H. inversion H as [gap Hgap | gap r rest rs' Hgap Hr Hrest Hrs];
    subst.
  - constructor. now constructor.
  - change (e :: gap ++ run_entries r ++ rest)
      with ((e :: gap) ++ run_entries r ++ rest).
    constructor; auto.
Qed.

Lemma runs_of_two_period_days (e e' : CycleEntry) (l : list CycleEntry) :
  is_period_day e = true -> is_period_day e' = true ->
  runs_of (e :: e' :: l)
  = match runs_of (e' :: l) with
    | (_, tl) :: rs => (e, e' :: tl) :: rs
    | [] => [(e, [])]
    end.
Proof.
  intros He He'. change (runs_of (e :: e' :: l))
    with (if is_period_day e then
            if is_period_day e' then
              match runs_of (e' :: l) with
              | (_, tl) :: rs => (e, e' :: tl) :: rs
              | [] => [(e, [])]
              end
            else (e, []) :: runs_of (e' :: l)
          else runs_of (e' :: l)).
  now rewrite He, He'.
Qed.

(** Every list has its maximal runs, and [runs_of] computes them. *)
Lemma runs_of_maximal (l : list CycleEntry) : maximal_runs l (runs_of l).
Proof.
  induction l as [|e l IH].
  - constructor. constructor.
  - destruct (is_period_day e) eqn:He.
    + destruct l as [|e' l'].
      * cbn. rewrite He.
        apply (runs_cons [] (e, []) [] []); repeat constructor; exact He.
      * destruct (is_period_day e') eqn:He'.
        -- rewrite runs_of_two_period_days by assumption.
           remember (e' :: l') as l0 eqn:El0.
           destruct IH as [gap Hgap | gap [e0 tl] rest rs Hgap Hr Hrest Hrs].
           ++ subst gap. inversion Hgap; subst.
              unfold other_day in *. congruence.
           ++ destruct gap as [|g gap].
              ** unfold run_entries in *. cbn [fst snd app] in *.
                 inversion El0; subst.
                 apply (runs_cons [] (e, e' :: tl) rest rs); auto.
                 constructor; [exact He | exact Hr].
              ** cbn in El0. inversion El0; subst.
                 inversion Hgap; subst. unfold other_day in *. congruence.
        -- change (runs_of (e :: e' :: l'))
             with (if is_period_day e then
                     if is_period_day e' then
                       match runs_of (e' :: l') with
                       | (_, tl) :: rs => (e, e' :: tl) :: rs
                       | [] => [(e, [])]
                       end
                     else (e, []) :: runs_of (e' :: l')
                   else runs_of (e' :: l')).
           rewrite He, He'.
           apply (runs_cons [] (e, []) (e' :: l') (runs_of (e' :: l'))).
           ++ constructor.
           ++ repeat constructor. exact He.
           ++ exact He'.
           ++ exact IH.
    + change (runs_of (e :: l))
        with (if is_period_day e
              then match l with
                   | e' :: _ =>
                       if is_period_day e' then
                         match runs_of l with
                         | (_, tl) :: rs => (e, e' :: tl) :: rs
                         | [] => [(e, [])]
                         end
                       else (e, []) :: runs_of l
                   | [] => [(e, [])]
                   end
              else runs_of l).
      rewrite He. apply maximal_runs_skip; [exact He | exact IH].
Qed.

(** C3. On every entry list, sorted by date, the maximal runs of period days
    exist, and the period starts detected are exactly the first dates of
    these runs, in order; so there are as many starts as runs. *)
Theorem period_starts_are_run_heads (entries : list CycleEntry) :
  maximal_runs (sorted date entries) (runs_of (sorted date entries)) /\
  forall rs, maximal_runs (sorted date entries) rs ->
    _get_period_starts entries = map first_date rs /\
    length (_get_period_starts entries) = length rs.
Proof.
  split; [apply runs_of_maximal|].
  intros rs H. unfold _get_period_starts.
  assert (E : fst (fold_left period_step (sorted date entries) ([], false))
              = map first_date rs).
  { now rewrite (fold_maximal_runs _ _ H [] false) by discriminate. }
  split; [exact E|]. now rewrite E, length_map.
Qed.

Lemma period_starts_are_run_heads_witness :
  _get_period_starts Examples.unsorted_history = [0; 28] /\
  length (_get_period_starts Examples.unsorted_history) = 2%nat.
Proof.
  destruct (period_starts_are_run_heads Examples.unsorted_history)
    as [Hruns Hall].
  exact (Hall _ Hruns).
Defined.

(** *** Statistics *)

(** The early return of [calculate_cycle_stats]. *)
Lemma few_starts_stats (today : Z) (entries : list CycleEntry) :
  (length (_get_period_starts entries) < 2)%nat ->
  calculate_cycle_stats today entries
  = mkStats None None (hd_error (_get_period_starts entries)) None None None
      None (length (_get_period_starts entries)).
Proof.
  intros H. unfold calculate_cycle_stats.
  now destruct (Nat.ltb_spec (length (_get_period_starts entries)) 2); [|lia].
Qed.

(** C7. With fewer than two period starts the statistics are returned with
    the number of starts as [total_cycles_tracked], the single start (when
    there is one) as [last_period_start], and nothing else. *)
Theorem few_starts_degenerate (today : Z) (entries : list CycleEntry) :
  (length (_get_period_starts entries) < 2)%nat ->
  let st := calculate_cycle_stats today entries in
  total_cycles_tracked st = length (_get_period_starts entries) /\
  (total_cycles_tracked st = 0 \/ total_cycles_tracked st = 1)%nat /\
  last_period_start st
  = match _get_period_starts entries with
    | [start] => Some start
    | _ => None
    end /\
  average_cycle_length st = None /\
  average_period_length st = None /\
  next_predicted_period st = None /\
  next_predicted_ovulation st = None /\
  current_cycle_day st = None /\
  current_phase st = None.
Proof.
  intros H st. subst st. rewrite few_starts_stats by exact H.
  cbn [total_cycles_tracked last_period_start average_cycle_length
       average_period_length next_predicted_period next_predicted_ovulation
       current_cycle_day current_phase].
  destruct (_get_period_starts entries) as [|a [|b l]]; cbn in *;
    repeat split; auto; lia.
Qed.

Lemma few_starts_degenerate_witness :
  total_cycles_tracked (calculate_cycle_stats 100 Examples.one_start) = 1%nat /\
  last_period_start (calculate_cycle_stats 100 Examples.one_start) = Some 3 /\
  average_cycle_length (calculate_cycle_stats 100 Examples.one_start) = None.
Proof.
  assert (H : (length (_get_period_starts Examples.one_start) < 2)%nat)
    by (vm_compute; lia).
  destruct (few_starts_degenerate 100 Examples.one_start H)
    as (Ht & _ & Hl & Ha & _).
  split; [exact Ht | split; [exact Hl | exact Ha]].
Defined.

Lemma flat_map_ext_in {A B : Type} (f g : A -> list B) (l : list A) :
  (forall a, In a l -> f a = g a) -> flat_map f l = flat_map g l.
Proof.
  induction l as [|a l IH]; intros H; [reflexivity|].
  cbn. rewrite (H a) by now left. f_equal. apply IH. intros; apply H.
  now right.
Qed.

(** The index loop of the code collects the plausible gaps. *)
Lemma cycle_lengths_gaps (ps : list Z) :
  cycle_lengths ps = filter plausibleb (gaps ps).
Proof.
  unfold cycle_lengths.
  set (f := fun (l : list Z) (i : nat) =>
              let cycle_length := nth i l 0 - nth (i - 1) l 0 in
              if valid_cycle cycle_length then [cycle_length] else []).
  induction ps as [|a [|b rest] IH]; [reflexivity | reflexivity |].
  change (flat_map (f (a :: b :: rest)) (1%nat :: seq 2 (length rest))
          = filter plausibleb ((b - a) :: gaps (b :: rest))).
  change (flat_map (f (b :: rest)) (seq 1 (length rest - 0))
          = filter plausibleb (gaps (b :: rest))) in IH.
  assert (Htail : flat_map (f (a :: b :: rest)) (seq 2 (length rest))
                  = filter plausibleb (gaps (b :: rest))).
  { rewrite <- IH.
    rewrite Nat.sub_0_r, <- (seq_shift (length rest) 1), flat_map_concat_map,
      map_map, <- flat_map_concat_map.
    apply flat_map_ext_in. intros i Hi. apply in_seq in Hi.
    destruct i as [|i]; [lia|]. unfold f.
    now cbn [nth Nat.sub]; rewrite Nat.sub_0_r. }
  cbn [flat_map filter]. rewrite Htail.
  change (f (a :: b :: rest) 1%nat)
    with (if plausibleb (b - a) then [b - a] else []).
  now destruct (plausibleb (b - a)).
Qed.

Lemma gaps_length (ps : list Z) : length (gaps ps) = (length ps - 1)%nat.
Proof.
  induction ps as [|a [|b rest] IH]; [reflexivity | reflexivity |].
  cbn [gaps length] in *. lia.
Qed.

Lemma gaps_snoc (ps : list Z) (d : Z) :
  ps <> [] -> gaps (ps ++ [d]) = gaps ps ++ [d - last ps 0].
Proof.
  induction ps as [|a [|b rest] IH]; intros Hne; [congruence | reflexivity |].
  change (gaps ((a :: b :: rest) ++ [d]))
    with ((b - a) :: gaps ((b :: rest) ++ [d])).
  rewrite IH by discriminate. reflexivity.
Qed.

Lemma mean_int_average (l : list Z) :
  l <> [] -> (mean_int l == average l)%Q.
Proof.
  intros Hne. unfold mean_int, average. rewrite Qred_correct.
  fold (Spec.sum l). rewrite Qmake_Qdiv.
  destruct l as [|x l]; [congruence|].
  rewrite <- positive_nat_Z, Nat2Pos.id by discriminate. reflexivity.
Qed.

Lemma stats_total (today : Z) (entries : list CycleEntry) :
  total_cycles_tracked (calculate_cycle_stats today entries)
  = length (_get_period_starts entries).
Proof.
  unfold calculate_cycle_stats.
  destruct (length (_get_period_starts entries) <? 2)%nat; [reflexivity|].
  now destruct (last_opt (_get_period_starts entries)).
Qed.

Lemma last_opt_last {A : Type} (l : list A) (d : A) :
  l <> [] -> last_opt l = Some (last l d).
Proof.
  intros Hne. destruct (exists_last Hne) as (l' & x & ->).
  unfold last_opt. now rewrite rev_unit, last_last.
Qed.

(** The average of the statistics, when there are two starts or more. *)
Lemma stats_average (today : Z) (entries : list CycleEntry) :
  (2 <= length (_get_period_starts entries))%nat ->
  average_cycle_length (calculate_cycle_stats today entries)
  = Some (match cycle_lengths (_get_period_starts entries) with
          | [] => default_cycle_length
          | _ :: _ => mean_int (cycle_lengths (_get_period_starts entries))
          end).
Proof.
  intros H. unfold calculate_cycle_stats.
  destruct (Nat.ltb_spec (length (_get_period_starts entries)) 2); [lia|].
  destruct (last_opt (_get_period_starts entries)); reflexivity.
Qed.

Lemma few_starts_average (today : Z) (entries : list CycleEntry) :
  (length (_get_period_starts entries) < 2)%nat ->
  average_cycle_length (calculate_cycle_stats today entries) = None.
Proof.
  intros H. unfold calculate_cycle_stats.
  now destruct (Nat.ltb_spec (length (_get_period_starts entries)) 2); [|lia].
Qed.

(** C4. With two period starts or more, every gap between consecutive
    starts counts in [total_cycles_tracked], plausible or not, while
    [average_cycle_length] is the arithmetic mean of the gaps of 21 to 35
    days, or 28 when there is none.  A further start 40 days after the last
    one raises [total_cycles_tracked] by one and leaves the average as it
    was. *)
Theorem cycles_counted_and_averaged (today : Z) (entries : list CycleEntry) :
  (2 <= length (_get_period_starts entries))%nat ->
  let ps := _get_period_starts entries in
  let st := calculate_cycle_stats today entries in
  let kept := filter plausibleb (gaps ps) in
  total_cycles_tracked st = S (length (gaps ps)) /\
  (forall g, In g kept <-> In g (gaps ps) /\ plausible g) /\
  (exists avg,
      average_cycle_length st = Some avg /\
      (kept = [] -> avg = 28%Q) /\
      (kept <> [] -> (avg == average kept)%Q)) /\
  (forall today' entries',
      _get_period_starts entries' = ps ++ [last ps 0 + 40] ->
      let st' := calculate_cycle_stats today' entries' in
      In 40 (gaps (_get_period_starts entries')) /\
      total_cycles_tracked st' = S (total_cycles_tracked st) /\
      average_cycle_length st' = average_cycle_length st).
Proof.
  intros H ps st kept. subst st.
  assert (Hne : ps <> []).
  { intros E. subst ps. rewrite E in H. cbn in H. lia. }
  split; [|split; [|split]].
  - rewrite stats_total, gaps_length. unfold ps. lia.
  - intros g. subst kept. rewrite filter_In. unfold plausibleb, plausible.
    rewrite andb_true_iff, !Z.leb_le. tauto.
  - rewrite stats_average by exact H. fold ps.
    rewrite cycle_lengths_gaps. fold kept.
    eexists; split; [reflexivity|]. split.
    + intros ->. reflexivity.
    + intros Hk. destruct kept as [|g kept'] eqn:Ek; [congruence|].
      apply mean_int_average. discriminate.
  - intros today' entries' H' st'. subst st'.
    assert (H2 : (2 <= length (_get_period_starts entries'))%nat).
    { rewrite H', length_app. unfold ps. cbn. lia. }
    split; [|split].
    + rewrite H', gaps_snoc by exact Hne.
      apply in_or_app. right. left. lia.
    + rewrite !stats_total, H', length_app. unfold ps. cbn. lia.
    + rewrite !stats_average by assumption.
      rewrite H'. fold ps.
      rewrite !cycle_lengths_gaps, gaps_snoc by exact Hne.
      rewrite filter_app. cbn [filter].
      replace (last ps 0 + 40 - last ps 0) with 40 by lia.
      cbn. now rewrite app_nil_r.
Qed.

Lemma cycles_counted_and_averaged_witness :
  total_cycles_tracked (calculate_cycle_stats 70 Examples.two_starts)
  = 2%nat /\
  total_cycles_tracked (calculate_cycle_stats 70 Examples.late_third_start)
  = 3%nat /\
  average_cycle_length (calculate_cycle_stats 70 Examples.late_third_start)
  = Some 28%Q.
Proof.
  assert (H : (2 <= length (_get_period_starts Examples.two_starts))%nat)
    by (vm_compute; lia).
  destruct (cycles_counted_and_averaged 70 Examples.two_starts H)
    as (Ht & _ & _ & Hmore).
  destruct (Hmore 70 Examples.late_third_start eq_refl) as (_ & Ht' & Ha').
  split; [exact Ht|]. split; [exact Ht' | exact Ha'].
Defined.

(** *** The average cycle length is a plausible one *)

Lemma sum_bounds (lo hi : Z) (l : list Z) :
  Forall (fun x => lo <= x <= hi) l ->
  lo * Z.of_nat (length l) <= Spec.sum l <= hi * Z.of_nat (length l).
Proof.
  induction 1 as [|x l Hx _ IH]; [cbn; lia|].
  unfold Spec.sum in *. cbn [fold_right length]. lia.
Qed.

Lemma mean_int_bounds (lo hi : Z) (l : list Z) :
  l <> [] -> Forall (fun x => lo <= x <= hi) l ->
  (inject_Z lo <= mean_int l /\ mean_int l <= inject_Z hi)%Q.
Proof.
  intros Hne Hall. pose proof (sum_bounds lo hi l Hall) as Hs.
  unfold mean_int. rewrite !Qred_correct. fold (Spec.sum l).
  unfold Qle. cbn [Qnum Qden inject_Z].
  destruct l as [|x l]; [congruence|].
  rewrite <- positive_nat_Z, Nat2Pos.id by discriminate. lia.
Qed.

Lemma cycle_lengths_plausible (ps : list Z) :
  Forall (fun x => 21 <= x <= 35) (cycle_lengths ps).
Proof.
  rewrite cycle_lengths_gaps. apply Forall_forall. intros g Hg.
  apply filter_In in Hg. destruct Hg as [_ Hg]. unfold plausibleb in Hg.
  rewrite andb_true_iff, !Z.leb_le in Hg. exact Hg.
Qed.

Lemma chosen_average_in_range (ps : list Z) :
  in_range (match cycle_lengths ps with
            | [] => default_cycle_length
            | _ :: _ => mean_int (cycle_lengths ps)
            end).
Proof.
  pose proof (cycle_lengths_plausible ps) as Hall.
  destruct (cycle_lengths ps) as [|g l] eqn:E.
  - split; unfold Qle; cbn; lia.
  - apply (mean_int_bounds 21 35); [discriminate | exact Hall].
Qed.

(** [int] cuts a non-negative float to the whole number below it. *)
Lemma int_of_float_floor (q : Q) :
  (0 <= q)%Q ->
  (inject_Z (int_of_float q) <= q /\ q < inject_Z (int_of_float q) + 1)%Q.
Proof.
  intros Hq. split; [now apply int_of_float_le|].
  destruct q as [a b]. unfold int_of_float, Qle, Qlt, Qplus in *.
  cbn [Qnum Qden inject_Z] in *.
  rewrite Z.mul_1_r in Hq. rewrite Z.quot_div_nonneg by lia.
  pose proof (Z.mul_succ_div_gt a (Zpos b) ltac:(lia)). nia.
Qed.

(** The statistics, field by field, when there are two starts or more. *)
Lemma stats_fields (today : Z) (entries : list CycleEntry) :
  (2 <= length (_get_period_starts entries))%nat ->
  let ps := _get_period_starts entries in
  let avg := match cycle_lengths ps with
             | [] => default_cycle_length
             | _ :: _ => mean_int (cycle_lengths ps)
             end in
  let last := List.last ps 0 in
  let st := calculate_cycle_stats today entries in
  average_cycle_length st = Some avg /\
  last_period_start st = Some last /\
  next_predicted_period st = Some (last + int_of_float avg) /\
  next_predicted_ovulation st = Some (last + int_of_float (avg - 14)) /\
  current_cycle_day st = Some (today - last + 1) /\
  current_phase st = Some (_get_current_phase (today - last + 1) avg).
Proof.
  intros H ps avg last st. subst st. unfold calculate_cycle_stats.
  destruct (Nat.ltb_spec (length (_get_period_starts entries)) 2); [lia|].
  fold ps. rewrite (last_opt_last ps 0).
  - repeat split.
  - intros E. unfold ps in E. rewrite E in H. cbn in H. lia.
Qed.

(** C5 as it is worded fails when the average is not a whole number: with
    starts on days 0, 28 and 57 the average is 28.5 and the next period is
    predicted on day 85, not 28.5 days after day 57. *)
Lemma forecast_exact_fails :
  (2 <= length (_get_period_starts Examples.uneven_history))%nat /\
  average_cycle_length (calculate_cycle_stats 60 Examples.uneven_history)
  = Some (57 # 2) /\
  next_predicted_period (calculate_cycle_stats 60 Examples.uneven_history)
  = Some 85 /\
  ~ forecast_exact 60 Examples.uneven_history.
Proof.
  split; [vm_compute; lia|].
  split; [reflexivity|]. split; [reflexivity|].
  intros (last & avg & next & ov & Hl & Ha & Hn & _ & Hq & _).
  vm_compute in Hl, Ha, Hn.
  injection Hl as <-. injection Ha as <-. injection Hn as <-.
  vm_compute in Hq. discriminate Hq.
Qed.

(** C5, amended.  With two period starts or more the forecast counts whole
    days: the next period is predicted [int(average_cycle_length)] days
    after the last start and the next ovulation
    [int(average_cycle_length - 14)] days after it, [int] cutting the
    fraction of a day; [current_cycle_day] is the number of days from the
    last start to today plus one, not wrapped, so that it takes any integer
    value as today varies.  With starts on 2024-01-01 and 2024-01-29 the
    average is 28, the last start 2024-01-29 and the next period
    2024-02-26. *)
Theorem forecast_whole_days (today : Z) (entries : list CycleEntry) :
  (2 <= length (_get_period_starts entries))%nat ->
  let ps := _get_period_starts entries in
  let st := calculate_cycle_stats today entries in
  exists last avg,
    last_opt ps = Some last /\
    last_period_start st = Some last /\
    average_cycle_length st = Some avg /\
    (inject_Z (int_of_float avg) <= avg
     /\ avg < inject_Z (int_of_float avg) + 1)%Q /\
    next_predicted_period st = Some (last + int_of_float avg) /\
    next_predicted_ovulation st = Some (last + int_of_float (avg - 14)) /\
    current_cycle_day st = Some (today - last + 1) /\
    (forall k, exists today',
        current_cycle_day (calculate_cycle_stats today' entries) = Some k) /\
    (ps = [Calendar.ymd2ord 2024 1 1; Calendar.ymd2ord 2024 1 29] ->
     avg = 28%Q /\
     last = Calendar.ymd2ord 2024 1 29 /\
     next_predicted_period st = Some (Calendar.ymd2ord 2024 2 26)).
Proof.
  intros H ps st.
  destruct (stats_fields today entries H) as (Ha & Hl & Hn & Ho & Hd & _).
  fold ps in Ha, Hl, Hn, Ho, Hd. fold st in Ha, Hl, Hn, Ho, Hd.
  assert (Hne : ps <> []).
  { intros E. unfold ps in E. rewrite E in H. cbn in H. lia. }
  eexists; eexists.
  split; [apply (last_opt_last ps 0 Hne)|].
  split; [exact Hl|]. split; [exact Ha|].
  split.
  { apply int_of_float_floor.
    destruct (chosen_average_in_range ps) as [Hlo _].
    eapply Qle_trans; [|exact Hlo]. unfold Qle; cbn; lia. }
  split; [exact Hn|]. split; [exact Ho|]. split; [exact Hd|].
  split.
  - intros k. exists (k + List.last ps 0 - 1).
    destruct (stats_fields (k + List.last ps 0 - 1) entries H)
      as (_ & _ & _ & _ & Hd' & _).
    fold ps in Hd'. rewrite Hd'. f_equal. lia.
  - intros E. rewrite Hn. rewrite E. repeat split.
Qed.

Lemma forecast_whole_days_witness :
  next_predicted_period
    (calculate_cycle_stats (Calendar.ymd2ord 2024 1 28) Examples.january_2024)
  = Some (Calendar.ymd2ord 2024 2 26) /\
  current_cycle_day
    (calculate_cycle_stats (Calendar.ymd2ord 2024 1 28) Examples.january_2024)
  = Some 0.
Proof.
  assert (H : (2 <= length (_get_period_starts Examples.january_2024))%nat)
    by (vm_compute; lia).
  destruct (forecast_whole_days (Calendar.ymd2ord 2024 1 28)
              Examples.january_2024 H)
    as (last & avg & Hlast & _ & _ & _ & _ & _ & Hd & _ & Hex).
  destruct (Hex eq_refl) as (_ & _ & Hn).
  injection Hlast as <-.
  split; [exact Hn | exact Hd].
Defined.

(** *** Predictions *)

Lemma or_default_in_range (x : option Q) :
  (forall q, x = Some q -> in_range q) ->
  in_range (or_default x default_cycle_length).
Proof.
  intros H. destruct x as [q|]; cbn.
  - destruct (Qeq_bool q 0) eqn:E.
    + split; unfold Qle; cbn; lia.
    + now apply H.
  - split; unfold Qle; cbn; lia.
Qed.

(** The cycle length the generator works with is never below 21 days, so
    the remainder by [int(cycle_length)] is always defined. *)
Lemma working_cycle_length_in_range (today : Z) (entries : list CycleEntry) :
  in_range (working_cycle_length (calculate_cycle_stats today entries)).
Proof.
  unfold working_cycle_length. apply or_default_in_range. intros q Hq.
  destruct (Nat.ltb_spec (length (_get_period_starts entries)) 2) as [Hlt|Hge].
  - rewrite (few_starts_average today entries Hlt) in Hq. discriminate.
  - rewrite stats_average in Hq by exact Hge. injection Hq as <-.
    apply chosen_average_in_range.
Qed.

Lemma int_of_in_range (q : Q) : in_range q -> 21 <= int_of_float q.
Proof.
  intros [Hlo _]. apply int_of_float_ge; [lia | exact Hlo].
Qed.

Lemma nth_error_map_inv {A B : Type} (f : A -> B) (l : list A) (i : nat)
  (y : B) :
  nth_error (map f l) i = Some y ->
  exists x, nth_error l i = Some x /\ y = f x.
Proof.
  rewrite nth_error_map. destruct (nth_error l i) as [x|]; cbn; [|discriminate].
  intros [= <-]. now exists x.
Qed.

Lemma range_nth_inv (n : Z) (i : nat) (x : Z) :
  nth_error (range n) i = Some x -> x = Z.of_nat i /\ (i < Z.to_nat n)%nat.
Proof.
  intros H.
  assert (Hi : (i < Z.to_nat n)%nat).
  { rewrite <- range_length. apply nth_error_Some. congruence. }
  rewrite range_nth in H by exact Hi. injection H as <-. now split.
Qed.

Section PredictionFacts.
Variable set_to_list : list string -> list string.

Lemma generate_predictions_unfold (today : Z) (entries : list CycleEntry)
  (days_ahead last : Z) :
  last_period_start (calculate_cycle_stats today entries) = Some last ->
  generate_predictions set_to_list today entries days_ahead
  = map (fun i =>
           predict_day set_to_list entries last
             (working_cycle_length (calculate_cycle_stats today entries))
             (today + i))
      (range days_ahead).
Proof.
  intros H. unfold generate_predictions. now rewrite H.
Qed.

(** C6, amended.  When the statistics carry a last period start,
    [generate_predictions] returns exactly [days_ahead] predictions; the
    one at offset [i] is dated [today + i] and has
    [cycle_day = ((date - last_period_start) mod int(cycle_length)) + 1],
    the cycle length being cut to whole days before the remainder is
    taken, so that the cycle day lies between 1 and [int(cycle_length)],
    hence within the cycle length.  Without a last period start the
    result is empty. *)
Theorem predictions_wrapped_whole (today : Z) (entries : list CycleEntry)
  (days_ahead : Z) :
  0 <= days_ahead ->
  let st := calculate_cycle_stats today entries in
  let predictions :=
    generate_predictions set_to_list today entries days_ahead in
  match last_period_start st with
  | None => predictions = []
  | Some last =>
      wrapped_whole predictions today last (working_cycle_length st)
        days_ahead
  end.
Proof.
  intros Hd st predictions.
  destruct (last_period_start st) as [last|] eqn:Hl.
  - subst predictions.
    rewrite (generate_predictions_unfold _ _ _ _ Hl). fold st.
    pose proof (working_cycle_length_in_range today entries) as Hr.
    fold st in Hr. pose proof (int_of_in_range _ Hr) as Hint.
    split; [now rewrite length_map, range_length|].
    intros i p Hp.
    apply nth_error_map_inv in Hp. destruct Hp as (x & Hx & ->).
    apply range_nth_inv in Hx. destruct Hx as [-> _].
    cbn [predict_day p_date cycle_day].
    pose proof (Z.mod_pos_bound (today + Z.of_nat i - last)
                  (int_of_float (working_cycle_length st)) ltac:(lia)).
    repeat split; try lia.
    eapply Qle_trans; [|apply int_of_float_le].
    + rewrite <- Zle_Qle. lia.
    + destruct Hr as [Hlo _]. eapply Qle_trans; [|exact Hlo].
      unfold Qle; cbn; lia.
  - subst predictions. unfold generate_predictions. fold st.
    now rewrite Hl.
Qed.
End PredictionFacts.

Lemma predictions_wrapped_whole_witness :
  wrapped_whole
    (generate_predictions Examples.list_order 85 Examples.uneven_history 3)
    85 57 (57 # 2) 3.
Proof.
  assert (H : 0 <= 3) by lia.
  exact (predictions_wrapped_whole Examples.list_order 85
           Examples.uneven_history 3 H).
Defined.

(** C6 as it is worded fails when the cycle length is not a whole number:
    with starts on days 0, 28 and 57 the cycle length is 28.5; on day 85,
    28 days after the last start, the cycle day is 1 (28 mod 28 + 1), not
    28 mod 28.5 + 1 = 29. *)
Lemma wrapped_exact_fails :
  last_period_start (calculate_cycle_stats 85 Examples.uneven_history)
  = Some 57 /\
  working_cycle_length (calculate_cycle_stats 85 Examples.uneven_history)
  = 57 # 2 /\
  map cycle_day
    (generate_predictions Examples.list_order 85 Examples.uneven_history 1)
  = [1] /\
  ~ wrapped_exact
      (generate_predictions Examples.list_order 85 Examples.uneven_history 1)
      85 57 (57 # 2) 1.
Proof.
  split; [reflexivity|]. split; [reflexivity|]. split; [reflexivity|].
  intros [_ H].
  destruct (H 0%nat _ eq_refl) as (_ & Hq & _).
  vm_compute in Hq. discriminate Hq.
Qed.

Section SingleStart.
Variable set_to_list : list string -> list string.

(** C10. With exactly one period start the statistics carry no average,
    the generator puts the default of 28 days in its place, and the
    result is the full list of [days_ahead] predictions: wrapped cycle
    day, phase, hormone levels and fertility are all computed with 28. *)
Theorem single_start_uses_default (today : Z) (entries : list CycleEntry)
  (days_ahead start : Z) :
  _get_period_starts entries = [start] ->
  0 <= days_ahead ->
  let st := calculate_cycle_stats today entries in
  let predictions :=
    generate_predictions set_to_list today entries days_ahead in
  average_cycle_length st = None /\
  last_period_start st = Some start /\
  length predictions = Z.to_nat days_ahead /\
  (0 < days_ahead -> predictions <> []) /\
  forall i p, nth_error predictions i = Some p ->
    p_date p = today + Z.of_nat i /\
    cycle_day p = (p_date p - start) mod 28 + 1 /\
    phase p = _get_current_phase (cycle_day p) 28 /\
    hormone_levels p = _predict_hormone_levels (cycle_day p) 28 /\
    fertility_status p = _predict_fertility (cycle_day p) 28 /\
    predicted_symptoms p = _predict_symptoms (phase p) entries /\
    predicted_mood p = _predict_mood set_to_list (phase p) entries.
Proof.
  intros Hs Hd st predictions.
  assert (Hlt : (length (_get_period_starts entries) < 2)%nat)
    by (rewrite Hs; cbn; lia).
  pose proof (few_starts_stats today entries Hlt) as Hst. fold st in Hst.
  rewrite Hs in Hst. cbn [hd_error length] in Hst.
  assert (Hl : last_period_start st = Some start) by now rewrite Hst.
  assert (Ha : average_cycle_length st = None) by now rewrite Hst.
  assert (Hw : working_cycle_length st = 28%Q)
    by (unfold working_cycle_length; now rewrite Ha).
  assert (Hp : predictions
               = map (fun i => predict_day set_to_list entries start 28
                                 (today + i)) (range days_ahead)).
  { subst predictions.
    rewrite (generate_predictions_unfold _ _ _ _ _ Hl). fold st.
    now rewrite Hw. }
  assert (Hlen : length predictions = Z.to_nat days_ahead)
    by now rewrite Hp, length_map, range_length.
  split; [exact Ha|]. split; [exact Hl|]. split; [exact Hlen|].
  split.
  - intros Hpos E. rewrite E in Hlen. cbn in Hlen. lia.
  - intros i p Hi. rewrite Hp in Hi.
    apply nth_error_map_inv in Hi. destruct Hi as (x & Hx & ->).
    apply range_nth_inv in Hx. destruct Hx as [-> _].
    repeat split.
Qed.
End SingleStart.

Lemma single_start_uses_default_witness :
  length (generate_predictions Examples.list_order 60 Examples.one_start 2)
  = 2%nat /\
  generate_predictions Examples.list_order 60 Examples.one_start 2 <> [].
Proof.
  assert (H : 0 <= 2) by lia.
  destruct (single_start_uses_default Examples.list_order 60
              Examples.one_start 2 3 eq_refl H)
    as (_ & _ & Hlen & Hne & _).
  split; [exact Hlen | apply Hne; lia].
Defined.

End CycleFacts.

(** ** The symptom predictor *)

Module SymptomFacts.

Import Py PyFacts SymptomPredictor Spec Aux.

Local Open Scope string_scope.

(** *** Frequency heuristic *)

Lemma Qgtb_lt (a b : Q) : Qgtb a b = true <-> (b < a)%Q.
Proof.
  unfold Qgtb. rewrite negb_true_iff.
  destruct (Qle_bool a b) eqn:E.
  - apply Qle_bool_iff in E. split; [discriminate|].
    intros H. exfalso. exact (Qlt_not_le _ _ H E).
  - split; [|reflexivity]. intros _. apply Qnot_le_lt. intros H.
    apply Qle_bool_iff in H. congruence.
Qed.

Lemma get_incr_same (k : string) (d : list (string * nat)) :
  get k (incr k d) = S (get k d).
Proof.
  induction d as [|[k' v] d IH]; cbn.
  - now rewrite String.eqb_refl.
  - destruct (String.eqb k k') eqn:E; cbn; rewrite E; [reflexivity | exact IH].
Qed.

Lemma get_incr_other (k k' : string) (d : list (string * nat)) :
  k <> k' -> get k' (incr k d) = get k' d.
Proof.
  intros Hne. induction d as [|[k0 v] d IH]; cbn.
  - destruct (String.eqb_spec k' k); [congruence | reflexivity].
  - destruct (String.eqb_spec k k0) as [->|Hk]; cbn.
    + destruct (String.eqb_spec k' k0); [congruence | reflexivity].
    + destruct (String.eqb k' k0); [reflexivity | exact IH].
Qed.

Lemma get_in (k : string) (d : list (string * nat)) :
  (0 < get k d)%nat -> In (k, get k d) d.
Proof.
  induction d as [|[k' v] d IH]; cbn; [lia|].
  destruct (String.eqb_spec k k') as [->|Hk]; intros H.
  - now left.
  - right. now apply IH.
Qed.

Lemma get_incr_if (b : bool) (k k' : string) (d : list (string * nat)) :
  get k' (incr_if b k d)
  = (get k' d + if b && String.eqb k k' then 1 else 0)%nat.
Proof.
  unfold incr_if. destruct b; cbn [andb]; [|lia].
  destruct (String.eqb_spec k k') as [->|Hk].
  - rewrite get_incr_same. lia.
  - rewrite get_incr_other by exact Hk. lia.
Qed.

(** One round of the counting loop adds one to the entry of each tracked
    condition that holds. *)
Lemma count_step_get (name : string) (cond : SymptomResponse -> bool)
  (d : list (string * nat)) (s : SymptomResponse) :
  In (name, cond) tracked_conditions ->
  get name (count_step d s) = (get name d + if cond s then 1 else 0)%nat.
Proof.
  intros Hin. unfold count_step. rewrite !get_incr_if.
  fold (cramps_present s).
  cbn in Hin.
  destruct Hin as [E|[E|[E|[E|[]]]]]; injection E as <- <-; cbn;
    rewrite ?andb_false_r, ?andb_true_r; lia.
Qed.

Lemma count_patterns_get (name : string) (cond : SymptomResponse -> bool)
  (l : list SymptomResponse) (d : list (string * nat)) :
  In (name, cond) tracked_conditions ->
  get name (fold_left count_step l d) = (get name d + occurrences cond l)%nat.
Proof.
  intros Hin. revert d. induction l as [|s l IH]; intros d.
  - cbn. lia.
  - cbn [fold_left]. rewrite IH, (count_step_get name cond) by exact Hin.
    unfold occurrences. cbn [filter]. destruct (cond s); cbn [length]; lia.
Qed.

Lemma recent_window_length (user_symptoms : list SymptomResponse) :
  length (recent_window user_symptoms) = Nat.min 7 (length user_symptoms).
Proof.
  unfold recent_window. now rewrite last_n_length, sorted_length.
Qed.

(** C8 as it is worded fails on short logs: one entry with a headache has a
    headache rate of 1, and no candidate at all. *)
Lemma frequency_rule_fails_on_short_log :
  candidate_predictions [Examples.headache_day 1] 2 = [] /\
  ~ frequency_rule [Examples.headache_day 1] 2.
Proof.
  split; [reflexivity|]. intros H.
  apply (H "headache" headache (or_introl eq_refl)).
  unfold Qlt. cbn. lia.
Qed.

(** C8, amended.  On every symptom log of at least 3 entries, each of
    headache, nausea, fatigue and cramps-present whose rate over the 7 most
    recent entries (or all of them, when fewer) exceeds 0.6 is among the
    candidate predictions, with that rate as probability and confidence
    high when the rate exceeds 0.8, medium otherwise. *)
Theorem frequency_rule_from_three (user_symptoms : list SymptomResponse)
  (target_date : Z) :
  (3 <= length user_symptoms)%nat ->
  frequency_rule user_symptoms target_date.
Proof.
  intros H3 name cond Hin recent r Hr.
  assert (Hlen : (3 <= length recent)%nat).
  { unfold recent. rewrite recent_window_length. lia. }
  unfold candidate_predictions.
  destruct user_symptoms as [|s0 rest]; [cbn in H3; lia|].
  fold recent. apply in_or_app. left.
  unfold _predict_by_patterns.
  destruct (Nat.ltb_spec (length recent) 3); [lia|].
  apply in_flat_map. exists (name, r). split.
  - unfold _analyze_symptom_sequences.
    pose proof (count_patterns_get name cond recent [] Hin) as Hget.
    cbn [get] in Hget. rewrite Nat.add_0_l in Hget. fold (count_patterns recent) in Hget.
    assert (Hpos : (0 < occurrences cond recent)%nat).
    { destruct (occurrences cond recent) eqn:E; [|lia].
      exfalso. unfold r, rate, Qlt in Hr. cbn in Hr. lia. }
    apply in_map_iff. exists (name, occurrences cond recent). split.
    + reflexivity.
    + rewrite <- Hget. apply get_in. rewrite Hget. exact Hpos.
  - unfold pattern_prediction.
    rewrite (proj2 (Qgtb_lt r (6 # 10)) Hr).
    left. f_equal.
    destruct (Qlt_le_dec (8 # 10) r) as [Hhi|Hlo].
    + now rewrite (proj2 (Qgtb_lt r (8 # 10)) Hhi).
    + destruct (Qgtb r (8 # 10)) eqn:E; [|reflexivity].
      apply Qgtb_lt in E. exfalso. exact (Qlt_not_le _ _ E Hlo).
Qed.

Lemma frequency_rule_from_three_witness :
  In (mkPredicted "headache" (rate 3 3) "high")
     (candidate_predictions
        [Examples.headache_day 1; Examples.headache_day 2;
         Examples.headache_day 3] 4).
Proof.
  assert (H : (3 <= length [Examples.headache_day 1; Examples.headache_day 2;
                            Examples.headache_day 3])%nat)
    by (vm_compute; lia).
  apply (frequency_rule_from_three _ 4 H "headache" headache
           (or_introl eq_refl)).
  unfold Qlt. cbn. lia.
Defined.

(** *** Deduplication *)

Lemma key_eqb_eq (a b : string * string) : key_eqb a b = true <-> a = b.
Proof.
  destruct a as [a1 a2], b as [b1 b2]. unfold key_eqb. cbn.
  rewrite andb_true_iff, !String.eqb_eq. split.
  - now intros [-> ->].
  - now intros [= -> ->].
Qed.

Lemma seen_spec (k : string * string) (seen : list (string * string)) :
  existsb (key_eqb k) seen = true <-> In k seen.
Proof.
  rewrite existsb_exists. split.
  - intros (x & Hx & E). apply key_eqb_eq in E. now subst.
  - intros H. exists k. split; [exact H | now apply key_eqb_eq].
Qed.

Lemma seen_spec_false (k : string * string) (seen : list (string * string)) :
  existsb (key_eqb k) seen = false <-> ~ In k seen.
Proof.
  rewrite <- seen_spec. destruct (existsb (key_eqb k) seen); split; congruence.
Qed.

(** The loop and its recursive form agree. *)
Lemma fold_dedup_step (l : list Suggestion) (seen : list (string * string))
  (unique : list Suggestion) :
  snd (fold_left dedup_step l (seen, unique))
  = (unique ++ keep_first seen l)%list.
Proof.
  revert seen unique. induction l as [|x l IH]; intros seen unique.
  - cbn. now rewrite app_nil_r.
  - cbn [fold_left keep_first]. unfold dedup_step at 2.
    destruct (existsb (key_eqb (suggestion_key x)) seen).
    + apply IH.
    + rewrite IH, <- app_assoc. reflexivity.
Qed.

Lemma deduplicate_unfold (l : list Suggestion) :
  _deduplicate_suggestions l = firstn 10 (keep_first [] (sorted rank_of l)).
Proof.
  unfold _deduplicate_suggestions. now rewrite fold_dedup_step.
Qed.

Lemma keep_first_in (x : Suggestion) (l : list Suggestion)
  (seen : list (string * string)) :
  In x (keep_first seen l) -> In x l /\ ~ In (suggestion_key x) seen.
Proof.
  revert seen. induction l as [|y l IH]; intros seen; cbn; [tauto|].
  destruct (existsb (key_eqb (suggestion_key y)) seen) eqn:E.
  - intros H. apply IH in H. tauto.
  - apply seen_spec_false in E. intros [->|H].
    + tauto.
    + apply IH in H. cbn in H. tauto.
Qed.

Lemma keep_first_nodup (l : list Suggestion) (seen : list (string * string)) :
  NoDup (map suggestion_key (keep_first seen l)).
Proof.
  revert seen. induction l as [|y l IH]; intros seen; cbn; [constructor|].
  destruct (existsb (key_eqb (suggestion_key y)) seen); [apply IH|].
  cbn. constructor; [|apply IH].
  intros H. apply in_map_iff in H. destruct H as (z & Hz & Hin).
  apply keep_first_in in Hin. destruct Hin as [_ Hin]. apply Hin.
  left. now symmetry.
Qed.

(** Every key that is not yet seen survives. *)
Lemma keep_first_covers (x : Suggestion) (l : list Suggestion)
  (seen : list (string * string)) :
  In x l -> ~ In (suggestion_key x) seen ->
  In (suggestion_key x) (map suggestion_key (keep_first seen l)).
Proof.
  revert seen. induction l as [|y l IH]; intros seen Hin Hseen; [easy|].
  cbn [keep_first].
  destruct (existsb (key_eqb (suggestion_key y)) seen) eqn:E.
  - apply seen_spec in E. destruct Hin as [->|Hin]; [contradiction|].
    now apply IH.
  - cbn [map]. destruct (key_dec (suggestion_key y) (suggestion_key x))
      as [Ek|Ek]; [now left|].
    right. destruct Hin as [->|Hin]; [congruence|].
    apply IH; [exact Hin|]. intros [?|?]; [congruence | contradiction].
Qed.

Lemma keep_first_sorted (R : Suggestion -> Suggestion -> Prop)
  (l : list Suggestion) (seen : list (string * string)) :
  StronglySorted R l -> StronglySorted R (keep_first seen l).
Proof.
  intros H. revert seen. induction H as [|y l Hs IH Hy]; intros seen; cbn;
    [constructor|].
  destruct (existsb (key_eqb (suggestion_key y)) seen); [apply IH|].
  constructor; [apply IH|].
  rewrite Forall_forall in *. intros z Hz. apply Hy.
  now apply keep_first_in in Hz.
Qed.

Lemma keep_first_first (x : Suggestion) (l : list Suggestion)
  (seen : list (string * string)) :
  In x (keep_first seen l) -> first_occurrence x l.
Proof.
  revert seen. induction l as [|y l IH]; intros seen; cbn; [easy|].
  destruct (existsb (key_eqb (suggestion_key y)) seen) eqn:E.
  - intros H. pose proof (keep_first_in _ _ _ H) as [_ Hx].
    apply seen_spec in E.
    destruct (IH _ H) as (before & after & -> & Hb).
    exists (y :: before), after. split; [reflexivity|].
    cbn. intros [Ek|Hin]; [|contradiction]. congruence.
  - intros [->|H].
    + exists [], l. split; [reflexivity | easy].
    + pose proof (keep_first_in _ _ _ H) as [_ Hx].
      destruct (IH _ H) as (before & after & -> & Hb).
      exists (y :: before), after. split; [reflexivity|].
      cbn. intros [Ek|Hin]; [|contradiction]. apply Hx. now left.
Qed.

Lemma StronglySorted_prefix {A : Type} (R : A -> A -> Prop) (l1 l2 : list A) :
  StronglySorted R (l1 ++ l2) -> StronglySorted R l1.
Proof.
  induction l1 as [|x l1 IH]; cbn; intros H; [constructor|].
  apply StronglySorted_inv in H. destruct H as [Hs Hx].
  constructor; [now apply IH|].
  apply Forall_app in Hx. tauto.
Qed.

Lemma priority_rank_table :
  priority_rank "high" = 0 /\ priority_rank "medium" = 1 /\
  priority_rank "low" = 2 /\
  forall p, p <> "high" -> p <> "medium" -> p <> "low" -> priority_rank p = 3.
Proof.
  repeat split. intros p H1 H2 H3. unfold priority_rank.
  destruct (String.eqb_spec p "high"); [contradiction|].
  destruct (String.eqb_spec p "medium"); [contradiction|].
  destruct (String.eqb_spec p "low"); [contradiction|]. reflexivity.
Qed.

Lemma in_firstn {A : Type} (n : nat) (x : A) (l : list A) :
  In x (firstn n l) -> In x l.
Proof.
  intros H. rewrite <- (firstn_skipn n l). apply in_or_app. now left.
Qed.

(** [keep_first] reads [seen] through membership only. *)
Lemma keep_first_ext (l : list Suggestion)
  (seen seen' : list (string * string)) :
  (forall k, In k seen <-> In k seen') ->
  keep_first seen l = keep_first seen' l.
Proof.
  revert seen seen'. induction l as [|x l IH]; intros seen seen' H;
    [reflexivity|].
  cbn [keep_first].
  destruct (existsb (key_eqb (suggestion_key x)) seen) eqn:E.
  - apply seen_spec, H in E.
    rewrite (proj2 (seen_spec _ _) E). now apply IH.
  - apply seen_spec_false in E.
    assert (E' : ~ In (suggestion_key x) seen') by (rewrite <- H; exact E).
    rewrite (proj2 (seen_spec_false _ _) E'). f_equal. apply IH.
    intros k. cbn. now rewrite H.
Qed.

Lemma first_at_prefix (pre rest : list Suggestion) (x : Suggestion) :
  first_at (pre ++ rest)%list (length pre) x = true
  <-> ~ In (suggestion_key x) (map suggestion_key pre).
Proof.
  unfold first_at. rewrite firstn_app, Nat.sub_diag, firstn_all. cbn [firstn].
  rewrite app_nil_r, negb_true_iff. split.
  - intros E Hin. apply in_map_iff in Hin. destruct Hin as (y & Hy & Hin).
    assert (T : existsb
                  (fun y => key_eqb (suggestion_key y) (suggestion_key x))
                  pre = true).
    { apply existsb_exists. exists y. split; [exact Hin|].
      now apply key_eqb_eq. }
    congruence.
  - intros Hn.
    destruct (existsb
                (fun y => key_eqb (suggestion_key y) (suggestion_key x)) pre)
      eqn:E; [|reflexivity].
    exfalso. apply Hn. apply existsb_exists in E.
    destruct E as (y & Hin & Hy). apply key_eqb_eq in Hy.
    rewrite <- Hy. now apply in_map.
Qed.

(** The loop keeps exactly the entries that are first occurrences, read
    position by position. *)
Lemma keep_first_positions (l pre : list Suggestion)
  (seen : list (string * string)) :
  (forall k, In k seen <-> In k (map suggestion_key pre)) ->
  keep_first seen l
  = flat_map (occurrence_if_first (pre ++ l)%list) (seq (length pre) (length l)).
Proof.
  revert pre seen. induction l as [|x l IH]; intros pre seen Hseen;
    [reflexivity|].
  cbn [keep_first length seq flat_map].
  assert (Hnth : nth_error (pre ++ x :: l)%list (length pre) = Some x).
  { rewrite nth_error_app2 by lia. now rewrite Nat.sub_diag. }
  assert (Hrest : forall seen',
             (forall k, In k seen'
                        <-> In k (map suggestion_key (pre ++ [x])%list)) ->
             keep_first seen' l
             = flat_map (occurrence_if_first (pre ++ x :: l)%list)
                 (seq (S (length pre)) (length l))).
  { intros seen' H'. rewrite (IH (pre ++ [x])%list seen' H').
    rewrite <- app_assoc, length_app. cbn [app length].
    now rewrite Nat.add_1_r. }
  unfold occurrence_if_first at 1. rewrite Hnth.
  destruct (existsb (key_eqb (suggestion_key x)) seen) eqn:E.
  - apply seen_spec, Hseen in E.
    destruct (first_at (pre ++ x :: l)%list (length pre) x) eqn:F.
    + apply first_at_prefix in F. contradiction.
    + cbn [app]. apply Hrest. intros k.
      rewrite map_app, in_app_iff, Hseen. cbn. split; [tauto|].
      intros [H|[<-|[]]]; [exact H | exact E].
  - apply seen_spec_false in E. rewrite Hseen in E.
    rewrite (proj2 (first_at_prefix pre (x :: l) x) E). cbn [app].
    f_equal. apply Hrest. intros k.
    rewrite map_app, in_app_iff. cbn. rewrite Hseen. tauto.
Qed.

Lemma keep_first_first_occurrences (l : list Suggestion) :
  keep_first [] l = first_occurrences l.
Proof.
  unfold first_occurrences.
  now rewrite (keep_first_positions l [] []) by (intros k; cbn; tauto).
Qed.

(** A list in ascending order of key is fixed by its entries of each key
    taken in order: a stable sort has one result. *)
Lemma stable_order_unique {A : Type} (key : A -> Z) (r1 r2 : list A) :
  StronglySorted (key_le key) r1 -> StronglySorted (key_le key) r2 ->
  (forall k, filter (fun a => Z.eqb (key a) k) r1
             = filter (fun a => Z.eqb (key a) k) r2) ->
  r1 = r2.
Proof.
  intros H1. revert r2. induction H1 as [|x r1 Hs1 IH Hx]; intros r2 H2 Hf.
  - destruct r2 as [|y r2]; [reflexivity|].
    specialize (Hf (key y)). cbn in Hf. rewrite Z.eqb_refl in Hf.
    discriminate.
  - destruct r2 as [|y r2].
    { specialize (Hf (key x)). cbn in Hf. rewrite Z.eqb_refl in Hf.
      discriminate. }
    apply StronglySorted_inv in H2. destruct H2 as [Hs2 Hy].
    rewrite Forall_forall in Hx, Hy.
    assert (Hxy : (key y <= key x)%Z).
    { pose proof (Hf (key x)) as F. cbn [filter] in F.
      rewrite Z.eqb_refl in F.
      assert (Hin : In x (filter (fun a => Z.eqb (key a) (key x))
                            (y :: r2)))
        by (cbn [filter]; rewrite <- F; now left).
      apply filter_In in Hin. destruct Hin as [[->|Hin] _]; [lia|].
      exact (Hy x Hin). }
    assert (Hyx : (key x <= key y)%Z).
    { pose proof (Hf (key y)) as F. cbn [filter] in F.
      rewrite (Z.eqb_refl (key y)) in F.
      assert (Hin : In y (filter (fun a => Z.eqb (key a) (key y))
                            (x :: r1)))
        by (cbn [filter]; rewrite F; now left).
      apply filter_In in Hin. destruct Hin as [[->|Hin] _]; [lia|].
      exact (Hx y Hin). }
    assert (Ek : key y = key x) by lia.
    assert (Exy : x = y).
    { pose proof (Hf (key x)) as F. cbn [filter] in F.
      rewrite Ek, Z.eqb_refl in F. now injection F. }
    subst y. f_equal. apply IH; [exact Hs2|].
    intros k. pose proof (Hf k) as F. cbn [filter] in F.
    destruct (Z.eqb (key x) k); [now injection F | exact F].
Qed.

(** The loop keeps one entry for each different key. *)
Lemma keep_first_length (l : list Suggestion) :
  length (keep_first [] l) = distinct_keys l.
Proof.
  unfold distinct_keys. rewrite <- (length_map suggestion_key).
  apply Nat.le_antisymm; apply NoDup_incl_length.
  - apply keep_first_nodup.
  - intros k Hk. apply nodup_In. apply in_map_iff in Hk.
    destruct Hk as (x & <- & Hx). apply keep_first_in in Hx.
    apply in_map. tauto.
  - apply NoDup_nodup.
  - intros k Hk. apply nodup_In, in_map_iff in Hk.
    destruct Hk as (x & <- & Hx). now apply keep_first_covers.
Qed.

Lemma distinct_keys_perm (l l' : list Suggestion) :
  Permutation l l' -> distinct_keys l = distinct_keys l'.
Proof.
  intros Hp. unfold distinct_keys.
  apply Nat.le_antisymm; apply NoDup_incl_length;
    try apply NoDup_nodup; intros k Hk; apply nodup_In;
    apply nodup_In in Hk;
    (eapply Permutation_in; [|exact Hk]); apply Permutation_map;
    [exact Hp | symmetry; exact Hp].
Qed.

Section SuggestionFacts.
Variable set_to_list : list string -> list string.

Lemma generate_suggestions_list (today : Z)
  (current_symptoms : option SymptomResponse)
  (predicted_symptoms : list PredictedSymptom) :
  suggestions
    (generate_suggestions set_to_list today current_symptoms
       predicted_symptoms)
  = _deduplicate_suggestions
      (fst (collect_suggestions current_symptoms predicted_symptoms)).
Proof.
  unfold generate_suggestions.
  now destruct (collect_suggestions current_symptoms predicted_symptoms).
Qed.

(** C9. Whatever the input, the suggestions returned hold no two entries
    with the same (title, category); they are in ascending order of
    priority rank (high 0, medium 1, low 2, anything else 3), that is,
    with priorities that never rise along the list; each is the first
    entry with its key in the list sorted by rank, and that sort keeps
    the collected order within each rank; there are at most 10 of them,
    and exactly 10 as soon as the collected suggestions carry more than
    10 distinct keys.  The result is the one the rule fixes: rank the
    collected suggestions by a stable sort (there is one such ranking),
    keep the first occurrence of every (title, category) in the order of
    the ranking, and cut after the tenth; so the result has the smaller of
    10 and the number of different keys as its length, and loses no key
    when there are 10 or fewer. *)
Theorem suggestions_deduplicated_ranked (today : Z)
  (current_symptoms : option SymptomResponse)
  (predicted_symptoms : list PredictedSymptom) :
  let collected :=
    fst (collect_suggestions current_symptoms predicted_symptoms) in
  let ranked := sorted rank_of collected in
  let out :=
    suggestions
      (generate_suggestions set_to_list today current_symptoms
         predicted_symptoms) in
  NoDup (map suggestion_key out) /\
  StronglySorted (key_le rank_of) out /\
  (priority_rank "high" = 0 /\ priority_rank "medium" = 1 /\
   priority_rank "low" = 2 /\
   forall p, p <> "high" -> p <> "medium" -> p <> "low" ->
             priority_rank p = 3) /\
  (length out <= 10)%nat /\
  (forall x, In x out -> In x collected /\ first_occurrence x ranked) /\
  (Permutation ranked collected /\
   StronglySorted (key_le rank_of) ranked /\
   forall r, filter (fun x => Z.eqb (rank_of x) r) ranked
             = filter (fun x => Z.eqb (rank_of x) r) collected) /\
  (forall keys,
      NoDup keys -> incl keys (map suggestion_key collected) ->
      (10 < length keys)%nat -> length out = 10%nat) /\
  (stably_ranked ranked collected /\
   out = firstn 10 (first_occurrences ranked)) /\
  (forall ranking,
      stably_ranked ranking collected ->
      ranking = ranked /\ out = firstn 10 (first_occurrences ranking)) /\
  length out = Nat.min 10 (distinct_keys collected) /\
  ((distinct_keys collected <= 10)%nat ->
   forall x, In x collected ->
             In (suggestion_key x) (map suggestion_key out)).
Proof.
  intros collected ranked out.
  assert (Hout : out = firstn 10 (keep_first [] ranked)).
  { unfold out. rewrite generate_suggestions_list. apply deduplicate_unfold. }
  set (unique := keep_first [] ranked) in *.
  assert (Hunique : length unique = distinct_keys collected).
  { unfold unique. rewrite keep_first_length.
    apply distinct_keys_perm, sorted_perm. }
  split; [|split; [|split; [|split; [|split; [|split;
    [|split; [|split; [|split; [|split]]]]]]]]].
  - rewrite Hout, <- firstn_map.
    apply (NoDup_app_remove_r _ (skipn 10 (map suggestion_key unique))).
    rewrite firstn_skipn. apply keep_first_nodup.
  - rewrite Hout.
    apply (StronglySorted_prefix _ _ (skipn 10 unique)).
    rewrite firstn_skipn. apply keep_first_sorted, sorted_ordered.
  - exact priority_rank_table.
  - rewrite Hout. apply firstn_le_length.
  - intros x Hx. rewrite Hout in Hx. apply in_firstn in Hx.
    split.
    + apply keep_first_in in Hx. destruct Hx as [Hx _].
      exact (proj1 (sorted_in rank_of x collected) Hx).
    + exact (keep_first_first _ _ _ Hx).
  - split; [apply sorted_perm|].
    split; [apply sorted_ordered|]. intros r. apply sorted_stable.
  - intros keys Hnd Hincl Hlen.
    assert (Hsub : incl keys (map suggestion_key unique)).
    { intros k Hk. apply Hincl, in_map_iff in Hk.
      destruct Hk as (x & <- & Hx).
      apply keep_first_covers; [|easy].
      exact (proj2 (sorted_in rank_of x collected) Hx). }
    pose proof (NoDup_incl_length Hnd Hsub) as Hle.
    rewrite length_map in Hle.
    rewrite Hout, length_firstn. lia.
  - split.
    + split; [apply sorted_ordered|]. intros r. apply sorted_stable.
    + rewrite Hout. unfold unique. now rewrite keep_first_first_occurrences.
  - intros ranking [Hs Hf].
    assert (E : ranking = ranked).
    { apply (stable_order_unique rank_of); [exact Hs | apply sorted_ordered|].
      intros r. rewrite Hf. symmetry. apply sorted_stable. }
    split; [exact E|]. rewrite E, Hout. unfold unique.
    now rewrite keep_first_first_occurrences.
  - rewrite Hout, length_firstn, Hunique. reflexivity.
  - intros Hfew x Hx. rewrite Hout, firstn_all2 by lia.
    apply keep_first_covers; [|easy].
    exact (proj2 (sorted_in rank_of x collected) Hx).
Qed.
End SuggestionFacts.

Lemma suggestions_deduplicated_ranked_witness :
  length (suggestions
            (generate_suggestions Examples.list_order 0
               (Some Examples.rough_day) []))
  = 10%nat.
Proof.
  destruct (suggestions_deduplicated_ranked Examples.list_order 0
              (Some Examples.rough_day) [])
    as (_ & _ & _ & _ & _ & _ & Hten & _).
  apply (Hten (nodup key_dec
                 (map suggestion_key
                    (fst (collect_suggestions
                            (Some Examples.rough_day) []))))).
  - apply NoDup_nodup.
  - intros k Hk. now apply nodup_In in Hk.
  - vm_compute. lia.
Defined.

End SymptomFacts.

(** ** More on the cycle calculator *)

Module CycleMore.

Import Py PyFacts CycleCalculator Spec CycleFacts.

(** *** Period lengths *)

Lemma period_length_loop_ge (s : Z) (l : list CycleEntry) (acc : nat)
  (cur : Z) :
  (acc <= period_length_loop s l acc cur)%nat.
Proof.
  revert acc cur. induction l as [|e l IH]; intros acc cur; cbn; [lia|].
  destruct ((s <=? date e) && is_period_day e).
  - destruct (date e =? cur); [|lia].
    specialize (IH (S acc) (cur + 1)). lia.
  - destruct (s <? date e); [lia | apply IH].
Qed.

Lemma period_length_loop_le (s : Z) (l : list CycleEntry) (acc : nat)
  (cur : Z) :
  (period_length_loop s l acc cur <= acc + length l)%nat.
Proof.
  revert acc cur. induction l as [|e l IH]; intros acc cur; cbn; [lia|].
  destruct ((s <=? date e) && is_period_day e).
  - destruct (date e =? cur); [|lia].
    specialize (IH (S acc) (cur + 1)). lia.
  - destruct (s <? date e); [lia|]. specialize (IH acc cur). lia.
Qed.

(** Every day the loop counts is the day of a period entry, and the days
    counted follow one another on the calendar. *)
Lemma period_length_loop_days (s : Z) (l : list CycleEntry) (acc : nat)
  (cur : Z) (k : nat) :
  (acc <= k < period_length_loop s l acc cur)%nat ->
  exists e, In e l /\ date e = cur + Z.of_nat (k - acc)
            /\ is_period_day e = true.
Proof.
  revert acc cur. induction l as [|e l IH]; intros acc cur; cbn; [lia|].
  destruct ((s <=? date e) && is_period_day e) eqn:Hc.
  - apply andb_true_iff in Hc. destruct Hc as [_ Hp].
    destruct (Z.eqb_spec (date e) cur) as [Hd|_]; [|lia].
    intros Hk. destruct (Nat.eq_dec k acc) as [->|Hne].
    + exists e. rewrite Nat.sub_diag. cbn. repeat split; auto. lia.
    + destruct (IH (S acc) (cur + 1)) as (e' & Hin & Hd' & Hp'); [lia|].
      exists e'. repeat split; auto. rewrite Hd'. lia.
  - destruct (s <? date e); [lia|].
    intros Hk. destruct (IH acc cur Hk) as (e' & Hin & Hd' & Hp').
    exists e'. auto.
Qed.

(** X1. A period length, when there is one, is at least 1 and at most the
    number of entries, and it counts real days: for every [k] below it some
    entry dated [start_date + k] is a period day. *)
Theorem period_length_counts_consecutive_days (entries : list CycleEntry)
  (start_date : Z) (n : nat) :
  _calculate_period_length entries start_date = Some n ->
  (1 <= n <= length entries)%nat /\
  forall k, (k < n)%nat ->
    exists e, In e entries /\ date e = start_date + Z.of_nat k
              /\ is_period_day e = true.
Proof.
  unfold _calculate_period_length.
  set (r := period_length_loop start_date (sorted date entries) 0 start_date).
  destruct (Nat.ltb_spec 0 r) as [Hpos|]; [|discriminate].
  intros [= <-]. split.
  - pose proof (period_length_loop_le start_date (sorted date entries) 0
                  start_date) as Hle.
    fold r in Hle. rewrite sorted_length in Hle. lia.
  - intros k Hk.
    destruct (period_length_loop_days start_date (sorted date entries) 0
                start_date k) as (e & Hin & Hd & Hp); [fold r; lia|].
    exists e. rewrite Nat.sub_0_r in Hd.
    split; [exact (proj1 (sorted_in date e entries) Hin) | now split].
Qed.

Lemma period_length_counts_consecutive_days_witness :
  exists e, In e Examples.unsorted_history /\ date e = 28 + 1
            /\ is_period_day e = true.
Proof.
  destruct (period_length_counts_consecutive_days Examples.unsorted_history
              28 2 eq_refl) as [_ H].
  apply (H 1%nat). lia.
Defined.

(** A period day dated [s] in a date-sorted list is always reached and
    counted. *)
Lemma period_length_loop_hits (s : Z) (l : list CycleEntry) (acc : nat) :
  StronglySorted (key_le date) l ->
  (exists e, In e l /\ date e = s /\ is_period_day e = true) ->
  (S acc <= period_length_loop s l acc s)%nat.
Proof.
  induction 1 as [|x l Hs IH Hx]; intros (e & Hin & Hd & Hp); [easy|].
  cbn [period_length_loop].
  destruct (Z.leb_spec s (date x)) as [Hle|Hlt]; cbn [andb].
  - destruct (is_period_day x) eqn:Hpx.
    + destruct (Z.eqb_spec (date x) s) as [Hxs|Hxs].
      * pose proof (period_length_loop_ge s l (S acc) (s + 1)). lia.
      * exfalso. destruct Hin as [->|Hin]; [congruence|].
        rewrite Forall_forall in Hx. specialize (Hx e Hin).
        unfold key_le in Hx. lia.
    + destruct (Z.ltb_spec s (date x)) as [Hgt|Hngt].
      * exfalso. destruct Hin as [->|Hin]; [lia|].
        rewrite Forall_forall in Hx. specialize (Hx e Hin).
        unfold key_le in Hx. lia.
      * apply IH. destruct Hin as [->|Hin]; [congruence|].
        exists e. auto.
  - destruct (Z.ltb_spec s (date x)); [lia|].
    apply IH. destruct Hin as [->|Hin]; [lia|]. exists e. auto.
Qed.

(** The loop of [_get_period_starts] only ever records dates of period
    days. *)
Lemma fold_period_step_in (l : list CycleEntry) (acc : list Z) (b : bool)
  (d : Z) :
  In d (fst (fold_left period_step l (acc, b))) ->
  In d acc \/ exists e, In e l /\ date e = d /\ is_period_day e = true.
Proof.
  revert acc b. induction l as [|x l IH]; intros acc b; cbn [fold_left].
  - cbn. auto.
  - unfold period_step at 2.
    destruct (is_period_day x) eqn:Hp; destruct b; cbn [andb negb];
      intros H; apply IH in H;
      (destruct H as [H|(e & Hin & Hd & He)];
       [|right; exists e; cbn; auto]).
    + now left.
    + apply in_app_or in H. destruct H as [H|[<-|[]]]; [now left|].
      right. exists x. cbn. auto.
    + now left.
    + now left.
Qed.

Lemma period_start_is_period_day (entries : list CycleEntry) (d : Z) :
  In d (_get_period_starts entries) ->
  exists e, In e (sorted date entries) /\ date e = d
            /\ is_period_day e = true.
Proof.
  unfold _get_period_starts. intros H.
  apply fold_period_step_in in H. destruct H as [[]|H]. exact H.
Qed.

(** X2. At every detected period start the period length is defined and at
    least 1: the start itself is always counted. *)
Theorem period_length_at_start (entries : list CycleEntry) (start_date : Z) :
  In start_date (_get_period_starts entries) ->
  exists n, _calculate_period_length entries start_date = Some n
            /\ (1 <= n)%nat.
Proof.
  intros H. apply period_start_is_period_day in H.
  pose proof (period_length_loop_hits start_date (sorted date entries) 0
                (sorted_ordered date entries) H) as Hhit.
  unfold _calculate_period_length.
  destruct (Nat.ltb_spec 0
              (period_length_loop start_date (sorted date entries) 0
                 start_date)); [|lia].
  eexists. split; [reflexivity | lia].
Qed.

Lemma period_length_at_start_witness :
  exists n, _calculate_period_length Examples.uneven_history 28 = Some n
            /\ (1 <= n)%nat.
Proof.
  apply period_length_at_start. vm_compute. tauto.
Defined.

Lemma period_length_at_start_aux (entries : list CycleEntry) (s : Z) :
  In s (_get_period_starts entries) ->
  exists n, _calculate_period_length entries s = Some n
            /\ (1 <= n)%nat /\ (n <= length entries)%nat.
Proof.
  intros H. apply period_start_is_period_day in H.
  pose proof (period_length_loop_hits s (sorted date entries) 0
                (sorted_ordered date entries) H) as Hhit.
  pose proof (period_length_loop_le s (sorted date entries) 0 s) as Hle.
  rewrite sorted_length in Hle.
  unfold _calculate_period_length.
  destruct (Nat.ltb_spec 0
              (period_length_loop s (sorted date entries) 0 s)); [|lia].
  eexists. split; [reflexivity | lia].
Qed.

Lemma period_lengths_all (entries : list CycleEntry) (ps : list Z) :
  (forall s, In s ps -> In s (_get_period_starts entries)) ->
  length (period_lengths entries ps) = length ps /\
  Forall (fun x => 1 <= x <= Z.of_nat (length entries))
    (period_lengths entries ps).
Proof.
  induction ps as [|s ps IH]; intros Hin; [split; constructor|].
  destruct IH as [IHl IHf]; [intros; apply Hin; now right|].
  unfold period_lengths in *. cbn [flat_map].
  destruct (period_length_at_start_aux entries s (Hin s (or_introl eq_refl)))
    as (n & Hn & Hn1 & Hn2).
  rewrite Hn. cbn [app length]. split; [now rewrite IHl|].
  constructor; [lia | exact IHf].
Qed.

(** X3. With two period starts or more every start contributes a period
    length, so the default of 5 days is never used: [average_period_length]
    is the mean of as many lengths as there are starts, and it lies between
    1 and the number of entries. *)
Theorem average_period_length_never_default (today : Z)
  (entries : list CycleEntry) :
  (2 <= length (_get_period_starts entries))%nat ->
  let ps := _get_period_starts entries in
  let pl := period_lengths entries ps in
  length pl = length ps /\
  average_period_length (calculate_cycle_stats today entries)
  = Some (mean_int pl) /\
  (1 <= mean_int pl /\ mean_int pl <= inject_Z (Z.of_nat (length entries)))%Q.
Proof.
  intros H ps pl.
  destruct (period_lengths_all entries ps (fun s Hs => Hs)) as [Hlen Hall].
  fold pl in Hlen, Hall.
  assert (Hne : pl <> []).
  { intros E. rewrite E in Hlen. unfold ps in Hlen. cbn in Hlen. lia. }
  split; [exact Hlen|]. split.
  - unfold calculate_cycle_stats.
    destruct (Nat.ltb_spec (length (_get_period_starts entries)) 2); [lia|].
    fold ps. fold pl.
    destruct (last_opt ps); destruct pl; try congruence; reflexivity.
  - exact (mean_int_bounds 1 (Z.of_nat (length entries)) pl Hne Hall).
Qed.

Lemma average_period_length_never_default_witness :
  average_period_length (calculate_cycle_stats 70 Examples.unsorted_history)
  = Some 2%Q.
Proof.
  assert (H : (2 <= length (_get_period_starts Examples.unsorted_history))%nat)
    by (vm_compute; lia).
  destruct (average_period_length_never_default 70 Examples.unsorted_history H)
    as (_ & Ha & _).
  exact Ha.
Defined.

(** *** Period starts *)

Lemma fold_period_step_sorted (l : list CycleEntry) (acc : list Z)
  (b : bool) :
  StronglySorted (key_le date) l ->
  StronglySorted Z.le acc ->
  (forall a e, In a acc -> In e l -> a <= date e) ->
  StronglySorted Z.le (fst (fold_left period_step l (acc, b))).
Proof.
  intros Hl. revert acc b. induction Hl as [|x l Hs IH Hx];
    intros acc b Hacc Hle; cbn [fold_left]; [exact Hacc|].
  unfold period_step at 2.
  assert (Hle' : forall a e, In a acc -> In e l -> a <= date e)
    by (intros; apply Hle; [assumption | now right]).
  destruct (is_period_day x && negb b).
  - apply IH.
    + clear IH Hle'. induction acc as [|a acc IHa]; cbn.
      * repeat constructor.
      * apply StronglySorted_inv in Hacc. destruct Hacc as [Hsa Hfa].
        constructor.
        -- apply IHa; [exact Hsa|]. intros; apply Hle; [now right | assumption].
        -- apply Forall_app. split; [exact Hfa|].
           constructor; [|constructor]. apply Hle; now left.
    + intros a e Ha He. apply in_app_or in Ha. destruct Ha as [Ha|[<-|[]]].
      * now apply Hle'.
      * rewrite Forall_forall in Hx. exact (Hx e He).
  - destruct (negb (is_period_day x)); apply IH; assumption.
Qed.

Lemma fold_period_step_length (l : list CycleEntry) (acc : list Z)
  (b : bool) :
  (length (fst (fold_left period_step l (acc, b)))
   <= length acc + length (filter is_period_day l))%nat.
Proof.
  revert acc b. induction l as [|x l IH]; intros acc b; cbn [fold_left];
    [cbn; lia|].
  unfold period_step at 2. cbn [filter].
  destruct (is_period_day x); destruct b; cbn [andb negb length].
  - specialize (IH acc true). lia.
  - specialize (IH (acc ++ [date x]) true). rewrite length_app in IH.
    cbn in IH. lia.
  - apply IH.
  - apply IH.
Qed.

Lemma filter_perm_length {A : Type} (f : A -> bool) (l l' : list A) :
  Permutation l l' -> length (filter f l) = length (filter f l').
Proof.
  induction 1; cbn; try destruct (f x); try destruct (f y); cbn; congruence.
Qed.

(** X4. The period starts come out in ascending order of date, each is the
    date of an entry that is a period day, and there are no more of them
    than period days. *)
Theorem period_starts_ascending (entries : list CycleEntry) :
  StronglySorted Z.le (_get_period_starts entries) /\
  (forall d, In d (_get_period_starts entries) ->
     exists e, In e entries /\ date e = d /\ is_period_day e = true) /\
  (length (_get_period_starts entries)
   <= length (filter is_period_day entries))%nat.
Proof.
  split; [|split].
  - unfold _get_period_starts. apply fold_period_step_sorted.
    + apply sorted_ordered.
    + constructor.
    + intros a e [].
  - intros d Hd. apply period_start_is_period_day in Hd.
    destruct Hd as (e & Hin & Hd & Hp). exists e.
    split; [exact (proj1 (sorted_in date e entries) Hin) | now split].
  - unfold _get_period_starts.
    pose proof (fold_period_step_length (sorted date entries) [] false) as H.
    cbn [length Nat.add] in H.
    now rewrite (filter_perm_length _ _ _ (sorted_perm date entries)) in H.
Qed.

(** Two date-sorted lists with the same entries and one entry per date are
    the same list. *)
Lemma sorted_lists_unique {A : Type} (key : A -> Z) (l1 l2 : list A) :
  StronglySorted (key_le key) l1 -> StronglySorted (key_le key) l2 ->
  Permutation l1 l2 -> NoDup (map key l1) -> l1 = l2.
Proof.
  intros H1. revert l2. induction H1 as [|x l1 Hs1 IH Hx]; intros l2 H2 Hp Hnd.
  - apply Permutation_nil in Hp. now subst.
  - destruct l2 as [|y l2].
    { apply Permutation_sym, Permutation_nil in Hp. discriminate. }
    apply StronglySorted_inv in H2. destruct H2 as [Hs2 Hy].
    rewrite Forall_forall in Hx, Hy.
    cbn in Hnd. apply NoDup_cons_iff in Hnd. destruct Hnd as [Hnx Hnd].
    assert (Exy : x = y).
    { assert (Hx2 : In x (y :: l2))
        by (eapply Permutation_in; [exact Hp | now left]).
      assert (Hy1 : In y (x :: l1))
        by (eapply Permutation_in; [symmetry; exact Hp | now left]).
      destruct Hx2 as [->|Hx2]; [reflexivity|].
      destruct Hy1 as [->|Hy1]; [reflexivity|].
      exfalso. apply Hnx.
      pose proof (Hx y Hy1) as K1. pose proof (Hy x Hx2) as K2.
      unfold key_le in K1, K2.
      replace (key x) with (key y) by lia. now apply in_map. }
    subst y. f_equal. apply IH; [exact Hs2 | | exact Hnd].
    exact (Permutation_cons_inv Hp).
Qed.

Lemma sorted_of_permutation (l l' : list CycleEntry) :
  Permutation l l' -> NoDup (map date l) ->
  sorted date l = sorted date l'.
Proof.
  intros Hp Hnd. apply (sorted_lists_unique date).
  - apply sorted_ordered.
  - apply sorted_ordered.
  - rewrite (sorted_perm date l), (sorted_perm date l'). exact Hp.
  - eapply Permutation_NoDup; [|exact Hnd].
    apply Permutation_map. symmetry. apply sorted_perm.
Qed.

(** X5. With one entry per date the order in which the entries are handed
    over is immaterial: the period starts and the whole statistics of two
    lists holding the same entries are the same. *)
Theorem stats_ignore_input_order (today : Z) (entries entries' : list CycleEntry) :
  Permutation entries entries' ->
  NoDup (map date entries) ->
  _get_period_starts entries' = _get_period_starts entries /\
  calculate_cycle_stats today entries' = calculate_cycle_stats today entries.
Proof.
  intros Hp Hnd.
  pose proof (sorted_of_permutation entries entries' Hp Hnd) as Hs.
  assert (Hps : _get_period_starts entries' = _get_period_starts entries)
    by (unfold _get_period_starts; now rewrite Hs).
  split; [exact Hps|].
  unfold calculate_cycle_stats. rewrite Hps.
  assert (Hpl : forall ps, period_lengths entries' ps
                           = period_lengths entries ps).
  { intros ps. unfold period_lengths, _calculate_period_length.
    now rewrite Hs. }
  now rewrite Hpl.
Qed.

Lemma stats_ignore_input_order_witness :
  calculate_cycle_stats 70 (rev Examples.uneven_history)
  = calculate_cycle_stats 70 Examples.uneven_history.
Proof.
  apply stats_ignore_input_order.
  - apply Permutation_rev.
  - vm_compute. repeat constructor; cbn; intuition discriminate.
Defined.

Lemma period_starts_ascending_witness :
  exists e, In e Examples.unsorted_history /\ date e = 28
            /\ is_period_day e = true.
Proof.
  destruct (period_starts_ascending Examples.unsorted_history) as (_ & H & _).
  apply H. vm_compute. tauto.
Defined.

(** *** Forecast *)

Lemma int_of_float_minus (q : Q) (k : Z) :
  0 <= k -> (inject_Z k <= q)%Q ->
  int_of_float (q - inject_Z k) = int_of_float q - k.
Proof.
  intros Hk Hq. destruct q as [a b]. unfold int_of_float, Qle in *.
  cbn in *. rewrite Z.mul_1_r in *. rewrite Pos.mul_1_r.
  rewrite !Z.quot_div_nonneg by lia.
  replace (a + - k * Z.pos b) with (a + (- k) * Z.pos b) by lia.
  rewrite Z.div_add by lia. lia.
Qed.

Lemma int_of_float_upper (q : Q) (k : Z) :
  (0 <= q)%Q -> (q <= inject_Z k)%Q -> int_of_float q <= k.
Proof.
  intros H0 Hk. rewrite Zle_Qle.
  eapply Qle_trans; [apply int_of_float_le; exact H0 | exact Hk].
Qed.

(** X6. With two period starts or more the predicted ovulation falls
    exactly 14 days before the predicted next period, and the next period
    is predicted between 21 and 35 days after the last start. *)
Theorem ovulation_two_weeks_before_period (today : Z)
  (entries : list CycleEntry) :
  (2 <= length (_get_period_starts entries))%nat ->
  let st := calculate_cycle_stats today entries in
  exists last next ov,
    last_period_start st = Some last /\
    next_predicted_period st = Some next /\
    next_predicted_ovulation st = Some ov /\
    ov = next - 14 /\
    last + 21 <= next <= last + 35.
Proof.
  intros H st.
  destruct (stats_fields today entries H) as (_ & Hl & Hn & Ho & _).
  fold st in Hl, Hn, Ho.
  destruct (chosen_average_in_range (_get_period_starts entries)) as [Hlo Hhi].
  set (avg := match cycle_lengths (_get_period_starts entries) with
              | [] => default_cycle_length
              | _ :: _ => mean_int (cycle_lengths (_get_period_starts entries))
              end) in *.
  do 3 eexists. split; [exact Hl|]. split; [exact Hn|]. split; [exact Ho|].
  assert (H14 : (inject_Z 14 <= avg)%Q).
  { eapply Qle_trans; [|exact Hlo]. unfold Qle; cbn; lia. }
  assert (H0 : (0 <= avg)%Q).
  { eapply Qle_trans; [|exact Hlo]. unfold Qle; cbn; lia. }
  split.
  - change (avg - 14)%Q with (avg - inject_Z 14)%Q.
    rewrite int_of_float_minus by (lia || exact H14). lia.
  - pose proof (int_of_float_ge 21 avg ltac:(lia) Hlo).
    pose proof (int_of_float_upper avg 35 H0 Hhi). lia.
Qed.

Lemma ovulation_two_weeks_before_period_witness :
  next_predicted_ovulation (calculate_cycle_stats 60 Examples.uneven_history)
  = Some 71 /\
  next_predicted_period (calculate_cycle_stats 60 Examples.uneven_history)
  = Some 85.
Proof.
  assert (H : (2 <= length (_get_period_starts Examples.uneven_history))%nat)
    by (vm_compute; lia).
  destruct (ovulation_two_weeks_before_period 60 Examples.uneven_history H)
    as (last & next & ov & _ & Hn & Ho & E & _).
  vm_compute in Hn. injection Hn as <-. subst ov.
  split; [exact Ho | reflexivity].
Defined.

(** *** Phase and fertility *)

Lemma Qle_bool_true (x y : Q) : (x <= y)%Q -> Qle_bool x y = true.
Proof. apply Qle_bool_iff. Qed.

Lemma Qle_bool_not (x y : Q) : ~ (x <= y)%Q -> Qle_bool x y = false.
Proof. apply Qle_bool_false. Qed.

(** X7. Phase and fertility agree: a day in the ovulation phase is never of
    low fertility, a day of high fertility is never luteal, and on a cycle
    of 21 to 35 days a day of high fertility is follicular or in the
    ovulation phase. *)
Theorem fertility_follows_phase (cycle_day : Z) (cycle_length : Q) :
  (_get_current_phase cycle_day cycle_length = ovulation ->
   _predict_fertility cycle_day cycle_length <> low) /\
  (_predict_fertility cycle_day cycle_length = high ->
   _get_current_phase cycle_day cycle_length <> luteal) /\
  (in_range cycle_length ->
   _predict_fertility cycle_day cycle_length = high ->
   _get_current_phase cycle_day cycle_length = follicular
   \/ _get_current_phase cycle_day cycle_length = ovulation).
Proof.
  unfold _get_current_phase, _predict_fertility.
  set (ov := (cycle_length - luteal_phase_length)%Q).
  set (dist := Qabs (inject_Z cycle_day - ov)).
  assert (H23 : forall q, (q <= 2)%Q -> (q <= 3)%Q).
  { intros q Hq. eapply Qle_trans; [exact Hq|]. unfold Qle; cbn; lia. }
  assert (H12 : forall q, (q <= 1)%Q -> (q <= 2)%Q).
  { intros q Hq. eapply Qle_trans; [exact Hq|]. unfold Qle; cbn; lia. }
  split; [|split].
  - destruct (cycle_day <=? 5); [discriminate|].
    destruct (Qle_bool (inject_Z cycle_day) ov); [discriminate|].
    destruct (Qle_bool dist 2) eqn:H2; [|discriminate].
    intros _. apply Qle_bool_iff in H2.
    rewrite (Qle_bool_true _ _ (H23 _ H2)).
    destruct (Qle_bool dist 1); discriminate.
  - destruct (Qle_bool dist 1) eqn:H1.
    + intros _. apply Qle_bool_iff in H1.
      rewrite (Qle_bool_true _ _ (H12 _ H1)).
      destruct (cycle_day <=? 5); [discriminate|].
      destruct (Qle_bool (inject_Z cycle_day) ov); discriminate.
    + destruct (Qle_bool dist 3); discriminate.
  - intros [Hlo _].
    destruct (Qle_bool dist 1) eqn:H1;
      [|destruct (Qle_bool dist 3); discriminate].
    intros _. apply Qle_bool_iff in H1.
    rewrite (Qle_bool_true _ _ (H12 _ H1)).
    assert (H6 : 5 < cycle_day).
    { unfold dist in H1. apply Qabs_Qle_condition in H1.
      destruct H1 as [H1 _]. unfold ov in H1.
      destruct cycle_length as [a b].
      unfold Qle, luteal_phase_length in *. cbn in *. nia. }
    destruct (Z.leb_spec cycle_day 5); [lia|].
    destruct (Qle_bool (inject_Z cycle_day) ov); auto.
Qed.

Lemma fertility_follows_phase_witness :
  _get_current_phase 15 28 = follicular \/ _get_current_phase 15 28 = ovulation.
Proof.
  destruct (fertility_follows_phase 15 28) as (_ & _ & H).
  apply H; [|reflexivity].
  split; unfold Qle; cbn; lia.
Defined.

(** *** Predictions *)

Lemma firstn_seq_min (n a m : nat) :
  firstn n (seq a m) = seq a (Nat.min n m).
Proof.
  revert a m. induction n as [|n IH]; intros a m; [reflexivity|].
  destruct m as [|m]; [reflexivity|]. cbn. now rewrite IH.
Qed.

Lemma range_prefix (n m : Z) :
  n <= m -> range n = firstn (Z.to_nat n) (range m).
Proof.
  intros H. unfold range. rewrite firstn_map, firstn_seq_min.
  now rewrite Nat.min_l by lia.
Qed.

Section MorePredictions.
Variable set_to_list : list string -> list string.

(** X8. A shorter forecast is the beginning of a longer one made on the
    same day from the same entries, and a horizon of zero or fewer days
    gives no prediction. *)
Theorem shorter_forecast_is_prefix (today : Z) (entries : list CycleEntry)
  (n m : Z) :
  n <= m ->
  generate_predictions set_to_list today entries n
  = firstn (Z.to_nat n) (generate_predictions set_to_list today entries m) /\
  (n <= 0 -> generate_predictions set_to_list today entries n = []).
Proof.
  intros H. unfold generate_predictions.
  destruct (last_period_start (calculate_cycle_stats today entries)).
  - split.
    + now rewrite firstn_map, <- range_prefix.
    + intros Hn. unfold range.
      replace (Z.to_nat n) with 0%nat by lia. reflexivity.
  - split; [now rewrite firstn_nil | reflexivity].
Qed.

(** X9. The forecast repeats with the whole-day cycle length: two
    predictions that many days apart differ in their date only. *)
Theorem forecast_repeats_each_cycle (today : Z) (entries : list CycleEntry)
  (days_ahead : Z) (i : nat) (p q : CyclePrediction) :
  let predictions :=
    generate_predictions set_to_list today entries days_ahead in
  let whole :=
    int_of_float (working_cycle_length (calculate_cycle_stats today entries)) in
  nth_error predictions i = Some p ->
  nth_error predictions (i + Z.to_nat whole) = Some q ->
  p_date q = p_date p + whole /\
  cycle_day q = cycle_day p /\
  phase q = phase p /\
  hormone_levels q = hormone_levels p /\
  fertility_status q = fertility_status p /\
  predicted_symptoms q = predicted_symptoms p /\
  predicted_mood q = predicted_mood p.
Proof.
  intros predictions whole Hp Hq.
  pose proof (int_of_in_range _ (working_cycle_length_in_range today entries))
    as Hw. fold whole in Hw.
  subst predictions. unfold generate_predictions in Hp, Hq.
  destruct (last_period_start (calculate_cycle_stats today entries))
    as [last|]; [|destruct i; discriminate].
  fold (working_cycle_length (calculate_cycle_stats today entries)) in Hp, Hq.
  apply nth_error_map_inv in Hp. destruct Hp as (x & Hx & ->).
  apply nth_error_map_inv in Hq. destruct Hq as (y & Hy & ->).
  apply range_nth_inv in Hx. destruct Hx as [-> _].
  apply range_nth_inv in Hy. destruct Hy as [-> _].
  unfold predict_day. fold whole. cbn [p_date cycle_day phase hormone_levels
    fertility_status predicted_symptoms predicted_mood].
  assert (E : (today + Z.of_nat (i + Z.to_nat whole) - last) mod whole
              = (today + Z.of_nat i - last) mod whole).
  { replace (today + Z.of_nat (i + Z.to_nat whole) - last)
      with (today + Z.of_nat i - last + 1 * whole) by lia.
    apply Z_mod_plus_full. }
  rewrite E. repeat split. lia.
Qed.

(** X10. Today's prediction and the statistics agree as long as the next
    period is not overdue: when [current_cycle_day] lies between 1 and the
    whole-day cycle length, the first prediction carries that cycle day and
    [current_phase]; in every case the two cycle days differ by a whole
    number of cycles. *)
Theorem first_prediction_matches_stats (today : Z) (entries : list CycleEntry)
  (days_ahead : Z) :
  (2 <= length (_get_period_starts entries))%nat ->
  1 <= days_ahead ->
  let st := calculate_cycle_stats today entries in
  let whole := int_of_float (working_cycle_length st) in
  exists p c,
    nth_error (generate_predictions set_to_list today entries days_ahead) 0
    = Some p /\
    current_cycle_day st = Some c /\
    (cycle_day p - c) mod whole = 0 /\
    (1 <= c <= whole ->
     cycle_day p = c /\ current_phase st = Some (phase p)).
Proof.
  intros H Hd st whole.
  destruct (stats_fields today entries H) as (Ha & Hl & _ & _ & Hc & Hph).
  fold st in Ha, Hl, Hc, Hph.
  pose proof (working_cycle_length_in_range today entries) as Hr.
  fold st in Hr. pose proof (int_of_in_range _ Hr) as Hw. fold whole in Hw.
  set (avg := match cycle_lengths (_get_period_starts entries) with
              | [] => default_cycle_length
              | _ :: _ => mean_int (cycle_lengths (_get_period_starts entries))
              end) in *.
  set (last := List.last (_get_period_starts entries) 0) in *.
  assert (Hwl : working_cycle_length st = avg).
  { unfold working_cycle_length, or_default. rewrite Ha.
    destruct (Qeq_bool avg 0) eqn:E; [|reflexivity].
    exfalso. apply Qeq_bool_iff in E.
    destruct (chosen_average_in_range (_get_period_starts entries))
      as [Hlo _]. fold avg in Hlo. rewrite E in Hlo.
    unfold Qle in Hlo. cbn in Hlo. lia. }
  exists (predict_day set_to_list entries last avg today), (today - last + 1).
  split; [|split; [exact Hc|split]].
  - rewrite (generate_predictions_unfold _ _ _ _ _ Hl). fold st.
    rewrite Hwl. unfold range.
    destruct (Z.to_nat days_ahead) eqn:E; [lia|].
    cbn. now rewrite Z.add_0_r.
  - unfold predict_day. cbn [cycle_day]. rewrite <- Hwl. fold whole.
    replace ((today - last) mod whole + 1 - (today - last + 1))
      with ((today - last) mod whole - (today - last)) by lia.
    rewrite Zminus_mod_idemp_l, Z.sub_diag. apply Z.mod_0_l. lia.
  - intros Hrange. unfold predict_day. cbn [cycle_day phase].
    rewrite <- Hwl at 1 2. fold whole.
    rewrite Z.mod_small by lia.
    split; [reflexivity|]. rewrite Hph. reflexivity.
Qed.
End MorePredictions.

Lemma shorter_forecast_is_prefix_witness :
  generate_predictions Examples.list_order 60 Examples.uneven_history 2
  = firstn 2
      (generate_predictions Examples.list_order 60 Examples.uneven_history 5).
Proof.
  assert (H : 2 <= 5) by lia.
  exact (proj1 (shorter_forecast_is_prefix Examples.list_order 60
                  Examples.uneven_history 2 5 H)).
Defined.

Lemma forecast_repeats_each_cycle_witness :
  exists p q,
    nth_error
      (generate_predictions Examples.list_order 60 Examples.one_start 29) 0
    = Some p /\
    nth_error
      (generate_predictions Examples.list_order 60 Examples.one_start 29) 28
    = Some q /\
    cycle_day q = cycle_day p.
Proof.
  assert (Hp : exists p,
             nth_error (generate_predictions Examples.list_order 60
                          Examples.one_start 29) 0 = Some p)
    by (eexists; reflexivity).
  assert (Hq : exists q,
             nth_error (generate_predictions Examples.list_order 60
                          Examples.one_start 29) 28 = Some q)
    by (eexists; reflexivity).
  destruct Hp as [p Hp]. destruct Hq as [q Hq].
  exists p, q. split; [exact Hp|]. split; [exact Hq|].
  exact (proj1 (proj2 (forecast_repeats_each_cycle Examples.list_order 60
                         Examples.one_start 29 0 p q Hp Hq))).
Defined.

Lemma first_prediction_matches_stats_witness :
  exists p,
    nth_error
      (generate_predictions Examples.list_order 60 Examples.uneven_history 1) 0
    = Some p /\ cycle_day p = 4.
Proof.
  assert (H : (2 <= length (_get_period_starts Examples.uneven_history))%nat)
    by (vm_compute; lia).
  assert (H1 : 1 <= 1) by lia.
  destruct (first_prediction_matches_stats Examples.list_order 60
              Examples.uneven_history 1 H H1) as (p & c & Hp & Hc & _ & Heq).
  vm_compute in Hc. injection Hc as <-.
  exists p. split; [exact Hp|].
  apply Heq. vm_compute. split; discriminate.
Defined.

(** *** Mood patterns *)

Section MoodPatterns.
Variable set_to_list : list string -> list string.

(** A set holds the members of the list it is made from. *)
Hypothesis set_to_list_members :
  forall l x, In x (set_to_list l) <-> In x l.

Lemma set_to_list_nil : set_to_list [] = [].
Proof.
  destruct (set_to_list []) as [|x l] eqn:E; [reflexivity|].
  exfalso. apply (proj1 (set_to_list_members [] x)). rewrite E. now left.
Qed.

(** X11. [analyze_mood_patterns] returns the four phases in order, files
    every mood of every entry under "menstrual", whatever the date of the
    entry, and leaves the three other phases empty. *)
Theorem mood_patterns_single_bucket (entries : list CycleEntry) :
  map fst (analyze_mood_patterns set_to_list entries)
  = [menstrual; follicular; ovulation; luteal] /\
  forall ph ms, In (ph, ms) (analyze_mood_patterns set_to_list entries) ->
    (ph = menstrual /\
     forall m, In m ms <-> exists e, In e entries /\ In m (moods e))
    \/ (ph <> menstrual /\ ms = []).
Proof.
  split; [reflexivity|].
  intros ph ms H. unfold analyze_mood_patterns in H.
  rewrite !set_to_list_nil in H.
  destruct H as [E|[E|[E|[E|[]]]]]; injection E as <- <-.
  - left. split; [reflexivity|]. intros m.
    rewrite set_to_list_members, in_flat_map. reflexivity.
  - right. split; [discriminate | reflexivity].
  - right. split; [discriminate | reflexivity].
  - right. split; [discriminate | reflexivity].
Qed.
End MoodPatterns.

Lemma mood_patterns_single_bucket_witness :
  map fst (analyze_mood_patterns Examples.list_order Examples.one_start)
  = [menstrual; follicular; ovulation; luteal].
Proof.
  assert (H : forall l x, In x (Examples.list_order l) <-> In x l)
    by (intros l x; unfold Examples.list_order; tauto).
  exact (proj1 (mood_patterns_single_bucket Examples.list_order H
                  Examples.one_start)).
Defined.

(** *** The order and the width of the phases *)

Lemma phase_cases (d : Z) (cl : Q) :
  let ov := (cl - luteal_phase_length)%Q in
  (d <= 5 /\ _get_current_phase d cl = menstrual) \/
  (5 < d /\ (inject_Z d <= ov)%Q /\ _get_current_phase d cl = follicular) \/
  (5 < d /\ (ov < inject_Z d)%Q /\ (inject_Z d <= ov + 2)%Q
   /\ _get_current_phase d cl = ovulation) \/
  (5 < d /\ (ov + 2 < inject_Z d)%Q /\ _get_current_phase d cl = luteal).
Proof.
  intros ov. unfold _get_current_phase. fold ov.
  destruct (Z.leb_spec d 5) as [H5|H5]; [left; auto|].
  right. destruct (Qle_bool (inject_Z d) ov) eqn:Hf.
  { apply Qle_bool_iff in Hf. left. auto. }
  apply Qle_bool_false in Hf. apply Qnot_le_lt in Hf.
  right. destruct (Qle_bool (Qabs (inject_Z d - ov)) 2) eqn:Ho.
  - apply Qle_bool_iff in Ho. apply Qabs_Qle_condition in Ho.
    destruct Ho as [_ Ho]. left. repeat split; auto.
    apply (Qplus_le_l _ _ (- ov)%Q). ring_simplify.
    ring_simplify in Ho. exact Ho.
  - apply Qle_bool_false in Ho. right. repeat split; auto.
    apply Qnot_le_lt. intros Hle. apply Ho. apply Qabs_Qle_condition.
    split.
    + apply Qlt_le_weak. apply (Qplus_lt_l _ _ ov). ring_simplify.
      eapply Qlt_trans; [|exact Hf].
      apply (Qplus_lt_l _ _ (- ov)%Q). ring_simplify. reflexivity.
    + apply (Qplus_le_l _ _ ov). ring_simplify.
      ring_simplify in Hle. exact Hle.
Qed.

(** X12. For a given cycle length the phases follow one another in order
    as the cycle day grows: menstrual, follicular, ovulation, luteal, and
    never backward. *)
Theorem phases_in_order (d1 d2 : Z) (cycle_length : Q) :
  d1 <= d2 ->
  Aux.phase_index (_get_current_phase d1 cycle_length)
  <= Aux.phase_index (_get_current_phase d2 cycle_length).
Proof.
  intros H.
  assert (Hq : (inject_Z d1 <= inject_Z d2)%Q) by now rewrite <- Zle_Qle.
  destruct (phase_cases d1 cycle_length)
    as [[? ->]|[(? & ? & ->)|[(? & ? & ? & ->)|(? & ? & ->)]]];
    destruct (phase_cases d2 cycle_length)
      as [[? ->]|[(? & ? & ->)|[(? & ? & ? & ->)|(? & ? & ->)]]];
    cbn; try lia; exfalso;
    try match goal with
        | Hlt : (?a < inject_Z d1)%Q, Hle : (inject_Z d2 <= ?a)%Q |- _ =>
            apply (Qlt_irrefl a);
            eapply Qlt_le_trans; [exact Hlt|];
            eapply Qle_trans; [exact Hq | exact Hle]
        end.
  apply (Qlt_irrefl (cycle_length - luteal_phase_length + 2)).
  eapply Qlt_le_trans; [eassumption|].
  eapply Qle_trans; [exact Hq|].
  eapply Qle_trans; [eassumption|].
  apply (Qplus_le_l _ _ (- (cycle_length - luteal_phase_length))%Q).
  ring_simplify. unfold Qle; cbn; lia.
Qed.

Lemma phases_in_order_witness :
  Aux.phase_index (_get_current_phase 14 28)
  <= Aux.phase_index (_get_current_phase 15 28).
Proof. apply phases_in_order. lia. Defined.

(** X13. The ovulation phase is narrow: two cycle days that both fall in
    it are at most one day apart, so that it covers two days at most; and
    two days of high fertility are at most two days apart. *)
Theorem ovulation_phase_two_days (d1 d2 : Z) (cycle_length : Q) :
  (_get_current_phase d1 cycle_length = ovulation ->
   _get_current_phase d2 cycle_length = ovulation ->
   Z.abs (d1 - d2) <= 1) /\
  (_predict_fertility d1 cycle_length = high ->
   _predict_fertility d2 cycle_length = high ->
   Z.abs (d1 - d2) <= 2).
Proof.
  split.
  - intros H1 H2.
    destruct (phase_cases d1 cycle_length)
      as [[? E]|[(? & ? & E)|[(_ & L1 & U1 & _)|(? & ? & E)]]];
      try congruence.
    destruct (phase_cases d2 cycle_length)
      as [[? E]|[(? & ? & E)|[(_ & L2 & U2 & _)|(? & ? & E)]]];
      try congruence.
    destruct cycle_length as [a b].
    unfold Qlt, Qle, luteal_phase_length in *. cbn in *. nia.
  - unfold _predict_fertility. intros H1 H2.
    destruct (Qle_bool (Qabs (inject_Z d1 -
                                (cycle_length - luteal_phase_length))) 1)
      eqn:E1;
      [|destruct (Qle_bool _ 3) in H1; discriminate].
    destruct (Qle_bool (Qabs (inject_Z d2 -
                                (cycle_length - luteal_phase_length))) 1)
      eqn:E2;
      [|destruct (Qle_bool _ 3) in H2; discriminate].
    apply Qle_bool_iff, Qabs_Qle_condition in E1, E2.
    destruct cycle_length as [a b].
    unfold Qle, luteal_phase_length in *. cbn in *. nia.
Qed.

Lemma ovulation_phase_two_days_witness :
  Z.abs (15 - 16) <= 1.
Proof.
  apply (proj1 (ovulation_phase_two_days 15 16 28)); reflexivity.
Defined.

End CycleMore.

(** ** More on the symptom predictor *)

Module SymptomMore.

Import Py PyFacts SymptomPredictor Spec Aux SymptomFacts.

Local Open Scope string_scope.

(** *** Candidates *)

Lemma incr_keys (k : string) (d : list (string * nat)) :
  map fst (incr k d)
  = if existsb (String.eqb k) (map fst d) then map fst d
    else (map fst d ++ [k])%list.
Proof.
  induction d as [|[k' v] d IH]; cbn; [reflexivity|].
  destruct (String.eqb k k'); cbn; [reflexivity|].
  rewrite IH. now destruct (existsb (String.eqb k) (map fst d)).
Qed.

Lemma existsb_eqb_false (k : string) (l : list string) :
  existsb (String.eqb k) l = false -> ~ In k l.
Proof.
  intros H Hin.
  assert (E : existsb (String.eqb k) l = true).
  { apply existsb_exists. exists k. split; [exact Hin|].
    apply String.eqb_refl. }
  congruence.
Qed.

Lemma incr_in (k : string) (d : list (string * nat)) (kv : string * nat) :
  In kv (incr k d) -> (fst kv = k \/ In (fst kv) (map fst d))
                      /\ (0 < snd kv \/ In kv d)%nat.
Proof.
  induction d as [|[k' v] d IH]; cbn.
  - intros [<-|[]]. cbn. split; [now left | left; lia].
  - destruct (String.eqb_spec k k') as [->|Hne]; cbn.
    + intros [<-|H]; cbn; [split; [now left | left; lia]|].
      split; [right; right; now apply in_map | right; now right].
    + intros [<-|H]; cbn; [split; [right; now left | right; now left]|].
      destruct (IH H) as [[?|?] [?|?]]; split; auto.
Qed.

Lemma incr_ok (k : string) (d : list (string * nat)) :
  In k counted -> counts_ok d -> counts_ok (incr k d).
Proof.
  intros Hk [Hnd Hall]. split.
  - rewrite incr_keys.
    destruct (existsb (String.eqb k) (map fst d)) eqn:E; [exact Hnd|].
    apply existsb_eqb_false in E.
    apply NoDup_app; [exact Hnd | repeat constructor; easy |].
    intros x Hx [<-|[]]. contradiction.
  - rewrite Forall_forall in *. intros kv Hkv.
    destruct (incr_in k d kv Hkv) as [Hkey Hval]. split.
    + destruct Hkey as [->|Hkey]; [exact Hk|].
      apply in_map_iff in Hkey. destruct Hkey as (kv' & <- & Hin).
      exact (proj1 (Hall kv' Hin)).
    + destruct Hval as [?|Hin]; [assumption | exact (proj2 (Hall kv Hin))].
Qed.

Lemma incr_if_ok (b : bool) (k : string) (d : list (string * nat)) :
  In k counted -> counts_ok d -> counts_ok (incr_if b k d).
Proof.
  intros Hk Hd. destruct b; cbn; [now apply incr_ok | exact Hd].
Qed.

Lemma count_patterns_ok (l : list SymptomResponse) :
  counts_ok (count_patterns l).
Proof.
  unfold count_patterns.
  assert (H : forall d, counts_ok d -> counts_ok (fold_left count_step l d)).
  { induction l as [|s l IH]; intros d Hd; [exact Hd|].
    cbn [fold_left]. apply IH. unfold count_step.
    repeat apply incr_if_ok; try exact Hd; cbn; tauto. }
  apply H. split; constructor.
Qed.

Lemma get_of_in (k : string) (v : nat) (d : list (string * nat)) :
  NoDup (map fst d) -> In (k, v) d -> get k d = v.
Proof.
  induction d as [|[k' v'] d IH]; cbn; [easy|].
  intros Hnd [[= -> ->]|Hin].
  - now rewrite String.eqb_refl.
  - apply NoDup_cons_iff in Hnd. destruct Hnd as [Hk Hnd].
    destruct (String.eqb_spec k k') as [->|_].
    + exfalso. apply Hk. now apply (in_map fst _ (k', v)).
    + now apply IH.
Qed.

Lemma occurrences_le (cond : SymptomResponse -> bool)
  (l : list SymptomResponse) :
  (occurrences cond l <= length l)%nat.
Proof. unfold occurrences. apply filter_length_le. Qed.

(** Every entry of the counting dictionary is the count of a tracked
    condition, positive and no larger than the window. *)
Lemma count_patterns_entries (l : list SymptomResponse) (k : string)
  (v : nat) :
  In (k, v) (count_patterns l) ->
  In k counted /\ (0 < v <= length l)%nat.
Proof.
  intros Hin. destruct (count_patterns_ok l) as [Hnd Hall].
  rewrite Forall_forall in Hall. destruct (Hall _ Hin) as [Hk Hv].
  cbn in Hk, Hv. split; [exact Hk|]. split; [exact Hv|].
  pose proof (get_of_in k v _ Hnd Hin) as Hget.
  assert (Hc : exists cond, In (k, cond) tracked_conditions).
  { cbn in Hk. destruct Hk as [<-|[<-|[<-|[<-|[]]]]];
      eexists; cbn; eauto. }
  destruct Hc as [cond Hc].
  pose proof (count_patterns_get k cond l [] Hc) as Hocc.
  fold (count_patterns l) in Hocc. cbn [get] in Hocc.
  rewrite Hget in Hocc. pose proof (occurrences_le cond l). lia.
Qed.

Lemma rate_bounds (v n : nat) :
  (0 < v <= n)%nat -> (0 < rate v n /\ rate v n <= 1)%Q.
Proof.
  intros H. unfold rate, Qlt, Qle. cbn.
  rewrite <- (positive_nat_Z (Pos.of_nat n)), Nat2Pos.id by lia. lia.
Qed.

Lemma pattern_candidates (recent : list SymptomResponse) (target_date : Z)
  (p : PredictedSymptom) :
  In p (_predict_by_patterns recent target_date) ->
  In (symptom p) counted /\
  (6 # 10 < probability p /\ probability p <= 1)%Q /\
  (confidence p = "high" \/ confidence p = "medium").
Proof.
  unfold _predict_by_patterns.
  destruct (length recent <? 3)%nat; [easy|].
  intros H. apply in_flat_map in H. destruct H as ([k r] & Hkr & Hp).
  unfold _analyze_symptom_sequences in Hkr. apply in_map_iff in Hkr.
  destruct Hkr as ([k' v] & [= <- <-] & Hin). cbn [fst snd] in *.
  apply count_patterns_entries in Hin. destruct Hin as [Hk Hv].
  unfold pattern_prediction in Hp.
  destruct (Qgtb (rate v (length recent)) (6 # 10)) eqn:E; [|easy].
  destruct Hp as [<-|[]]. cbn [symptom probability confidence].
  apply Qgtb_lt in E. split; [exact Hk|]. split.
  - split; [exact E | apply rate_bounds; exact Hv].
  - destruct (Qgtb (rate v (length recent)) (8 # 10)); auto.
Qed.

Lemma cycle_phase_candidates (cycle_day : Z) (p : PredictedSymptom) :
  In p (_get_cycle_phase_predictions cycle_day) ->
  In p [mkPredicted "cramps" (7 # 10) "medium";
        mkPredicted "fatigue" (6 # 10) "medium";
        mkPredicted "mood_changes" (6 # 10) "medium";
        mkPredicted "headache" (5 # 10) "low"].
Proof.
  unfold _get_cycle_phase_predictions.
  destruct (existsb (Z.eqb cycle_day) early_cycle).
  - cbn. tauto.
  - destruct (existsb (Z.eqb cycle_day) late_cycle); cbn; tauto.
Qed.

Lemma sequence_candidates (yesterday : SymptomResponse)
  (p : PredictedSymptom) :
  In p (_get_sequence_predictions yesterday) ->
  In p [mkPredicted "cramps" (6 # 10) "medium";
        mkPredicted "fatigue" (8 # 10) "high"].
Proof.
  unfold _get_sequence_predictions.
  destruct (opt_eqb (cramps yesterday) "strong");
    destruct (opt_eqb (sleep_quality yesterday) "poor"); cbn; tauto.
Qed.

Lemma candidate_fields (user_symptoms : list SymptomResponse)
  (target_date : Z) (p : PredictedSymptom) :
  In p (candidate_predictions user_symptoms target_date) ->
  In (symptom p) predictable /\
  (0 < probability p /\ probability p <= 1)%Q /\
  In (confidence p) confidence_levels.
Proof.
  unfold candidate_predictions.
  destruct user_symptoms as [|s0 rest]; [easy|].
  set (recent := recent_window (s0 :: rest)).
  intros H. apply in_app_or in H. destruct H as [H|H].
  - apply pattern_candidates in H. destruct H as (Hk & [Hlo Hhi] & Hc).
    split; [|split].
    + cbn in Hk |- *. tauto.
    + split; [|exact Hhi]. eapply Qlt_trans; [|exact Hlo]. reflexivity.
    + cbn. destruct Hc as [->| ->]; tauto.
  - apply in_app_or in H. destruct H as [H|H].
    + unfold _predict_by_cycle_phase in H.
      destruct recent; [easy|].
      destruct (_find_last_flow_date _); [|easy].
      apply cycle_phase_candidates in H.
      destruct H as [<-|[<-|[<-|[<-|[]]]]]; cbn;
        (split; [tauto|]); (split; [split; [reflexivity | discriminate]|]);
        tauto.
    + unfold _predict_by_sequence in H.
      destruct (length recent <? 2)%nat; [easy|].
      destruct (last_opt recent); [|easy].
      apply sequence_candidates in H.
      destruct H as [<-|[<-|[]]]; cbn;
        (split; [tauto|]); (split; [split; [reflexivity | discriminate]|]);
        tauto.
Qed.

(** X14. Every candidate prediction names one of headache, nausea,
    fatigue, cramps and mood_changes, has a probability above 0 and at most
    1, and a confidence that is low, medium or high. *)
Theorem candidates_well_formed (user_symptoms : list SymptomResponse)
  (target_date : Z) (p : PredictedSymptom) :
  In p (candidate_predictions user_symptoms target_date) ->
  In (symptom p) predictable /\
  (0 < probability p /\ probability p <= 1)%Q /\
  In (confidence p) confidence_levels.
Proof. apply candidate_fields. Qed.

Lemma candidates_well_formed_witness :
  In "headache" predictable.
Proof.
  refine (proj1 (candidates_well_formed
                   [Examples.headache_day 1; Examples.headache_day 2;
                    Examples.headache_day 3] 4
                   (mkPredicted "headache" (rate 3 3) "high") _)).
  vm_compute. tauto.
Defined.

(** *** Cycle-phase heuristic *)

Ltac split_day d :=
  repeat match goal with
         | |- context [Z.eqb d ?k] =>
             destruct (Z.eqb_spec d k); [subst d; reflexivity|]
         end.

Lemma early_cycle_days (d : Z) :
  existsb (Z.eqb d) early_cycle = ((1 <=? d) && (d <=? 5))%Z.
Proof.
  unfold early_cycle. cbn [existsb]. split_day d.
  cbn. symmetry. apply andb_false_iff.
  rewrite Z.leb_gt, Z.leb_gt. lia.
Qed.

Lemma late_cycle_days (d : Z) :
  existsb (Z.eqb d) late_cycle = ((15 <=? d) && (d <=? 28))%Z.
Proof.
  unfold late_cycle. cbn [existsb]. split_day d.
  cbn. symmetry. apply andb_false_iff.
  rewrite Z.leb_gt, Z.leb_gt. lia.
Qed.

Lemma cycle_phase_early (d : Z) :
  (1 <= d <= 5)%Z ->
  _get_cycle_phase_predictions d
  = [mkPredicted "cramps" (7 # 10) "medium";
     mkPredicted "fatigue" (6 # 10) "medium"].
Proof.
  intros H. unfold _get_cycle_phase_predictions. rewrite early_cycle_days.
  destruct (Z.leb_spec 1 d); [|lia]. destruct (Z.leb_spec d 5); [|lia].
  reflexivity.
Qed.

Lemma cycle_phase_late (d : Z) :
  (15 <= d <= 28)%Z ->
  _get_cycle_phase_predictions d
  = [mkPredicted "mood_changes" (6 # 10) "medium";
     mkPredicted "headache" (5 # 10) "low"].
Proof.
  intros H. unfold _get_cycle_phase_predictions.
  rewrite early_cycle_days, late_cycle_days.
  destruct (Z.leb_spec d 5); [lia|]. rewrite andb_false_r.
  destruct (Z.leb_spec 15 d); [|lia]. destruct (Z.leb_spec d 28); [|lia].
  reflexivity.
Qed.

Lemma cycle_phase_silent (d : Z) :
  ~ (1 <= d <= 5)%Z -> ~ (15 <= d <= 28)%Z ->
  _get_cycle_phase_predictions d = [].
Proof.
  intros H1 H2. unfold _get_cycle_phase_predictions.
  rewrite early_cycle_days, late_cycle_days.
  destruct (Z.leb_spec 1 d), (Z.leb_spec d 5), (Z.leb_spec 15 d),
    (Z.leb_spec d 28); cbn [andb]; try reflexivity; lia.
Qed.

(** X15. The cycle-phase heuristic speaks on cycle days 1 to 5 and 15 to
    28 and on no other day: it is silent on days 6 to 14, beyond day 28 and
    before day 1; and without a flow entry in the window it says nothing. *)
Theorem cycle_phase_days (cycle_day : Z) :
  (_get_cycle_phase_predictions cycle_day <> [] <->
   (1 <= cycle_day <= 5)%Z \/ (15 <= cycle_day <= 28)%Z) /\
  ((1 <= cycle_day <= 5)%Z ->
   map symptom (_get_cycle_phase_predictions cycle_day)
   = ["cramps"; "fatigue"]) /\
  ((15 <= cycle_day <= 28)%Z ->
   map symptom (_get_cycle_phase_predictions cycle_day)
   = ["mood_changes"; "headache"]) /\
  forall recent target_date,
    _find_last_flow_date recent = None ->
    _predict_by_cycle_phase recent target_date = [].
Proof.
  split; [|split; [|split]].
  - split.
    + intros Hne.
      destruct (Z_le_dec 1 cycle_day), (Z_le_dec cycle_day 5),
        (Z_le_dec 15 cycle_day), (Z_le_dec cycle_day 28);
        try (left; lia); try (right; lia);
        exfalso; apply Hne; apply cycle_phase_silent; lia.
    + intros [H|H].
      * now rewrite cycle_phase_early.
      * now rewrite cycle_phase_late.
  - intros H. now rewrite cycle_phase_early.
  - intros H. now rewrite cycle_phase_late.
  - intros recent target_date Hnone. unfold _predict_by_cycle_phase.
    rewrite Hnone. now destruct recent.
Qed.

Lemma cycle_phase_days_witness :
  map symptom (_get_cycle_phase_predictions 20) = ["mood_changes"; "headache"].
Proof.
  destruct (cycle_phase_days 20) as (_ & _ & H & _).
  apply H. lia.
Defined.

Lemma find_rev_last {A : Type} (f : A -> bool) (l : list A) (x : A) :
  find f (rev l) = Some x <->
  exists before after,
    l = (before ++ x :: after)%list /\ f x = true
    /\ Forall (fun y => f y = false) after.
Proof.
  induction l as [|a l IH] using rev_ind.
  - cbn. split; [discriminate|].
    intros (before & after & E & _). now destruct before.
  - rewrite rev_unit. cbn [find].
    destruct (f a) eqn:Ha.
    + split.
      * intros [= <-]. exists l, []. repeat split; auto.
      * intros (before & after & E & Hx & Hafter).
        destruct after as [|b after] using rev_ind.
        -- apply app_inj_tail in E. destruct E as [_ ->]. reflexivity.
        -- clear IHafter.
           change (before ++ x :: after ++ [b])%list
             with (before ++ (x :: after) ++ [b])%list in E.
           rewrite app_assoc in E. apply app_inj_tail in E.
           destruct E as [_ ->].
           apply Forall_app in Hafter. destruct Hafter as [_ Hb].
           inversion Hb; subst. congruence.
    + rewrite IH. split.
      * intros (before & after & -> & Hx & Hafter).
        exists before, (after ++ [a])%list. split.
        -- now rewrite <- app_assoc.
        -- split; [exact Hx|]. apply Forall_app. split; [exact Hafter|].
           repeat constructor. exact Ha.
      * intros (before & after & E & Hx & Hafter).
        destruct after as [|b after] using rev_ind.
        -- apply app_inj_tail in E. destruct E as [_ ->]. congruence.
        -- clear IHafter.
           change (before ++ x :: after ++ [b])%list
             with (before ++ (x :: after) ++ [b])%list in E.
           rewrite app_assoc in E. apply app_inj_tail in E.
           destruct E as [-> ->].
           apply Forall_app in Hafter. destruct Hafter as [Hafter _].
           exists before, after. auto.
Qed.

(** X16. [_find_last_flow_date] returns the date of the last entry of the
    list, in list order, whose flow is light, medium or heavy, and returns
    nothing exactly when no entry has such a flow. *)
Theorem last_flow_date_is_last (symptoms : list SymptomResponse) :
  (forall d, _find_last_flow_date symptoms = Some d <->
     exists before s after,
       symptoms = (before ++ s :: after)%list /\ date s = d /\
       has_flow s = true /\
       Forall (fun y => has_flow y = false) after) /\
  (_find_last_flow_date symptoms = None <->
   Forall (fun y => has_flow y = false) symptoms).
Proof.
  unfold _find_last_flow_date. fold has_flow.
  change (fun s : SymptomResponse =>
            truthy (flow_level s)
            && opt_in (flow_level s) ["light"; "medium"; "heavy"])
    with has_flow.
  split.
  - intros d. destruct (find has_flow (rev symptoms)) as [s|] eqn:E.
    + apply find_rev_last in E.
      destruct E as (before & after & -> & Hs & Hafter). split.
      * intros [= <-]. exists before, s, after. auto.
      * intros (before' & s' & after' & E' & <- & Hs' & Hafter').
        f_equal. f_equal.
        assert (Hf : find has_flow (rev (before ++ s :: after))
                     = Some s').
        { rewrite E'. apply find_rev_last. exists before', after'. auto. }
        assert (Hg : find has_flow (rev (before ++ s :: after)) = Some s).
        { apply find_rev_last. exists before, after. auto. }
        congruence.
    + split; [discriminate|].
      intros (before & s & after & -> & _ & Hs & Hafter).
      assert (Hf : find has_flow (rev (before ++ s :: after)) = Some s).
      { apply find_rev_last. exists before, after. auto. }
      congruence.
  - destruct (find has_flow (rev symptoms)) as [s|] eqn:E.
    + split; [discriminate|]. intros Hall.
      apply find_some in E. destruct E as [Hin Hs].
      apply in_rev in Hin. rewrite Forall_forall in Hall.
      specialize (Hall s Hin). congruence.
    + split; [|reflexivity]. intros _. apply Forall_forall. intros y Hy.
      apply (find_none _ _ E). now apply in_rev in Hy.
Qed.

Lemma last_flow_date_is_last_witness :
  _find_last_flow_date
    [Examples.flow_day 1 "heavy"; Examples.flow_day 2 "light";
     Examples.flow_day 3 "none"; Examples.quiet_day 4]
  = Some 2%Z.
Proof.
  apply (proj1 (last_flow_date_is_last _)).
  exists [Examples.flow_day 1 "heavy"], (Examples.flow_day 2 "light"),
    [Examples.flow_day 3 "none"; Examples.quiet_day 4].
  repeat split; repeat constructor.
Defined.

(** *** Sequence heuristic *)

Lemma last_opt_snoc {A : Type} (l : list A) (x : A) :
  last_opt (l ++ [x]) = Some x.
Proof. unfold last_opt. now rewrite rev_unit. Qed.

(** X17. The sequence heuristic needs two entries and then looks at the
    last one only: whatever comes before, the predictions are those of
    the last entry, cramps after strong cramps and fatigue after poor
    sleep. *)
Theorem sequence_uses_last_entry (earlier : list SymptomResponse)
  (yesterday : SymptomResponse) (target_date : Z) :
  earlier <> [] ->
  _predict_by_sequence (earlier ++ [yesterday]) target_date
  = _get_sequence_predictions yesterday /\
  _predict_by_sequence [yesterday] target_date = [] /\
  (In "cramps" (map symptom (_get_sequence_predictions yesterday))
   <-> cramps yesterday = Some "strong") /\
  (In "fatigue" (map symptom (_get_sequence_predictions yesterday))
   <-> sleep_quality yesterday = Some "poor").
Proof.
  intros Hne. split; [|split; [reflexivity|split]].
  - unfold _predict_by_sequence. rewrite length_app. cbn [length].
    destruct (Nat.ltb_spec (length earlier + 1) 2) as [Hlt|_].
    + destruct earlier; [congruence | cbn in Hlt; lia].
    + now rewrite last_opt_snoc.
  - unfold _get_sequence_predictions, opt_eqb.
    destruct (cramps yesterday) as [c|]; destruct (sleep_quality yesterday)
      as [q|]; cbn;
      try destruct (String.eqb_spec c "strong");
      try destruct (String.eqb_spec q "poor"); cbn; subst;
      split; intros H; try tauto; try congruence;
      repeat destruct H as [H|H]; try discriminate; try tauto; congruence.
  - unfold _get_sequence_predictions, opt_eqb.
    destruct (cramps yesterday) as [c|]; destruct (sleep_quality yesterday)
      as [q|]; cbn;
      try destruct (String.eqb_spec c "strong");
      try destruct (String.eqb_spec q "poor"); cbn; subst;
      split; intros H; try tauto; try congruence;
      repeat destruct H as [H|H]; try discriminate; try tauto; congruence.
Qed.

Lemma sequence_uses_last_entry_witness :
  _predict_by_sequence [Examples.quiet_day 1; Examples.rough_day] 2
  = [mkPredicted "cramps" (6 # 10) "medium"].
Proof.
  assert (H : [Examples.quiet_day 1] <> []) by discriminate.
  exact (proj1 (sequence_uses_last_entry [Examples.quiet_day 1]
                  Examples.rough_day 2 H)).
Defined.

(** *** The recent window *)

Lemma StronglySorted_suffix {A : Type} (R : A -> A -> Prop) (l1 l2 : list A) :
  StronglySorted R (l1 ++ l2) ->
  StronglySorted R l2 /\ forall a b, In a l1 -> In b l2 -> R a b.
Proof.
  induction l1 as [|x l1 IH]; cbn; intros H; [split; [exact H | easy]|].
  apply StronglySorted_inv in H. destruct H as [Hs Hx].
  destruct (IH Hs) as [H2 Hab]. split; [exact H2|].
  intros a b [<-|Ha] Hb.
  - rewrite Forall_forall in Hx. apply Hx, in_or_app. now right.
  - now apply Hab.
Qed.

(** X18. The window the predictor works on holds the 7 entries with the
    latest dates, or all of them when there are fewer, in ascending
    order of date: the entries left out are no later than those kept, and
    [based_on_days] is the smaller of 7 and the number of entries. *)
Theorem window_is_most_recent (user_symptoms : list SymptomResponse) :
  let recent := recent_window user_symptoms in
  length recent = Nat.min 7 (length user_symptoms) /\
  based_on_days user_symptoms = Nat.min 7 (length user_symptoms) /\
  StronglySorted (key_le date) recent /\
  exists older,
    Permutation (older ++ recent) user_symptoms /\
    forall a b, In a older -> In b recent -> (date a <= date b)%Z.
Proof.
  intros recent.
  assert (Hlen : length recent = Nat.min 7 (length user_symptoms))
    by apply recent_window_length.
  pose proof (sorted_ordered date user_symptoms) as Hs.
  set (n := (length (sorted date user_symptoms) - 7)%nat).
  rewrite <- (firstn_skipn n (sorted date user_symptoms)) in Hs.
  apply StronglySorted_suffix in Hs. destruct Hs as [Hrecent Hold].
  split; [exact Hlen|]. split; [|split; [exact Hrecent|]].
  - unfold based_on_days. destruct user_symptoms; [reflexivity | exact Hlen].
  - exists (firstn n (sorted date user_symptoms)). split.
    + unfold recent, recent_window, last_n. fold n.
      rewrite firstn_skipn. apply sorted_perm.
    + exact Hold.
Qed.

Lemma window_is_most_recent_witness :
  based_on_days
    [Examples.quiet_day 3; Examples.quiet_day 1; Examples.quiet_day 2]
  = 3%nat.
Proof.
  exact (proj1 (proj2 (window_is_most_recent
                         [Examples.quiet_day 3; Examples.quiet_day 1;
                          Examples.quiet_day 2]))).
Defined.

(** *** Deduplication, again *)

Lemma sorted_of_sorted {A : Type} (key : A -> Z) (l : list A) :
  StronglySorted (key_le key) l -> sorted key l = l.
Proof.
  induction 1 as [|x l Hs IH Hx]; [reflexivity|].
  cbn [sorted fold_right]. fold (sorted key l). rewrite IH.
  destruct l as [|y l]; [reflexivity|]. cbn [insert_by].
  inversion Hx as [|? ? Hxy _]; subst. unfold key_le in Hxy.
  destruct (Z.leb_spec (key x) (key y)); [reflexivity | lia].
Qed.

Lemma keep_first_fixed (l : list Suggestion) (seen : list (string * string)) :
  NoDup (map suggestion_key l) ->
  (forall x, In x l -> ~ In (suggestion_key x) seen) ->
  keep_first seen l = l.
Proof.
  revert seen. induction l as [|x l IH]; intros seen Hnd Hseen;
    [reflexivity|].
  cbn [keep_first]. cbn [map] in Hnd. apply NoDup_cons_iff in Hnd.
  destruct Hnd as [Hx Hnd].
  rewrite (proj2 (seen_spec_false _ _) (Hseen x (or_introl eq_refl))).
  f_equal. apply IH; [exact Hnd|].
  intros y Hy [E|Hin].
  - apply Hx. rewrite E. now apply in_map.
  - exact (Hseen y (or_intror Hy) Hin).
Qed.

Lemma deduplicate_shape (l : list Suggestion) :
  let out := _deduplicate_suggestions l in
  NoDup (map suggestion_key out) /\
  StronglySorted (key_le rank_of) out /\
  (length out <= 10)%nat.
Proof.
  intros out. unfold out. rewrite deduplicate_unfold.
  set (unique := keep_first [] (sorted rank_of l)).
  split; [|split].
  - rewrite <- firstn_map.
    apply (NoDup_app_remove_r _ (skipn 10 (map suggestion_key unique))).
    rewrite firstn_skipn. apply keep_first_nodup.
  - apply (StronglySorted_prefix _ _ (skipn 10 unique)).
    rewrite firstn_skipn. apply keep_first_sorted, sorted_ordered.
  - apply firstn_le_length.
Qed.

(** X19. Deduplicating twice changes nothing: a list that went through
    [_deduplicate_suggestions] comes back from it as it is. *)
Theorem deduplicate_idempotent (l : list Suggestion) :
  _deduplicate_suggestions (_deduplicate_suggestions l)
  = _deduplicate_suggestions l.
Proof.
  destruct (deduplicate_shape l) as (Hnd & Hs & Hlen).
  set (out := _deduplicate_suggestions l) in *.
  rewrite deduplicate_unfold.
  rewrite (sorted_of_sorted rank_of out Hs).
  rewrite keep_first_fixed by (exact Hnd || (intros x _ [])).
  now apply firstn_all2.
Qed.

(** *** What is always suggested *)

Section AlwaysSuggested.
Variable set_to_list : list string -> list string.

Lemma general_collected (current_symptoms : option SymptomResponse)
  (predicted_symptoms : list PredictedSymptom) (x : Suggestion) :
  In x _get_general_wellness_suggestions ->
  In x (fst (collect_suggestions current_symptoms predicted_symptoms)).
Proof.
  intros H. unfold collect_suggestions, pair_app. cbn [fst].
  apply in_or_app. right. apply in_or_app. now right.
Qed.

(** X20. [generate_suggestions] never comes back empty-handed: whatever
    the input, at least two suggestions are returned. *)
Theorem at_least_two_suggestions (today : Z)
  (current_symptoms : option SymptomResponse)
  (predicted_symptoms : list PredictedSymptom) :
  (2 <= length (suggestions
                  (generate_suggestions set_to_list today current_symptoms
                     predicted_symptoms)))%nat.
Proof.
  rewrite generate_suggestions_list, deduplicate_unfold.
  set (collected :=
         fst (collect_suggestions current_symptoms predicted_symptoms)).
  set (unique := keep_first [] (sorted rank_of collected)).
  assert (Hin : incl (map suggestion_key _get_general_wellness_suggestions)
                  (map suggestion_key unique)).
  { intros k Hk. apply in_map_iff in Hk. destruct Hk as (x & <- & Hx).
    apply keep_first_covers; [|easy].
    apply (sorted_in rank_of).
    now apply general_collected. }
  assert (Hnd : NoDup (map suggestion_key _get_general_wellness_suggestions)).
  { cbn. repeat constructor; cbn; intuition discriminate. }
  pose proof (NoDup_incl_length Hnd Hin) as Hle.
  rewrite !length_map in Hle.
  change (length _get_general_wellness_suggestions) with 2%nat in Hle.
  rewrite length_firstn. lia.
Qed.
End AlwaysSuggested.

(** *** Preventive suggestions *)

Lemma db_lookup_keys (k : string) (db : list (string * list Suggestion)) :
  db_lookup k db = None <-> ~ In k (map fst db).
Proof.
  induction db as [|[k' v] db IH]; cbn; [tauto|].
  destruct (String.eqb_spec k k') as [->|Hne].
  - split; [discriminate | tauto].
  - rewrite IH. split; [intros H [E|Hin]; [congruence | tauto] | tauto].
Qed.

Lemma convert_to_preventive_in (entries : list Suggestion) (x : Suggestion) :
  In x (_convert_to_preventive entries) <->
  exists orig,
    In orig entries /\ category orig = "lifestyle" /\
    x = mkSuggestion "preventive" ("Prevent: " ++ title orig)
          ("To prevent symptoms: " ++ description orig) "low".
Proof.
  unfold _convert_to_preventive. rewrite in_flat_map. split.
  - intros (orig & Hin & Hx).
    destruct (String.eqb_spec (category orig) "lifestyle"); [|easy].
    destruct Hx as [<-|[]]. exists orig. auto.
  - intros (orig & Hin & Hc & ->). exists orig. split; [exact Hin|].
    rewrite Hc. cbn. now left.
Qed.

Lemma preventive_suggestions_in (predicted_symptoms : list PredictedSymptom)
  (x : Suggestion) :
  In x (fst (_get_preventive_suggestions predicted_symptoms)) <->
  exists pred, In pred predicted_symptoms /\ In x (fst (preventive_step pred)).
Proof.
  induction predicted_symptoms as [|p l IH]; cbn.
  - split; [easy | now intros (? & [] & _)].
  - rewrite in_app_iff, IH. split.
    + intros [H|(q & Hq & H)]; [exists p | exists q]; auto.
    + intros (q & [<-|Hq] & H); [now left | right; exists q; auto].
Qed.

Lemma preventive_suggestions_none
  (predicted_symptoms : list PredictedSymptom) :
  Forall (fun pred => (probability pred <= 7 # 10)%Q
                      \/ ~ In (symptom pred) catalogue_keys)
    predicted_symptoms ->
  _get_preventive_suggestions predicted_symptoms = ([], []).
Proof.
  induction 1 as [|p l Hp _ IH]; [reflexivity|].
  cbn [_get_preventive_suggestions fold_right].
  fold (_get_preventive_suggestions l). rewrite IH.
  unfold preventive_step. destruct Hp as [Hp|Hp].
  - destruct (Qgtb (probability p) (7 # 10)) eqn:E; [|reflexivity].
    apply Qgtb_lt in E. exfalso. exact (Qlt_not_le _ _ E Hp).
  - apply db_lookup_keys in Hp. rewrite Hp.
    now destruct (Qgtb (probability p) (7 # 10)).
Qed.

(** X21. Preventive suggestions come from likely predictions only: each
    one is made from a lifestyle entry of the catalogue for a predicted
    symptom whose probability exceeds 0.7, carries the category
    "preventive", the priority "low", and the entry's title after
    "Prevent: "; a symptom that is no catalogue key, such as mood_changes,
    and a probability of 0.7 or less give none. *)
Theorem preventive_from_likely_predictions
  (predicted_symptoms : list PredictedSymptom) :
  (forall x,
      In x (fst (_get_preventive_suggestions predicted_symptoms)) ->
      category x = "preventive" /\ priority x = "low" /\
      exists pred entries orig,
        In pred predicted_symptoms /\
        (7 # 10 < probability pred)%Q /\
        db_lookup (symptom pred) suggestion_database = Some entries /\
        In orig entries /\ category orig = "lifestyle" /\
        title x = "Prevent: " ++ title orig) /\
  (Forall (fun pred => (probability pred <= 7 # 10)%Q
                       \/ ~ In (symptom pred) catalogue_keys)
     predicted_symptoms ->
   _get_preventive_suggestions predicted_symptoms = ([], [])) /\
  ~ In "mood_changes" catalogue_keys.
Proof.
  split; [|split].
  - intros x Hx. apply preventive_suggestions_in in Hx.
    destruct Hx as (pred & Hpred & Hx). unfold preventive_step in Hx.
    destruct (Qgtb (probability pred) (7 # 10)) eqn:Hp; [|easy].
    apply Qgtb_lt in Hp.
    destruct (db_lookup (symptom pred) suggestion_database) as [entries|]
      eqn:Hdb; [|easy].
    cbn [fst] in Hx. apply convert_to_preventive_in in Hx.
    destruct Hx as (orig & Hin & Hc & ->). cbn.
    split; [reflexivity|]. split; [reflexivity|].
    exists pred, entries, orig. auto 10.
  - apply preventive_suggestions_none.
  - cbn. intuition discriminate.
Qed.

Lemma preventive_from_likely_predictions_witness :
  _get_preventive_suggestions
    [mkPredicted "mood_changes" (9 # 10) "high";
     mkPredicted "fatigue" (7 # 10) "medium"]
  = ([], []).
Proof.
  apply (proj1 (proj2 (preventive_from_likely_predictions _))).
  constructor.
  - right. cbn. intuition discriminate.
  - constructor; [|constructor]. left. cbn. unfold Qle. cbn. lia.
Defined.

Section QuietDay.
Variable set_to_list : list string -> list string.

(** X22. When nothing calls for advice, only the general advice is given:
    if the current symptoms, when there are any, meet none of the six
    conditions and no prediction is both above 0.7 and a catalogue key,
    the suggestions are the two wellness entries, hydration first. *)
Theorem quiet_day_general_advice (today : Z)
  (current_symptoms : option SymptomResponse)
  (predicted_symptoms : list PredictedSymptom) :
  (forall s, current_symptoms = Some s -> untroubled s) ->
  Forall (fun pred => (probability pred <= 7 # 10)%Q
                      \/ ~ In (symptom pred) catalogue_keys)
    predicted_symptoms ->
  suggestions (generate_suggestions set_to_list today current_symptoms
                 predicted_symptoms)
  = _get_general_wellness_suggestions.
Proof.
  intros Hc Hp. rewrite generate_suggestions_list.
  assert (E : fst (collect_suggestions current_symptoms predicted_symptoms)
              = _get_general_wellness_suggestions).
  { unfold collect_suggestions.
    pose proof (preventive_suggestions_none predicted_symptoms Hp) as Hprev.
    assert (Hcur : match current_symptoms with
                   | Some cs => _get_current_symptom_suggestions cs
                   | None => ([], [])
                   end = ([], [])).
    { destruct current_symptoms as [s|]; [|reflexivity].
      destruct (Hc s eq_refl) as (H1 & H2 & H3 & H4 & H5 & H6).
      unfold _get_current_symptom_suggestions.
      now rewrite H1, H2, H3, H4, H5, H6. }
    rewrite Hcur.
    destruct predicted_symptoms; [reflexivity|]. now rewrite Hprev. }
  rewrite E. reflexivity.
Qed.
End QuietDay.

Lemma quiet_day_general_advice_witness :
  map title
    (suggestions
       (generate_suggestions Examples.list_order 0
          (Some (Examples.quiet_day 1))
          [mkPredicted "mood_changes" (9 # 10) "high"]))
  = ["Stay Hydrated"; "Balanced Nutrition"].
Proof.
  rewrite (quiet_day_general_advice Examples.list_order 0
             (Some (Examples.quiet_day 1))
             [mkPredicted "mood_changes" (9 # 10) "high"]).
  - reflexivity.
  - intros s [= <-]. repeat split.
  - constructor; [|constructor]. right. cbn. intuition discriminate.
Defined.

(** *** Grouping before the merge *)

Lemma group_add_keys (p : PredictedSymptom)
  (g : list (string * list PredictedSymptom)) :
  map fst (group_add p g)
  = if existsb (String.eqb (symptom p)) (map fst g) then map fst g
    else (map fst g ++ [symptom p])%list.
Proof.
  induction g as [|[k ps] g IH]; cbn; [reflexivity|].
  destruct (String.eqb (symptom p) k); cbn; [reflexivity|].
  rewrite IH. now destruct (existsb (String.eqb (symptom p)) (map fst g)).
Qed.

Lemma group_add_ok (p : PredictedSymptom)
  (g : list (string * list PredictedSymptom)) :
  Forall group_ok g -> Forall group_ok (group_add p g).
Proof.
  induction 1 as [|[k ps] g [Hne Hall] Hg IH]; cbn.
  - constructor; [|constructor]. split; cbn; [discriminate|].
    constructor; [reflexivity | constructor].
  - destruct (String.eqb_spec (symptom p) k) as [E|_].
    + constructor; [|assumption]. split; cbn in *.
      * now destruct ps.
      * apply Forall_app. split; [exact Hall | now repeat constructor].
    + constructor; [now split | exact IH].
Qed.

Lemma group_add_perm (p : PredictedSymptom)
  (g : list (string * list PredictedSymptom)) :
  Permutation (concat (map snd (group_add p g)))
    (p :: concat (map snd g)).
Proof.
  induction g as [|[k ps] g IH]; cbn; [reflexivity|].
  destruct (String.eqb (symptom p) k); cbn.
  - rewrite <- app_assoc. cbn.
    symmetry. apply Permutation_middle.
  - rewrite IH. symmetry. apply Permutation_middle.
Qed.

Lemma groups_facts (predictions : list PredictedSymptom) :
  let groups := symptom_groups predictions in
  NoDup (map fst groups) /\
  Forall group_ok groups /\
  Permutation (concat (map snd groups)) predictions /\
  (forall name, In name (map fst groups)
                <-> In name (map symptom predictions)).
Proof.
  intros groups. subst groups. unfold symptom_groups.
  assert (H : forall g,
             NoDup (map fst g) -> Forall group_ok g ->
             let g' := fold_left (fun groups pred => group_add pred groups)
                         predictions g in
             NoDup (map fst g') /\ Forall group_ok g' /\
             Permutation (concat (map snd g'))
               (concat (map snd g) ++ predictions) /\
             (forall name, In name (map fst g')
                           <-> In name (map fst g)
                               \/ In name (map symptom predictions))).
  { induction predictions as [|p l IH]; intros g Hnd Hok; cbn [fold_left].
    - cbn. rewrite app_nil_r. repeat split; auto; tauto.
    - destruct (IH (group_add p g)) as (H1 & H2 & H3 & H4).
      + rewrite group_add_keys.
        destruct (existsb (String.eqb (symptom p)) (map fst g)) eqn:E;
          [exact Hnd|].
        apply existsb_eqb_false in E.
        apply NoDup_app; [exact Hnd | repeat constructor; easy |].
        intros x Hx [<-|[]]. contradiction.
      + now apply group_add_ok.
      + cbv zeta. split; [exact H1|]. split; [exact H2|]. split.
        * rewrite H3, group_add_perm. cbn.
          apply Permutation_middle.
        * intros name. rewrite H4, group_add_keys. cbn [map In].
          destruct (existsb (String.eqb (symptom p)) (map fst g)) eqn:E.
          -- apply existsb_exists in E. destruct E as (k & Hk & E).
             apply String.eqb_eq in E. subst k.
             split; [tauto|]. intros [?|[<-|?]]; tauto.
          -- rewrite in_app_iff. cbn. tauto. }
  destruct (H [] ltac:(constructor) ltac:(constructor)) as (H1 & H2 & H3 & H4).
  cbn [map concat app] in H3.
  split; [exact H1|]. split; [exact H2|]. split; [exact H3|].
  intros name. rewrite H4. cbn. tauto.
Qed.

(** X23. The grouping loop of [_merge_predictions] sorts every candidate
    into the group of its own name: the groups have distinct names, hold
    between them exactly the candidates given, and none is empty, so that
    the mean of a group is always that of at least one probability. *)
Theorem groups_partition_candidates (predictions : list PredictedSymptom) :
  let groups := symptom_groups predictions in
  NoDup (map fst groups) /\
  Forall group_ok groups /\
  Permutation (concat (map snd groups)) predictions /\
  (forall name, In name (map fst groups)
                <-> In name (map symptom predictions)).
Proof. apply groups_facts. Qed.

Lemma groups_partition_candidates_witness :
  NoDup
    (map fst
       (symptom_groups
          [mkPredicted "cramps" (7 # 10) "medium";
           mkPredicted "fatigue" (6 # 10) "medium";
           mkPredicted "cramps" (6 # 10) "medium"])).
Proof.
  exact (proj1 (groups_partition_candidates
                  [mkPredicted "cramps" (7 # 10) "medium";
                   mkPredicted "fatigue" (6 # 10) "medium";
                   mkPredicted "cramps" (6 # 10) "medium"])).
Defined.

(** *** High priority first *)

Lemma is_high_priority (x : Suggestion) :
  is_high x = true <-> priority x = "high".
Proof.
  unfold is_high, priority_rank.
  destruct (String.eqb_spec (priority x) "high") as [E|E];
    [split; auto|].
  destruct (String.eqb (priority x) "medium");
    [split; [discriminate | contradiction]|].
  destruct (String.eqb (priority x) "low"); split;
    (discriminate || contradiction).
Qed.

Lemma rank_of_nonneg (x : Suggestion) : (0 <= rank_of x)%Z.
Proof.
  unfold rank_of, priority_rank.
  destruct (String.eqb (priority x) "high"); [lia|].
  destruct (String.eqb (priority x) "medium"); [lia|].
  destruct (String.eqb (priority x) "low"); lia.
Qed.

Lemma filter_nothing {A : Type} (f : A -> bool) (l : list A) :
  (forall x, In x l -> f x = false) -> filter f l = [].
Proof.
  induction l as [|x l IH]; intros H; [reflexivity|].
  cbn. rewrite (H x) by now left. apply IH. intros; apply H. now right.
Qed.

(** A list in ascending order of rank begins with its entries of rank 0. *)
Lemma sorted_high_first (l : list Suggestion) :
  StronglySorted (key_le rank_of) l ->
  exists rest, l = (filter is_high l ++ rest)%list.
Proof.
  induction 1 as [|x l Hs IH Hx]; [now exists []|].
  cbn [filter]. destruct (is_high x) eqn:E.
  - destruct IH as [rest IH]. exists rest. cbn. now rewrite <- IH.
  - exists (x :: l). rewrite filter_nothing; [reflexivity|].
    intros y Hy. rewrite Forall_forall in Hx. specialize (Hx y Hy).
    unfold key_le in Hx. unfold is_high in *. fold (rank_of x) in E.
    fold (rank_of y). pose proof (rank_of_nonneg x).
    apply Z.eqb_neq in E. apply Z.eqb_neq. lia.
Qed.

Lemma keep_first_app (a b : list Suggestion) (seen : list (string * string)) :
  exists seen',
    keep_first seen (a ++ b) = (keep_first seen a ++ keep_first seen' b)%list.
Proof.
  revert seen. induction a as [|x a IH]; intros seen; cbn.
  - now exists seen.
  - destruct (existsb (key_eqb (suggestion_key x)) seen).
    + apply IH.
    + destruct (IH (suggestion_key x :: seen)) as [seen' E].
      exists seen'. cbn. now rewrite E.
Qed.

(** The high-priority entries for the current symptoms are at most ten, all
    with different keys, whichever of the six conditions hold. *)
Lemma current_high_entries (s : SymptomResponse) :
  let high := filter is_high (fst (_get_current_symptom_suggestions s)) in
  keep_first [] high = high /\ (length high <= 10)%nat.
Proof.
  unfold _get_current_symptom_suggestions.
  destruct (headache s),
    (truthy (cramps s) && opt_in (cramps s) ["moderate"; "strong"]),
    (nausea s), (fatigue s),
    (opt_in (mood s) ["sad"; "irritated"; "anxious"; "depressed"]),
    (opt_in (sleep_quality s) ["poor"; "fair"]);
    vm_compute; (split; [reflexivity | lia]).
Qed.

Lemma preventive_not_high (predicted_symptoms : list PredictedSymptom)
  (x : Suggestion) :
  In x (fst (_get_preventive_suggestions predicted_symptoms)) ->
  is_high x = false.
Proof.
  intros H. apply preventive_suggestions_in in H.
  destruct H as (pred & _ & H). unfold preventive_step in H.
  destruct (Qgtb (probability pred) (7 # 10)); [|easy].
  destruct (db_lookup (symptom pred) suggestion_database); [|easy].
  cbn [fst] in H. apply convert_to_preventive_in in H.
  destruct H as (orig & _ & _ & ->). reflexivity.
Qed.

Lemma collected_high (current_symptoms : option SymptomResponse)
  (predicted_symptoms : list PredictedSymptom) :
  let high :=
    filter is_high
      (fst (collect_suggestions current_symptoms predicted_symptoms)) in
  keep_first [] high = high /\ (length high <= 10)%nat.
Proof.
  unfold collect_suggestions, pair_app. cbn [fst].
  rewrite !filter_app.
  assert (Hprev : filter is_high
                    (fst match predicted_symptoms with
                         | [] => ([], [])
                         | _ :: _ =>
                             _get_preventive_suggestions predicted_symptoms
                         end) = []).
  { apply filter_nothing. intros x Hx.
    destruct predicted_symptoms; [easy|].
    now apply preventive_not_high in Hx. }
  rewrite Hprev. cbn [app filter _get_general_wellness_suggestions is_high].
  change (filter is_high _get_general_wellness_suggestions) with
    (@nil Suggestion).
  rewrite app_nil_r.
  destruct current_symptoms as [s|].
  - apply current_high_entries.
  - cbn. split; [reflexivity | lia].
Qed.

Section HighFirst.
Variable set_to_list : list string -> list string.

(** X24. The limit of ten never cuts a high-priority suggestion: every
    collected suggestion of priority "high" is returned; and when ten of
    them are collected nothing else is, the general advice included. *)
Theorem high_priority_always_returned (today : Z)
  (current_symptoms : option SymptomResponse)
  (predicted_symptoms : list PredictedSymptom) :
  let collected :=
    fst (collect_suggestions current_symptoms predicted_symptoms) in
  let out :=
    suggestions
      (generate_suggestions set_to_list today current_symptoms
         predicted_symptoms) in
  (forall x, In x collected -> priority x = "high" -> In x out) /\
  ((10 <= length (filter is_high collected))%nat ->
   forall x, In x out -> priority x = "high").
Proof.
  intros collected out.
  destruct (collected_high current_symptoms predicted_symptoms)
    as [Hfix Hlen]. fold collected in Hfix, Hlen.
  set (high := filter is_high collected) in *.
  assert (Hout : exists rest, out = firstn 10 (high ++ rest)).
  { unfold out. rewrite generate_suggestions_list, deduplicate_unfold.
    fold collected.
    destruct (sorted_high_first _ (sorted_ordered rank_of collected))
      as [rest Hrest].
    assert (Hst : filter is_high (sorted rank_of collected) = high)
      by apply (sorted_stable rank_of 0%Z collected).
    rewrite Hst in Hrest. rewrite Hrest.
    destruct (keep_first_app high rest []) as [seen' E].
    rewrite E, Hfix. now exists (keep_first seen' rest). }
  destruct Hout as [rest Hout].
  rewrite firstn_app, (firstn_all2 high) in Hout by exact Hlen.
  split.
  - intros x Hx Hp. rewrite Hout. apply in_or_app. left.
    apply filter_In. split; [exact Hx | now apply is_high_priority].
  - intros Hten x Hx. rewrite Hout in Hx.
    replace (10 - length high)%nat with 0%nat in Hx by lia.
    rewrite firstn_O, app_nil_r in Hx.
    apply filter_In in Hx. now apply is_high_priority.
Qed.
End HighFirst.

Lemma high_priority_always_returned_witness :
  In (mkSuggestion "lifestyle" "Sleep Hygiene"
        "Create a relaxing bedtime routine. Avoid screens 1 hour before bed."
        "high")
     (suggestions
        (generate_suggestions Examples.list_order 0
           (Some (mkSymptom 1 (Some "sad") (Some "strong") true true true
                    None (Some "poor")))
           [mkPredicted "fatigue" (8 # 10) "high"])).
Proof.
  apply (proj1 (high_priority_always_returned Examples.list_order 0 _ _)).
  - vm_compute. tauto.
  - reflexivity.
Defined.

(** *** Small logs and the size of a prediction *)

(** X25. A short log silences the heuristics one by one: an empty log gives
    no candidate, a log of one entry only what the cycle-phase heuristic
    says of it, and a log of two entries what the cycle-phase and the
    sequence heuristics say, the frequency heuristic staying out. *)
Theorem short_logs (user_symptoms : list SymptomResponse) (target_date : Z) :
  (length user_symptoms < 3)%nat ->
  let recent := recent_window user_symptoms in
  candidate_predictions user_symptoms target_date
  = (_predict_by_cycle_phase recent target_date
     ++ _predict_by_sequence recent target_date)%list /\
  ((length user_symptoms < 2)%nat ->
   candidate_predictions user_symptoms target_date
   = _predict_by_cycle_phase recent target_date) /\
  (user_symptoms = [] ->
   candidate_predictions user_symptoms target_date = []).
Proof.
  intros H recent.
  assert (Hlen : length recent = Nat.min 7 (length user_symptoms))
    by apply recent_window_length.
  assert (Hpat : _predict_by_patterns recent target_date = []).
  { unfold _predict_by_patterns.
    destruct (Nat.ltb_spec (length recent) 3); [reflexivity | lia]. }
  assert (Hall : candidate_predictions user_symptoms target_date
                 = (_predict_by_cycle_phase recent target_date
                    ++ _predict_by_sequence recent target_date)%list).
  { unfold candidate_predictions.
    destruct user_symptoms as [|s0 rest]; [reflexivity|].
    fold recent. now rewrite Hpat. }
  split; [exact Hall|]. split.
  - intros H2. rewrite Hall. unfold _predict_by_sequence.
    destruct (Nat.ltb_spec (length recent) 2); [|lia].
    apply app_nil_r.
  - intros ->. reflexivity.
Qed.

Lemma short_logs_witness :
  candidate_predictions [Examples.flow_day 1 "heavy"] 2
  = [mkPredicted "cramps" (7 # 10) "medium";
     mkPredicted "fatigue" (6 # 10) "medium"].
Proof.
  assert (H : (length [Examples.flow_day 1 "heavy"] < 3)%nat)
    by (vm_compute; lia).
  destruct (short_logs [Examples.flow_day 1 "heavy"] 2 H) as (_ & H1 & _).
  rewrite H1; [reflexivity | vm_compute; lia].
Defined.

(** X26. A prediction never lists more than five symptoms: the candidates
    fall into at most five groups, one for each name that can be
    predicted. *)
Theorem at_most_five_predictions (user_symptoms : list SymptomResponse)
  (target_date : Z) :
  (length (symptom_groups (candidate_predictions user_symptoms target_date))
   <= 5)%nat.
Proof.
  destruct (groups_facts (candidate_predictions user_symptoms target_date))
    as (Hnd & _ & _ & Hnames).
  rewrite <- (length_map fst).
  change 5%nat with (length predictable).
  apply NoDup_incl_length; [exact Hnd|].
  intros name Hname. apply Hnames, in_map_iff in Hname.
  destruct Hname as (p & <- & Hp).
  exact (proj1 (candidate_fields _ _ _ Hp)).
Qed.

End SymptomMore.
